(** * Dataset adapters of sentence-embedding-evaluation-german

    A shallow embedding of [sentence_embedding_evaluation_german/data.py]:
    the splitter [get_data_split], the five dataset classes
    ([GermEval17], [GermEval18], [GermEval19], [GermEval21],
    [GermEval21vmwe]) and their shared accessors.

    Python objects are modelled as follows.
    - Cells of the array that [pd.read_csv(...).values] returns are
      [pyval]s: strings, booleans, integers or the missing value NaN.
    - A Python [float] is a binary64 number ([spec_float] with precision 53
      and [emax] 1024); [n * split_ratio] and [int(...)] are the IEEE
      operations, rounding included.
    - Exceptions are values of [pyerr]; code that may raise returns
      [result A = pyerr + A].
    - torch's global random generator and the files read so far are threaded
      through a state-and-error monad [M].
    - torch and pandas themselves are external: they are the fields of the
      class [External]. *)

From Stdlib Require Import ZArith List Bool String Ascii Lia Permutation.
From Stdlib Require Import DecimalString.
From Stdlib Require Import Floats.SpecFloat.
Import ListNotations.

Set Implicit Arguments.

Local Open Scope string_scope.
Local Open Scope list_scope.
Local Open Scope Z_scope.

(** [length], [app] and the like are the list functions throughout. *)
Local Abbreviation length := List.length.

(** ** Python values and exceptions *)

Inductive pyval : Type :=
| PStr (s : string)
| PBool (b : bool)
| PInt (z : Z)
| PNaN.

Inductive pyerr : Type :=
| AssertionError (msg : option string)
| AttributeError
| IndexError
| ValueError
| OverflowError
| NameError
| OSError (path : string).

Definition result (A : Type) : Type := (pyerr + A)%type.

Definition ok {A} (a : A) : result A := inr a.
Definition throw {A} (e : pyerr) : result A := inl e.

Definition rbind {A B} (m : result A) (k : A -> result B) : result B :=
  match m with
  | inl e => inl e
  | inr a => k a
  end.

Declare Scope result_scope.
Delimit Scope result_scope with result.
Notation "'let?' x ':=' m 'in' k" := (rbind m (fun x => k))
  (at level 10, x pattern, m at level 100, k at level 200) : result_scope.

(** [mapM] over a list comprehension whose body may raise: the first
    exception, in list order, is the one propagated. *)
Fixpoint rmap {A B} (f : A -> result B) (l : list A) : result (list B) :=
  match l with
  | [] => ok []
  | a :: l' =>
      match f a with
      | inl e => inl e
      | inr b =>
          match rmap f l' with
          | inl e => inl e
          | inr bs => ok (b :: bs)
          end
      end
  end.

(** The numeric value of a cell, for Python's cross-type [==]:
    [True == 1] and [False == 0]. *)
Definition py_num (v : pyval) : option Z :=
  match v with
  | PBool b => Some (if b then 1 else 0)
  | PInt z => Some z
  | _ => None
  end.

(** Python [a == b]. NaN is equal to nothing, itself included. *)
Definition py_eq (a b : pyval) : bool :=
  match a, b with
  | PStr s, PStr t => String.eqb s t
  | PNaN, _ | _, PNaN => false
  | _, _ =>
      match py_num a, py_num b with
      | Some x, Some y => Z.eqb x y
      | _, _ => false
      end
  end.

(** [x in l] for a list [l] of label constants. *)
Definition py_in (x : pyval) (l : list pyval) : bool :=
  existsb (fun v => py_eq v x) l.

(** [l.index(x)]: position of the first element equal to [x];
    [ValueError] when there is none. *)
Fixpoint py_index (l : list pyval) (x : pyval) : result nat :=
  match l with
  | [] => throw ValueError
  | v :: l' =>
      if py_eq v x then ok 0%nat
      else match py_index l' x with
           | inl e => inl e
           | inr k => ok (S k)
           end
  end.

Definition isinstance_str (v : pyval) : bool :=
  match v with
  | PStr _ => true
  | _ => false
  end.

(** [str(v)]. *)
Definition py_str (v : pyval) : string :=
  match v with
  | PStr s => s
  | PBool true => "True"
  | PBool false => "False"
  | PInt z => NilZero.string_of_int (Z.to_int z)
  | PNaN => "nan"
  end.

(** [s.split(":")[0]]: the text before the first colon, all of [s] when
    it has none. *)
Fixpoint before_colon (s : string) : string :=
  match s with
  | EmptyString => EmptyString
  | String c s' =>
      if Ascii.eqb c ":"%char then EmptyString
      else String c (before_colon s')
  end.

(** ** Python floats (binary64) *)

Definition prec : Z := 53.
Definition emax : Z := 1024.

Definition pyfloat : Type := spec_float.

(** [float(z)], the conversion [int * float] applies to its left operand:
    round to nearest even, [OverflowError] beyond the largest double. *)
Definition float_of_int (z : Z) : result pyfloat :=
  match binary_normalize prec emax z 0 false with
  | S754_infinity _ => throw OverflowError
  | f => ok f
  end.

Definition float_mul (x y : pyfloat) : pyfloat := SFmul prec emax x y.

(** [z * r] for an [int] [z] and a [float] [r]. *)
Definition int_mul_float (z : Z) (r : pyfloat) : result pyfloat :=
  (let? f := float_of_int z in ok (float_mul f r))%result.

(** The integer part of a positive mantissa-exponent pair. *)
Definition mantissa_trunc (m : positive) (e : Z) : Z :=
  match e with
  | Zneg p => Zpos m / 2 ^ Zpos p
  | _ => Zpos m * 2 ^ e
  end.

(** [int(f)]: truncation toward zero; NaN and the infinities raise. *)
Definition int_of_float (f : pyfloat) : result Z :=
  match f with
  | S754_nan => throw ValueError
  | S754_infinity _ => throw OverflowError
  | S754_zero _ => ok 0
  | S754_finite s m e => ok (cond_Zopp s (mantissa_trunc m e))
  end.

(** The mathematical floor of a float, the reading of [floor(n * ratio)];
    [None] where the float is no number. *)
Definition float_floor (f : pyfloat) : option Z :=
  match f with
  | S754_nan | S754_infinity _ => None
  | S754_zero _ => Some 0
  | S754_finite s m e =>
      Some match e with
           | Zneg p => cond_Zopp s (Zpos m) / 2 ^ Zpos p
           | _ => cond_Zopp s (Zpos m) * 2 ^ e
           end
  end.

(** The literal [0.2], the default of every [split_ratio] parameter:
    0x3FC999999999999A. *)
Definition float_0_2 : pyfloat := S754_finite false 7205759403792794 (-55).

Definition float_0_5 : pyfloat := S754_finite false 4503599627370496 (-53).

Definition float_zero : pyfloat := S754_zero false.

Definition float_one : pyfloat := S754_finite false 4503599627370496 (-52).

(** A well-formed double [r] with [0 <= r < 1]. *)
Definition ratio_in_unit (r : pyfloat) : Prop :=
  valid_binary prec emax r = true /\
  SFleb float_zero r = true /\
  SFltb r float_one = true.

(** ** Sequences: slices and indexing *)

(** Where a slice bound [k] falls in a sequence of length [len]:
    negative bounds count from the end, and the bound is clipped. *)
Definition slice_bound (len : nat) (k : Z) : nat :=
  if k <? 0 then Z.to_nat (Z.max 0 (k + Z.of_nat len))
  else Nat.min (Z.to_nat k) len.

(** [l[:k]]. *)
Definition slice_to {A} (l : list A) (k : Z) : list A :=
  firstn (slice_bound (length l) k) l.

(** [l[k:]]. *)
Definition slice_from {A} (l : list A) (k : Z) : list A :=
  skipn (slice_bound (length l) k) l.

(** [l[i]] for a Python integer [i]: negative indices count from the
    end; [IndexError] outside [-len, len). *)
Definition py_getitem {A} (l : list A) (i : Z) : result A :=
  let j := if i <? 0 then i + Z.of_nat (length l) else i in
  if j <? 0 then throw IndexError
  else match nth_error l (Z.to_nat j) with
       | Some a => ok a
       | None => throw IndexError
       end.

(** [l[j]] for an index [j] taken from an index tensor, which holds
    non-negative integers. *)
Definition row_at {A} (l : list A) (j : nat) : result A :=
  match nth_error l j with
  | Some a => ok a
  | None => throw IndexError
  end.

(** [l[idx]] for an index tensor [idx]: the rows at those positions. *)
Definition take_rows {A} (l : list A) (idx : list nat) : result (list A) :=
  rmap (row_at l) idx.

(** [enumerate(l)]. *)
Fixpoint enumerate_from {A} (i : nat) (l : list A) : list (nat * A) :=
  match l with
  | [] => []
  | a :: l' => (i, a) :: enumerate_from (S i) l'
  end.

Definition enumerate {A} (l : list A) : list (nat * A) := enumerate_from 0 l.

(** [np.delete(rows, idx, axis=0)]: the rows whose position is not
    listed in [idx]. *)
Definition np_delete {A} (rows : list A) (idx : list nat) : list A :=
  map snd
    (filter (fun ia => negb (existsb (Nat.eqb (fst ia)) idx))
       (enumerate rows)).

(** ** Arrays read from the corpus files *)

(** The two-dimensional object array [pd.read_csv(...).values]. pandas
    pads short lines with NaN, so a field missing from a row reads as
    [PNaN]. *)
Record ndarray : Type := {
  ncols : nat;
  rows : list (list pyval)
}.

(** [row[j]] for a row of an array with [nc] columns. *)
Definition cell (nc : nat) (row : list pyval) (j : nat) : result pyval :=
  if (j <? nc)%nat then ok (nth j row PNaN) else throw IndexError.

(** [data[:, j]]. *)
Definition column (d : ndarray) (j : nat) : result (list pyval) :=
  if (j <? ncols d)%nat then ok (map (fun row => nth j row PNaN) (rows d))
  else throw IndexError.

(** Replace field [j] of a row, padding a short row with NaN. *)
Definition set_field (j : nat) (v : pyval) (row : list pyval) : list pyval :=
  firstn j row ++ repeat PNaN (j - length row) ++ v :: skipn (S j) row.

(** [data[:, j] = vs], for [vs] of the same length as [data]. *)
Definition set_column (d : ndarray) (j : nat) (vs : list pyval)
  : result ndarray :=
  if (j <? ncols d)%nat then
    ok {| ncols := ncols d;
          rows := map (fun rv => set_field j (snd rv) (fst rv))
                    (combine (rows d) vs) |}
  else throw IndexError.

(** ** The external libraries *)

(** torch's global generator and pandas' reader.
    - [manual_seed s] is the generator state after [torch.manual_seed(s)].
    - [randperm g n] is the tensor [torch.randperm(n)] drawn in state [g]
      and the state left behind; it is a permutation of [0, n).
    - [read_csv path sep] is [pd.read_csv(path, sep=sep).values], or the
      exception raised. *)
Class External : Type := {
  rng_state : Type;
  manual_seed : Z -> rng_state;
  randperm : rng_state -> nat -> list nat * rng_state;
  randperm_perm : forall g n, Permutation (fst (randperm g n)) (seq 0 n);
  read_csv : string -> string -> result ndarray
}.

(** ** The state-and-error monad *)

Section Monad.
Context {ext : External}.

(** What a call can change: the generator state, and the list of files
    read so far (latest first). *)
Record world : Type := {
  w_rng : rng_state;
  w_reads : list string
}.

Definition M (A : Type) : Type := world -> result A * world.

Definition ret {A} (a : A) : M A := fun w => (ok a, w).

Definition raise {A} (e : pyerr) : M A := fun w => (throw e, w).

Definition bind {A B} (m : M A) (k : A -> M B) : M B :=
  fun w =>
    match m w with
    | (inl e, w') => (inl e, w')
    | (inr a, w') => k a w'
    end.

Definition lift {A} (r : result A) : M A := fun w => (r, w).

(** [assert c] with no message. *)
Definition py_assert (c : bool) : M unit :=
  if c then ret tt else raise (AssertionError None).

Definition torch_manual_seed (s : Z) : M unit :=
  fun w => (ok tt, {| w_rng := manual_seed s; w_reads := w_reads w |}).

Definition torch_randperm (n : nat) : M (list nat) :=
  fun w =>
    let (p, g) := randperm (w_rng w) n in
    (ok p, {| w_rng := g; w_reads := w_reads w |}).

Definition pd_read_csv_values (path sep : string) : M ndarray :=
  fun w =>
    (read_csv path sep,
     {| w_rng := w_rng w; w_reads := path :: w_reads w |}).

End Monad.

Declare Scope monad_scope.
Delimit Scope monad_scope with monad.
Notation "x <- m ;; k" := (bind m (fun x => k))
  (at level 61, m at next level, right associativity) : monad_scope.
Notation "m ;;; k" := (bind m (fun _ => k))
  (at level 61, right associativity) : monad_scope.

(** ** The splitter *)

Section Splitter.
Context {ext : External}.
Local Open Scope monad_scope.

(** Truth value of a seed: [None] and [0] are false. *)
Definition seed_truthy (random_seed : option Z) : option Z :=
  match random_seed with
  | Some s => if s =? 0 then None else Some s
  | None => None
  end.

Definition get_data_split (n : nat) (split_ratio : pyfloat)
  (random_seed : option Z) : M (list nat * list nat) :=
  match seed_truthy random_seed with
  | Some s => torch_manual_seed s
  | None => ret tt
  end ;;;
  idx <- torch_randperm n ;;
  p <- lift (int_mul_float (Z.of_nat n) split_ratio) ;;
  n_valid <- lift (int_of_float p) ;;
  let idx_valid := slice_to idx n_valid in
  let idx_train := slice_from idx n_valid in
  ret (idx_train, idx_valid).

End Splitter.

(** ** The dataset classes *)

Inductive klass : Type :=
| GermEval17
| GermEval18
| GermEval19
| GermEval21
| GermEval21vmwe.

(** The separator ["\t"]. *)
Definition tab : string := String (ascii_of_nat 9) EmptyString.

Definition GermEval17_tasks : list pyval :=
  [PStr "Relevance"; PStr "Sentiment"; PStr "Category"].

Definition GermEval17_Relevance : list pyval := [PBool false; PBool true].

Definition GermEval17_Sentiment : list pyval :=
  [PStr "negative"; PStr "neutral"; PStr "positive"].

Definition GermEval17_Category : list pyval :=
  [PStr "Image"; PStr "Informationen"; PStr "Connectivity";
   PStr "Auslastung_und_Platzangebot"; PStr "Service_und_Kundenbetreuung";
   PStr "Gastronomisches_Angebot"; PStr "Allgemein"; PStr "Design";
   PStr "Sonstige_Unregelmässigkeiten"; PStr "Gepäck";
   PStr "DB_App_und_Website";
   PStr "Atmosphäre"; PStr "Zugfahrt"; PStr "Ticketkauf"; PStr "nan";
   PStr "Reisen_mit_Kindern"; PStr "Barrierefreiheit"; PStr "Sicherheit";
   PStr "Toiletten"; PStr "Komfort_und_Ausstattung"].

Definition OL_tasks : list pyval := [PStr "A"; PStr "B"; PStr "C"].

Definition OL_coarse : list pyval := [PStr "OFFENSE"; PStr "OTHER"].

Definition OL_fine : list pyval :=
  [PStr "PROFANITY"; PStr "INSULT"; PStr "ABUSE"; PStr "OTHER"].

Definition OL_explicit : list pyval := [PStr "EXPLICIT"; PStr "IMPLICIT"].

Definition GermEval21_tasks : list pyval :=
  [PStr "TOXIC"; PStr "ENGAGE"; PStr "FCLAIM"].

Definition vmwe_labels : list pyval :=
  [PStr "figuratively"; PStr "literally"].

(** Reading an attribute that may never have been assigned. *)
Definition getattr {A} (a : option A) : result A :=
  match a with
  | Some v => ok v
  | None => throw AttributeError
  end.

(** Reading a local variable that may never have been assigned. *)
Definition getlocal {A} (a : option A) : result A :=
  match a with
  | Some v => ok v
  | None => throw NameError
  end.

(** [torch.tensor(l)] for a list of cells: strings are refused. The
    element type torch would choose is not modelled. *)
Definition torch_tensor (l : list pyval) : result (list pyval) :=
  rmap (fun v => if isinstance_str v then throw ValueError else ok v) l.

Section Datasets.
Context {ext : External}.
Local Open Scope monad_scope.

(** A row of the feature matrix the preprocesser returns. *)
Variable feature_row : Type.

(** The attributes an instance holds once [__init__] has returned.
    [labels] is [None] when [self.labels] was never assigned. *)
Record dataset : Type := {
  cls : klass;
  colidx : option nat;
  labels : option (list pyval);
  X : list feature_row;
  y : list pyval;
  indices : list nat;
  idx_valid : option (list nat)
}.

(** The default of [get_data_split]'s [split_ratio] parameter. *)
Definition default_split_ratio : pyfloat := float_0_2.

(** The block [# prepare data split], the same in all five classes:
<<
  if early_stopping and split == "train":
      self.indices, self.idx_valid = get_data_split(
          self.X.shape[0], random_seed=random_seed)
  else:
      self.indices = torch.tensor(range(self.X.shape[0]))
      self.idx_valid = None
>>
    The call names [random_seed] only, so [split_ratio] is the default. *)
Definition prepare_data_split (n : nat) (early_stopping : bool)
  (split : string) (random_seed : option Z)
  : M (list nat * option (list nat)) :=
  if early_stopping && (split =? "train")%string then
    tv <- get_data_split n default_split_ratio random_seed ;;
    ret (fst tv, Some (snd tv))
  else
    ret (seq 0 n, None).

(** The comprehension [[self.labels.index(row[self.colidx]) for row in data]]
    turned into a tensor. [self.labels] is looked up first, then the
    field, then [index] is called. *)
Definition encode_labels (labels : option (list pyval)) (nc col : nat)
  (rows : list (list pyval)) : result (list pyval) :=
  rmap (fun row =>
          let? labs := getattr labels in
          let? v := cell nc row col in
          let? k := py_index labs v in
          ok (PInt (Z.of_nat k)))%result
       rows.

Definition GermEval17_init (preprocesser : list pyval -> list feature_row)
  (datafolder : string) (task : pyval) (test early_stopping : bool)
  (split_ratio : pyfloat) (random_seed : option Z) : M dataset :=
  py_assert (py_in task GermEval17_tasks) ;;;
  i <- lift (py_index GermEval17_tasks task) ;;
  let colidx := (i + 2)%nat in
  let labels :=
    if py_eq task (PStr "Relevance") then Some GermEval17_Relevance
    else if py_eq task (PStr "Sentiment") then Some GermEval17_Sentiment
    else if py_eq task (PStr "Category") then Some GermEval17_Category
    else None in
  let split := if test then "test" else "train" in
  data <- pd_read_csv_values
            (datafolder ++ "/germeval17/" ++ split ++ ".tsv") tab ;;
  c4 <- lift (column data 4) ;;
  data <- lift (set_column data 4
                  (map (fun s => PStr (before_colon (py_str s))) c4)) ;;
  c1 <- lift (column data 1) ;;
  let idxbad :=
    map fst (filter (fun ix => negb (isinstance_str (snd ix)))
               (enumerate c1)) in
  let data := {| ncols := ncols data;
                 rows := np_delete (rows data) idxbad |} in
  texts <- lift (column data 1) ;;
  let X := preprocesser texts in
  y <- lift (encode_labels labels (ncols data) colidx (rows data)) ;;
  iv <- prepare_data_split (length X) early_stopping split random_seed ;;
  ret {| cls := GermEval17; colidx := Some colidx; labels := labels;
         X := X; y := y; indices := fst iv; idx_valid := snd iv |}.

Definition GermEval18_init (preprocesser : list pyval -> list feature_row)
  (datafolder : string) (task : pyval) (test early_stopping : bool)
  (split_ratio : pyfloat) (random_seed : option Z) : M dataset :=
  py_assert (py_in task OL_tasks) ;;;
  i <- lift (py_index OL_tasks task) ;;
  let colidx := (i + 1)%nat in
  let labels :=
    if py_eq task (PStr "A") then Some OL_coarse
    else if py_eq task (PStr "B") then Some OL_fine
    else None in
  let split := if test then "test" else "train" in
  data <- pd_read_csv_values
            (datafolder ++ "/germeval18/" ++ split ++ ".txt") tab ;;
  texts <- lift (column data 0) ;;
  let X := preprocesser texts in
  y <- lift (encode_labels labels (ncols data) colidx (rows data)) ;;
  iv <- prepare_data_split (length X) early_stopping split random_seed ;;
  ret {| cls := GermEval18; colidx := Some colidx; labels := labels;
         X := X; y := y; indices := fst iv; idx_valid := snd iv |}.

Definition GermEval19_init (preprocesser : list pyval -> list feature_row)
  (datafolder : string) (task : pyval) (test early_stopping : bool)
  (split_ratio : pyfloat) (random_seed : option Z) : M dataset :=
  py_assert (py_in task OL_tasks) ;;;
  i <- lift (py_index OL_tasks task) ;;
  let colidx := (i + 1)%nat in
  let labels_fsuf :=
    if py_eq task (PStr "A") then (Some OL_coarse, Some "12")
    else if py_eq task (PStr "B") then (Some OL_fine, Some "12")
    else if py_eq task (PStr "C") then (Some OL_explicit, Some "3")
    else (None, None) in
  let labels := fst labels_fsuf in
  let split := if test then "gold" else "train" in
  fsuf <- lift (getlocal (snd labels_fsuf)) ;;
  data <- pd_read_csv_values
            (datafolder ++ "/germeval19/" ++ split ++ fsuf ++ ".txt") tab ;;
  texts <- lift (column data 0) ;;
  let X := preprocesser texts in
  y <- lift (encode_labels labels (ncols data) colidx (rows data)) ;;
  iv <- prepare_data_split (length X) early_stopping split random_seed ;;
  ret {| cls := GermEval19; colidx := Some colidx; labels := labels;
         X := X; y := y; indices := fst iv; idx_valid := snd iv |}.

Definition GermEval21_init (preprocesser : list pyval -> list feature_row)
  (datafolder : string) (task : pyval) (test early_stopping : bool)
  (split_ratio : pyfloat) (random_seed : option Z) : M dataset :=
  py_assert (py_in task GermEval21_tasks) ;;;
  i <- lift (py_index GermEval21_tasks task) ;;
  let colidx := (i + 2)%nat in
  let split := if test then "test" else "train" in
  data <- pd_read_csv_values
            (datafolder ++ "/germeval21/" ++ split ++ ".csv") "," ;;
  texts <- lift (column data 1) ;;
  let X := preprocesser texts in
  y <- lift (let? vs := rmap (fun row => cell (ncols data) row colidx)
                          (rows data) in
             torch_tensor vs)%result ;;
  iv <- prepare_data_split (length X) early_stopping split random_seed ;;
  ret {| cls := GermEval21; colidx := Some colidx; labels := None;
         X := X; y := y; indices := fst iv; idx_valid := snd iv |}.

Definition GermEval21vmwe_init
  (preprocesser : list pyval -> list feature_row)
  (datafolder : string) (test early_stopping : bool)
  (split_ratio : pyfloat) (random_seed : option Z) : M dataset :=
  let labels := Some vmwe_labels in
  let split := if test then "test" else "train" in
  data <- pd_read_csv_values
            (datafolder ++ "/germeval21vmwe/" ++ split ++ ".tsv") tab ;;
  c2 <- lift (column data 2) ;;
  idxbad <- lift (let? labs := getattr labels in
                  ok (map fst (filter (fun ix => negb (py_in (snd ix) labs))
                                 (enumerate c2))))%result ;;
  let data := {| ncols := ncols data;
                 rows := np_delete (rows data) idxbad |} in
  texts <- lift (column data 3) ;;
  let X := preprocesser texts in
  y <- lift (encode_labels labels (ncols data) 2 (rows data)) ;;
  iv <- prepare_data_split (length X) early_stopping split random_seed ;;
  ret {| cls := GermEval21vmwe; colidx := None; labels := labels;
         X := X; y := y; indices := fst iv; idx_valid := snd iv |}.

(** Construction of an instance of class [k]. [GermEval21vmwe] has no
    [task] parameter. *)
Definition construct (k : klass)
  (preprocesser : list pyval -> list feature_row)
  (datafolder : string) (task : pyval) (test early_stopping : bool)
  (split_ratio : pyfloat) (random_seed : option Z) : M dataset :=
  match k with
  | GermEval17 =>
      GermEval17_init preprocesser datafolder task test early_stopping
        split_ratio random_seed
  | GermEval18 =>
      GermEval18_init preprocesser datafolder task test early_stopping
        split_ratio random_seed
  | GermEval19 =>
      GermEval19_init preprocesser datafolder task test early_stopping
        split_ratio random_seed
  | GermEval21 =>
      GermEval21_init preprocesser datafolder task test early_stopping
        split_ratio random_seed
  | GermEval21vmwe =>
      GermEval21vmwe_init preprocesser datafolder test early_stopping
        split_ratio random_seed
  end.

(** The accessors, word for word the same in the five classes. *)

Definition get_validation_set (d : dataset)
  : result (option (list feature_row) * option (list pyval)) :=
  match idx_valid d with
  | Some iv =>
      (let? xs := take_rows (X d) iv in
       let? ys := take_rows (y d) iv in
       ok (Some xs, Some ys))%result
  | None => ok (None, None)
  end.

Definition num_classes (d : dataset) : result nat :=
  match cls d with
  | GermEval21 | GermEval21vmwe => ok 2%nat
  | _ => (let? labs := getattr (labels d) in ok (length labs))%result
  end.

Definition __len__ (d : dataset) : nat := length (indices d).

Definition __getitem__ (d : dataset) (rowidx : Z)
  : result (feature_row * pyval) :=
  (let? i := py_getitem (indices d) rowidx in
   let? x := row_at (X d) i in
   let? j := py_getitem (indices d) rowidx in
   let? l := row_at (y d) j in
   ok (x, l))%result.

End Datasets.

(** ** A concrete environment

    A small generator, a handful of files and a preprocesser, on which the
    model runs by computation. The generator is not torch's: it is one
    implementation of the interface [External], here a linear congruential
    generator driving an insertion shuffle. *)

Module Demo.

Definition lcg_next (g : Z) : Z :=
  (6364136223846793005 * g + 1442695040888963407) mod 2 ^ 64.

Definition insert_at {A} (k : nat) (x : A) (l : list A) : list A :=
  firstn k l ++ x :: skipn k l.

Fixpoint lcg_randperm (g : Z) (n : nat) : list nat * Z :=
  match n with
  | O => ([], g)
  | S m =>
      let (p, g1) := lcg_randperm g m in
      let g2 := lcg_next g1 in
      (insert_at (Z.to_nat ((g2 / 2 ^ 33) mod Z.of_nat (S m))) m p, g2)
  end.

Definition lcg_manual_seed (s : Z) : Z := s mod 2 ^ 64.

Lemma insert_at_perm {A} (k : nat) (x : A) (l : list A) :
  Permutation (insert_at k x l) (x :: l).
Proof.
  unfold insert_at.
  rewrite <- (firstn_skipn k l) at 3.
  symmetry. apply Permutation_middle.
Qed.

Lemma lcg_randperm_perm (g : Z) (n : nat) :
  Permutation (fst (lcg_randperm g n)) (seq 0 n).
Proof.
  induction n as [|m IH]; [reflexivity|].
  cbn [lcg_randperm].
  destruct (lcg_randperm g m) as [p g1]. cbn [fst] in *.
  rewrite insert_at_perm, seq_S. cbn [Nat.add].
  rewrite IH. apply Permutation_cons_append.
Qed.

Definition str_row (l : list string) : list pyval := map PStr l.

(** [datasets/germeval17/train.tsv]: ten rows; the text of one row is
    missing. *)
Definition germeval17_train : ndarray :=
  {| ncols := 5;
     rows :=
       [ [PStr "u0"; PStr "Der Zug war voll"; PBool true; PStr "negative";
          PStr "Zugfahrt:negative"];
         [PStr "u1"; PStr "Danke"; PBool false; PStr "neutral"; PNaN];
         [PStr "u2"; PStr "Tolles Design"; PBool true; PStr "positive";
          PStr "Design:positive"];
         [PStr "u3"; PStr "Kein WLAN"; PBool true; PStr "negative";
          PStr "Connectivity:negative"];
         [PStr "u4"; PNaN; PBool false; PStr "neutral"; PNaN];
         [PStr "u5"; PStr "Ticket gekauft"; PBool true; PStr "neutral";
          PStr "Ticketkauf:neutral"];
         [PStr "u6"; PStr "Guten Morgen"; PBool false; PStr "neutral"; PNaN];
         [PStr "u7"; PStr "Toilette defekt"; PBool true; PStr "negative";
          PStr "Toiletten:negative"];
         [PStr "u8"; PStr "Nettes Personal"; PBool true; PStr "positive";
          PStr "Service_und_Kundenbetreuung:positive"];
         [PStr "u9"; PStr "Die App ist gut"; PBool true; PStr "positive";
          PStr "DB_App_und_Website:positive"];
         [PStr "u10"; PStr "Bahn"; PBool true; PStr "neutral";
          PStr "Allgemein:neutral"] ] |}.

(** [datasets/germeval18/train.txt]. *)
Definition germeval18_train : ndarray :=
  {| ncols := 3;
     rows := [ str_row ["Liebe Leute"; "OTHER"; "OTHER"];
               str_row ["Du Idiot"; "OFFENSE"; "INSULT"];
               str_row ["Mist"; "OFFENSE"; "PROFANITY"] ] |}.

(** [broken/germeval18/train.txt]: the second row carries a label outside
    the vocabulary. *)
Definition germeval18_unknown_label : ndarray :=
  {| ncols := 3;
     rows := [ str_row ["Liebe Leute"; "OTHER"; "OTHER"];
               str_row ["Du Idiot"; "OFFENCE"; "INSULT"];
               str_row ["Mist"; "OFFENSE"; "PROFANITY"] ] |}.

(** [empty/germeval18/train.txt]: a header line and no data. *)
Definition germeval18_header_only : ndarray :=
  {| ncols := 3; rows := [] |}.

(** [datasets/germeval21vmwe/train.tsv]: the third row is labelled
    ["both"], which the vocabulary lacks. *)
Definition germeval21vmwe_train : ndarray :=
  {| ncols := 4;
     rows := [ str_row ["1"; "ins Gras beissen"; "figuratively"; "Er biss ins Gras"];
               str_row ["2"; "im Regen stehen"; "literally"; "Sie stand im Regen"];
               str_row ["3"; "auf dem Tisch liegen"; "both"; "Es liegt auf dem Tisch"];
               str_row ["4"; "in der Luft liegen"; "figuratively"; "Das lag in der Luft"] ] |}.

Definition files : list (string * ndarray) :=
  [ ("datasets/germeval17/train.tsv", germeval17_train);
    ("datasets/germeval18/train.txt", germeval18_train);
    ("broken/germeval18/train.txt", germeval18_unknown_label);
    ("empty/germeval18/train.txt", germeval18_header_only);
    ("datasets/germeval21vmwe/train.tsv", germeval21vmwe_train) ].

Fixpoint lookup_file (path : string) (fs : list (string * ndarray))
  : result ndarray :=
  match fs with
  | [] => throw (OSError path)
  | (p, d) :: fs' => if (p =? path)%string then ok d else lookup_file path fs'
  end.

#[export] Instance ext : External := {|
  rng_state := Z;
  manual_seed := lcg_manual_seed;
  randperm := lcg_randperm;
  randperm_perm := lcg_randperm_perm;
  read_csv := fun path _ => lookup_file path files
|}.

(** The preprocesser: one feature per text, its length. *)
Definition preprocesser (texts : list pyval) : list (list Z) :=
  map (fun t => [Z.of_nat (String.length (py_str t))]) texts.

(** The world before anything ran. *)
Definition w0 : world := {| w_rng := 0; w_reads := [] |}.

End Demo.

Lemma digits2_pos_bounds (p : positive) :
  2 ^ (Zpos (digits2_pos p) - 1) <= Zpos p < 2 ^ Zpos (digits2_pos p).
Proof.
  induction p as [p IH|p IH|]; cbn [digits2_pos].
  - rewrite Pos2Z.inj_succ.
    replace (Z.succ (Zpos (digits2_pos p)) - 1)
      with (Z.succ (Zpos (digits2_pos p) - 1)) by lia.
    rewrite !Z.pow_succ_r by lia. lia.
  - rewrite Pos2Z.inj_succ.
    replace (Z.succ (Zpos (digits2_pos p)) - 1)
      with (Z.succ (Zpos (digits2_pos p) - 1)) by lia.
    rewrite !Z.pow_succ_r by lia. lia.
  - cbn. lia.
Qed.

Lemma iter_pos_nat {A} (f : A -> A) (p : positive) (x : A) :
  iter_pos f p x = Nat.iter (Pos.to_nat p) f x.
Proof.
  revert x. induction p as [p IH|p IH|]; intro x; cbn [iter_pos].
  - rewrite !IH, Pos2Nat.inj_xI, <- Nat.iter_add, <- Nat.iter_succ_r.
    f_equal. lia.
  - rewrite !IH, Pos2Nat.inj_xO, <- Nat.iter_add. f_equal. lia.
  - reflexivity.
Qed.

Lemma shr_1_m (mrs : shr_record) :
  0 <= shr_m mrs -> shr_m (shr_1 mrs) = shr_m mrs / 2.
Proof.
  destruct mrs as [m r s]; cbn [shr_m]. intro Hm.
  destruct m as [|p|p]; [reflexivity| |lia].
  destruct p as [p|p|]; cbn [shr_1 shr_m].
  - apply Z.div_unique with (r := 1); lia.
  - apply Z.div_unique with (r := 0); lia.
  - reflexivity.
Qed.

Lemma shr_1_r (mrs : shr_record) :
  0 <= shr_m mrs -> shr_r (shr_1 mrs) = Z.odd (shr_m mrs).
Proof.
  destruct mrs as [m r s]; cbn [shr_m]. intro Hm.
  destruct m as [|p|p]; [reflexivity| |lia].
  destruct p; reflexivity.
Qed.

(** After [k] one-bit shifts of [M]: the mantissa is [M / 2^k], and the
    round bit is set only if the bits shifted out are at least half. *)
Lemma shr_iter (M : Z) (k : nat) :
  0 <= M ->
  let mrs := Nat.iter k shr_1 (shr_record_of_loc M loc_Exact) in
  shr_m mrs = M / 2 ^ Z.of_nat k /\
  (shr_r mrs = true -> 2 ^ Z.of_nat k <= 2 * (M mod 2 ^ Z.of_nat k)).
Proof.
  intros HM. induction k as [|k IH].
  - cbn. split; [now rewrite Z.div_1_r | discriminate].
  - cbn zeta in *. rewrite Nat.iter_succ.
    destruct IH as [IHm IHr].
    set (mrs := Nat.iter k shr_1 (shr_record_of_loc M loc_Exact)) in *.
    assert (Hpow : 0 < 2 ^ Z.of_nat k) by (apply Z.pow_pos_nonneg; lia).
    assert (Hnn : 0 <= shr_m mrs)
      by (rewrite IHm; apply Z.div_pos; lia).
    rewrite Nat2Z.inj_succ, Z.pow_succ_r by lia.
    split.
    + rewrite shr_1_m, IHm by assumption.
      rewrite Z.div_div by lia. f_equal. lia.
    + rewrite shr_1_r, IHm by assumption. intro Hodd.
      pose proof (Z.div_mod M (2 ^ Z.of_nat k) ltac:(lia)) as Hdm.
      pose proof (Z.mod_pos_bound M (2 ^ Z.of_nat k) Hpow) as Hb.
      apply Z.odd_spec in Hodd. destruct Hodd as [q Hq].
      rewrite Hq in Hdm.
      rewrite <- (Z.mod_unique M (2 * 2 ^ Z.of_nat k) q
                    (2 ^ Z.of_nat k + M mod 2 ^ Z.of_nat k)); [lia|lia|].
      rewrite Hdm at 1. ring.
Qed.

(** The number of bits [binary_round_aux] shifts out of [M * 2^E]. *)
Definition shift_of (M E : Z) : Z :=
  Z.max 0 (fexp prec emax (Zdigits2 M + E) - E).

Lemma shr_fexp_spec (M E : Z) :
  0 <= M ->
  exists mrs,
    shr_fexp prec emax M E loc_Exact = (mrs, E + shift_of M E) /\
    shr_m mrs = M / 2 ^ shift_of M E /\
    (shr_r mrs = true ->
     2 ^ shift_of M E <= 2 * (M mod 2 ^ shift_of M E)).
Proof.
  intro HM. unfold shr_fexp, shr, shift_of.
  destruct (fexp prec emax (Zdigits2 M + E) - E) as [|p|p] eqn:Hs.
  - exists (shr_record_of_loc M loc_Exact). cbn.
    rewrite Z.add_0_r, Z.div_1_r. repeat split. discriminate.
  - exists (iter_pos shr_1 p (shr_record_of_loc M loc_Exact)).
    rewrite iter_pos_nat.
    replace (Z.max 0 (Z.pos p)) with (Z.of_nat (Pos.to_nat p)) by lia.
    split; [f_equal; lia|]. now apply shr_iter.
  - exists (shr_record_of_loc M loc_Exact).
    replace (Z.max 0 (Z.neg p)) with 0 by lia. cbn.
    rewrite Z.add_0_r, Z.div_1_r. repeat split. discriminate.
Qed.

Lemma round_nearest_even_spec (mrs : shr_record) :
  let m2 := round_nearest_even (shr_m mrs) (loc_of_shr_record mrs) in
  m2 = shr_m mrs \/ (m2 = shr_m mrs + 1 /\ shr_r mrs = true).
Proof.
  destruct mrs as [m [|] [|]]; cbn; try destruct (Z.even m); auto.
Qed.

(** [binary_round_aux] on an exact positive input, as arithmetic on the
    mantissa: shift, round to [m2], shift again, check the exponent. *)
Lemma binary_round_aux_spec (sx : bool) (M E : Z) :
  0 <= M ->
  exists m2,
    (m2 = M / 2 ^ shift_of M E \/
     (m2 = M / 2 ^ shift_of M E + 1 /\
      2 ^ shift_of M E <= 2 * (M mod 2 ^ shift_of M E))) /\
    binary_round_aux prec emax sx M E loc_Exact =
    let e1 := E + shift_of M E in
    let e2 := e1 + shift_of m2 e1 in
    match m2 / 2 ^ shift_of m2 e1 with
    | Z0 => S754_zero sx
    | Zpos m =>
        if e2 <=? emax - prec then S754_finite sx m e2
        else S754_infinity sx
    | Zneg _ => S754_nan
    end.
Proof.
  intro HM. unfold binary_round_aux.
  destruct (shr_fexp_spec E HM) as (mrs & -> & Hm & Hr).
  pose proof (round_nearest_even_spec mrs) as Hrne. cbn zeta in Hrne.
  set (m2 := round_nearest_even (shr_m mrs) (loc_of_shr_record mrs)) in *.
  assert (Hpow : 0 < 2 ^ shift_of M E)
    by (apply Z.pow_pos_nonneg; unfold shift_of; lia).
  assert (Hm2 : 0 <= m2).
  { assert (0 <= shr_m mrs) by (rewrite Hm; apply Z.div_pos; lia).
    destruct Hrne as [->|[-> _]]; lia. }
  exists m2. split.
  - rewrite <- Hm. destruct Hrne as [?|[? ?]]; auto.
  - destruct (shr_fexp_spec (E + shift_of M E) Hm2) as (mrs2 & -> & Hm2' & _).
    cbn zeta. rewrite Hm2'. reflexivity.
Qed.

Lemma pow2_pos (a : Z) : 0 <= a -> 0 < 2 ^ a.
Proof. intro. apply Z.pow_pos_nonneg; lia. Qed.

Lemma pow2_lt_inv (u v : Z) : 0 <= v -> 2 ^ u < 2 ^ v -> u < v.
Proof. intros Hv H. apply (Z.pow_lt_mono_r_iff 2); lia. Qed.

Lemma pow2_le_inv (u v : Z) : 0 <= v -> 2 ^ u <= 2 ^ v -> u <= v.
Proof. intros Hv H. apply (Z.pow_le_mono_r_iff 2); lia. Qed.

Lemma pow2_split (u v : Z) : 0 <= u -> u <= v -> 2 ^ v = 2 ^ (v - u) * 2 ^ u.
Proof. intros. rewrite <- Z.pow_add_r by lia. f_equal. lia. Qed.

Lemma Zdigits2_bounds (M : Z) :
  0 < M -> 1 <= Zdigits2 M /\ 2 ^ (Zdigits2 M - 1) <= M < 2 ^ Zdigits2 M.
Proof.
  destruct M as [|p|p]; try lia. intros _. cbn [Zdigits2].
  split; [lia|apply digits2_pos_bounds].
Qed.

Lemma fexp_eq (e : Z) : fexp prec emax e = Z.max (e - 53) (-1074).
Proof. reflexivity. Qed.

(** Round to nearest never passes a double [mB * 2^eB] (normal) when the
    exact value lies below the midpoint just above it. The comparison of
    values is scaled by [2^c] to stay in the integers. *)
Lemma round_below (M E mB eB c m2 : Z) :
  0 < M ->
  2 ^ 52 <= mB < 2 ^ 53 ->
  -1074 <= eB ->
  0 <= E + c ->
  0 <= eB + c ->
  2 * M * 2 ^ (E + c) < (2 * mB + 1) * 2 ^ (eB + c) ->
  (m2 = M / 2 ^ shift_of M E \/
   (m2 = M / 2 ^ shift_of M E + 1 /\
    2 ^ shift_of M E <= 2 * (M mod 2 ^ shift_of M E))) ->
  m2 * 2 ^ (E + shift_of M E + c) <= mB * 2 ^ (eB + c) /\
  (E <= eB -> E + shift_of M E <= eB).
Proof.
  intros HM HmB HeB Ha Hb H Hm2.
  destruct (Zdigits2_bounds HM) as (Hd1 & Hdlo & Hdhi).
  unfold shift_of in *. rewrite fexp_eq in *.
  set (d := Zdigits2 M) in *.
  set (k1 := Z.max 0 (Z.max (d + E - 53) (-1074) - E)) in *.
  assert (Hk1 : 0 <= k1) by lia.
  set (a := E + c) in *. set (b := eB + c) in *.
  replace (E + k1 + c) with (a + k1) by lia.
  pose proof (pow2_pos Ha) as Hpa. pose proof (pow2_pos Hb) as Hpb.
  pose proof (pow2_pos Hk1) as Hpk.
  pose proof (Z.div_mod M (2 ^ k1) ltac:(lia)) as Hdm.
  pose proof (Z.mod_pos_bound M (2 ^ k1) Hpk) as Hrem.
  set (m1 := M / 2 ^ k1) in *. set (rem := M mod 2 ^ k1) in *.
  (* the exponent of the exact value is at most that of the bound *)
  assert (S2 : d + E - 53 <= eB).
  { assert (2 ^ (d + a) < 2 ^ (54 + b)).
    { replace (d + a) with (1 + (d - 1) + a) by lia.
      rewrite !Z.pow_add_r by lia.
      change (2 ^ 1) with 2. change (2 ^ 54) with (2 * 2 ^ 53).
      pose proof (pow2_pos (a := d - 1) ltac:(lia)). nia. }
    apply pow2_lt_inv in H0; lia. }
  (* and at least as large once the value reaches the bound *)
  assert (S1 : mB * 2 ^ b <= M * 2 ^ a -> eB <= d + E - 53).
  { intro Hx.
    assert (2 ^ (52 + b) < 2 ^ (d + a)).
    { rewrite !Z.pow_add_r by lia. nia. }
    apply pow2_lt_inv in H0; lia. }
  split.
  2:{ lia. }
  apply Z.nlt_ge. intro Hgt.
  rewrite Z.pow_add_r in Hgt by lia.
  destruct (Z.eq_dec k1 0) as [Hk0|Hk0].
  - (* nothing is shifted out *)
    rewrite Hk0 in *. change (2 ^ 0) with 1 in *.
    assert (m2 = M) by (subst m1; destruct Hm2 as [->|[_ ?]]; lia).
    subst m2.
    assert (Hab : b <= a) by (specialize (S1 ltac:(lia)); lia).
    rewrite (pow2_split (u := b) (v := a)) in H, Hgt by lia.
    pose proof (pow2_pos (a := a - b) ltac:(lia)) as Hpt.
    set (pt := 2 ^ (a - b)) in *. set (pb := 2 ^ b) in *.
    assert (mB < M * pt).
    { apply (Z.mul_lt_mono_pos_r pb); [assumption|]. lia. }
    assert ((2 * mB + 2) * pb <= 2 * (M * pt) * pb).
    { apply Z.mul_le_mono_nonneg_r; lia. }
    lia.
  - assert (He1 : a + k1 <= b) by lia.
    rewrite (pow2_split (u := a + k1) (v := b)) in H, Hgt by lia.
    rewrite (Z.pow_add_r 2 a k1) in H, Hgt by lia.
    pose proof (pow2_pos (a := b - (a + k1)) ltac:(lia)) as Hpt.
    set (pt := 2 ^ (b - (a + k1))) in *.
    set (pa := 2 ^ a) in *. set (pk := 2 ^ k1) in *.
    assert (Hlt : mB * pt < m2).
    { apply (Z.mul_lt_mono_pos_r (pa * pk)); [nia|]. lia. }
    assert (Hm1 : mB * pt <= m1) by (destruct Hm2 as [->|[-> _]]; lia).
    assert (HM1 : m1 * pk <= M) by lia.
    assert (Hx : mB * 2 ^ b <= M * pa).
    { rewrite (pow2_split (u := a + k1) (v := b)) by lia.
      rewrite (Z.pow_add_r 2 a k1) by lia. fold pt pa pk.
      assert (mB * pt * pk <= M) by nia.
      assert (mB * pt * pk * pa <= M * pa)
        by (apply Z.mul_le_mono_nonneg_r; lia).
      lia. }
    specialize (S1 Hx).
    assert (Ht : b - (a + k1) = 0) by lia.
    assert (Hpt1 : pt = 1) by (subst pt; rewrite Ht; reflexivity).
    rewrite Hpt1 in *.
    assert (Hfin : (2 * mB + 1) * pk <= 2 * M).
    { destruct Hm2 as [->|[-> Hup]]; nia. }
    assert ((2 * mB + 1) * pk * pa <= 2 * M * pa)
      by (apply Z.mul_le_mono_nonneg_r; lia).
    lia.
Qed.

Lemma iter_xO_pow (p d : positive) :
  Zpos (Pos.iter xO p d) = Zpos p * 2 ^ Zpos d.
Proof.
  change (Pos.iter xO p d) with (shift_pos d p).
  rewrite shift_pos_correct. unfold Z.pow. lia.
Qed.

Lemma Zdigits2_unique (M k : Z) :
  0 < M -> 2 ^ (k - 1) <= M < 2 ^ k -> Zdigits2 M = k.
Proof.
  intros HM [Hlo Hhi].
  destruct (Zdigits2_bounds HM) as (Hd1 & Hdlo & Hdhi).
  assert (0 <= k).
  { destruct (Z.le_gt_cases 0 k); [assumption|].
    rewrite Z.pow_neg_r in Hhi by lia. lia. }
  assert (Zdigits2 M - 1 < k) by (apply pow2_lt_inv; lia).
  assert (k - 1 < Zdigits2 M) by (apply pow2_lt_inv; lia).
  lia.
Qed.

(** [float(n)] for a positive [n] that does not overflow, against the
    double [mB * 2^eB] obtained by chopping [n] to 53 bits: [float(n)] is
    that double or the next one up. *)
Lemma float_of_int_cases (n : Z) :
  0 < n ->
  (float_of_int n = throw OverflowError /\ 2 ^ 1023 <= n) \/
  exists mN eN mB eB,
    float_of_int n = ok (S754_finite false mN eN) /\
    2 ^ 52 <= mB < 2 ^ 53 /\
    -52 <= eB <= 971 /\
    eB <= eN <= eB + 1 /\
    Zpos mN * 2 ^ (eN - eB) <= mB + 1 /\
    (forall t, 0 <= t -> 0 <= eB + t -> mB * 2 ^ (eB + t) <= n * 2 ^ t).
Proof.
  intros Hn. destruct n as [|p|p]; try lia.
  unfold float_of_int, ok, throw. cbn [binary_normalize]. unfold binary_round, shl_align.
  rewrite fexp_eq.
  destruct (digits2_pos_bounds p) as [Hdlo Hdhi].
  set (d := Zpos (digits2_pos p)) in *.
  assert (Hd1 : 1 <= d) by (subst d; lia).
  destruct (Z.max (d + 0 - 53) (-1074) - 0) as [|q|q] eqn:Hsh.
  - (* 53 bits exactly *)
    assert (Hd : d = 53) by lia.
    destruct (binary_round_aux_spec false (M := Zpos p) 0 ltac:(lia))
      as (m2 & Hm2 & ->).
    assert (Hs1 : shift_of (Zpos p) 0 = 0).
    { unfold shift_of. rewrite fexp_eq. cbn [Zdigits2]. fold d. lia. }
    rewrite Hs1 in *. cbn zeta. change (2 ^ 0) with 1 in Hm2.
    rewrite Z.div_1_r, Z.mod_1_r in Hm2.
    assert (m2 = Zpos p) by (destruct Hm2 as [?|[_ ?]]; lia). subst m2.
    assert (Hs2 : shift_of (Zpos p) (0 + 0) = 0).
    { unfold shift_of. rewrite fexp_eq. cbn [Zdigits2]. fold d. lia. }
    rewrite Hs2. change (2 ^ 0) with 1. rewrite Z.div_1_r.
    right. exists p, 0, (Zpos p), 0. rewrite Hd in *.
    split; [reflexivity|]. repeat split; try lia.
    intros t Ht _. rewrite Z.add_0_l. lia.
  - (* more than 53 bits: rounding *)
    assert (Hq : Zpos q = d - 53) by lia.
    destruct (binary_round_aux_spec false (M := Zpos p) 0 ltac:(lia))
      as (m2 & Hm2 & ->).
    assert (Hs1 : shift_of (Zpos p) 0 = Zpos q).
    { unfold shift_of. rewrite fexp_eq. cbn [Zdigits2]. fold d. lia. }
    rewrite Hs1 in *. cbn zeta. rewrite Z.add_0_l.
    set (pq := 2 ^ Zpos q) in *.
    assert (Hpq : 0 < pq) by (apply pow2_pos; lia).
    pose proof (Z.div_mod (Zpos p) pq ltac:(lia)) as Hdm.
    pose proof (Z.mod_pos_bound (Zpos p) pq Hpq) as Hrem.
    set (m1 := Zpos p / pq) in *.
    assert (Hm1 : 2 ^ 52 <= m1 < 2 ^ 53).
    { assert (H1 : 2 ^ (d - 1) = 2 ^ 52 * pq).
      { subst pq. rewrite <- Z.pow_add_r by lia. f_equal. lia. }
      assert (H2 : 2 ^ d = 2 ^ 53 * pq).
      { subst pq. rewrite <- Z.pow_add_r by lia. f_equal. lia. }
      rewrite H1 in Hdlo. rewrite H2 in Hdhi. split.
      - apply Z.div_le_lower_bound; lia.
      - apply Z.div_lt_upper_bound; lia. }
    assert (Hm2' : m1 <= m2 <= m1 + 1) by (destruct Hm2 as [->|[-> _]]; lia).
    assert (Hk2 : 0 <= shift_of m2 (Zpos q) <= 1).
    { unfold shift_of. rewrite fexp_eq.
      assert (Zdigits2 m2 <= 54).
      { destruct (Zdigits2_bounds (M := m2) ltac:(lia)) as (? & ? & ?).
        assert (Zdigits2 m2 - 1 < 54)
          by (apply pow2_lt_inv; [lia|]; change (2 ^ 54) with (2 * 2 ^ 53); lia).
        lia. }
      assert (53 <= Zdigits2 m2).
      { destruct (Zdigits2_bounds (M := m2) ltac:(lia)) as (? & ? & ?).
        assert (52 < Zdigits2 m2) by (apply pow2_lt_inv; lia).
        lia. }
      lia. }
    set (k2 := shift_of m2 (Zpos q)) in *.
    assert (Hpk2 : 0 < 2 ^ k2) by (apply pow2_pos; lia).
    pose proof (Z.div_mod m2 (2 ^ k2) ltac:(lia)) as Hdm2.
    pose proof (Z.mod_pos_bound m2 (2 ^ k2) Hpk2) as Hrem2.
    destruct (m2 / 2 ^ k2) as [|mN|mN] eqn:Hm3.
    + exfalso.
      assert (2 ^ k2 <= 2) by
        (change 2 with (2 ^ 1) at 2; apply Z.pow_le_mono_r; lia).
      lia.
    + destruct (Zpos q + k2 <=? emax - prec) eqn:Hov.
      2:{ left. split; [reflexivity|].
          apply Z.leb_gt in Hov. unfold emax, prec in Hov.
          eapply Z.le_trans; [|exact Hdlo].
          apply Z.pow_le_mono_r; lia. }
      apply Z.leb_le in Hov. unfold emax, prec in Hov.
      right. exists mN, (Zpos q + k2), m1, (Zpos q).
      split; [reflexivity|]. repeat split; try lia.
      * replace (Zpos q + k2 - Zpos q) with k2 by lia. lia.
      * intros t Ht _. rewrite Z.pow_add_r by lia. fold pq.
        assert (m1 * pq <= Zpos p) by lia.
        rewrite Z.mul_assoc.
        apply Z.mul_le_mono_nonneg_r; [apply Z.lt_le_incl, pow2_pos|]; lia.
    + exfalso. pose proof (Z.div_pos m2 (2 ^ k2) ltac:(lia) Hpk2). lia.
  - (* fewer than 53 bits: the mantissa is shifted left *)
    assert (Hq : Zpos q = 53 - d) by lia.
    replace (Z.max (d + 0 - 53) (-1074)) with (d - 53) by lia.
    set (M := Zpos (Pos.iter xO p q)).
    assert (HM : M = Zpos p * 2 ^ Zpos q) by apply iter_xO_pow.
    assert (Hpq : 0 < 2 ^ Zpos q) by (apply pow2_pos; lia).
    assert (HMb : 2 ^ 52 <= M < 2 ^ 53).
    { assert (H1 : 2 ^ 52 = 2 ^ (d - 1) * 2 ^ Zpos q).
      { rewrite <- Z.pow_add_r by lia. f_equal. lia. }
      assert (H2 : 2 ^ 53 = 2 ^ d * 2 ^ Zpos q).
      { rewrite <- Z.pow_add_r by lia. f_equal. lia. }
      rewrite H1, H2, HM. split.
      - apply Z.mul_le_mono_nonneg_r; lia.
      - apply Z.mul_lt_mono_pos_r; lia. }
    assert (HdM : Zdigits2 M = 53)
      by (apply Zdigits2_unique; [lia|exact HMb]).
    destruct (binary_round_aux_spec false (M := M) (d - 53) ltac:(lia))
      as (m2 & Hm2 & ->).
    assert (Hs1 : shift_of M (d - 53) = 0).
    { unfold shift_of. rewrite fexp_eq, HdM. lia. }
    rewrite Hs1 in *. cbn zeta. change (2 ^ 0) with 1 in Hm2.
    rewrite Z.div_1_r, Z.mod_1_r in Hm2.
    assert (m2 = M) by (destruct Hm2 as [?|[_ ?]]; lia). subst m2.
    rewrite Z.add_0_r, Hs1. change (2 ^ 0) with 1. rewrite Z.div_1_r.
    rewrite Z.add_0_r. subst M.
    replace (d - 53 <=? emax - prec) with true
      by (symmetry; apply Z.leb_le; unfold emax, prec; lia).
    right.
    exists (Pos.iter xO p q), (d - 53), (Zpos (Pos.iter xO p q)), (d - 53).
    split; [reflexivity|]. repeat split; try lia.
    + rewrite Z.sub_diag. lia.
    + intros t Ht Ht'. rewrite HM.
      replace t with (Zpos q + (d - 53 + t)) at 2 by lia.
      rewrite (Z.pow_add_r 2 (Zpos q)) by lia. lia.
Qed.

Lemma float_of_int_spec (n : Z) (f : pyfloat) :
  0 < n ->
  float_of_int n = ok f ->
  exists mN eN mB eB,
    f = S754_finite false mN eN /\
    2 ^ 52 <= mB < 2 ^ 53 /\
    -52 <= eB <= 971 /\
    eB <= eN <= eB + 1 /\
    Zpos mN * 2 ^ (eN - eB) <= mB + 1 /\
    (forall t, 0 <= t -> 0 <= eB + t -> mB * 2 ^ (eB + t) <= n * 2 ^ t).
Proof.
  intros Hn Hf.
  destruct (float_of_int_cases Hn) as [[He _]|(mN & eN & mB & eB & He & H)].
  - rewrite He in Hf. discriminate.
  - rewrite He in Hf. injection Hf as <-. exists mN, eN, mB, eB.
    split; [reflexivity|exact H].
Qed.

(** [float(n)] succeeds for every [n] below [2^1023]. *)
Lemma float_of_int_in_range (n : Z) :
  0 <= n < 2 ^ 1023 -> exists f, float_of_int n = ok f.
Proof.
  intros [Hn Hlt]. destruct (Z.eq_dec n 0) as [->|Hn0].
  - eexists. reflexivity.
  - destruct (float_of_int_cases (n := n) ltac:(lia))
      as [[_ Hge]|(mN & eN & _ & _ & He & _)]; [lia|].
    eexists. exact He.
Qed.

Lemma compare_cont_Eq_Lt (p q : positive) :
  Pos.compare_cont Eq p q = Lt -> (p < q)%positive.
Proof. exact (fun H => H). Qed.

(** A ratio in [0, 1) is a zero or a positive double below one. *)
Lemma ratio_in_unit_cases (r : pyfloat) :
  ratio_in_unit r ->
  (exists s, r = S754_zero s) \/
  (exists mr er, r = S754_finite false mr er /\
                 -1074 <= er <= -53 /\ Zpos mr < 2 ^ 53).
Proof.
  intros (Hv & Hle & Hlt).
  destruct r as [s|s| |s m e].
  - left. now exists s.
  - destruct s; discriminate.
  - discriminate.
  - right. destruct s; [discriminate|].
    exists m, e. split; [reflexivity|].
    cbn [valid_binary] in Hv. unfold bounded, canonical_mantissa in Hv.
    apply andb_true_iff in Hv. destruct Hv as [Hc _].
    apply Z.eqb_eq in Hc. rewrite fexp_eq in Hc.
    destruct (digits2_pos_bounds m) as [Hdlo Hdhi].
    set (d := Zpos (digits2_pos m)) in *.
    assert (Hd : d <= 53) by lia.
    assert (Hm : Zpos m < 2 ^ 53).
    { eapply Z.lt_le_trans; [exact Hdhi|].
      apply Z.pow_le_mono_r; lia. }
    unfold SFltb, SFcompare, float_one in Hlt.
    destruct (Z.compare_spec e (-52)) as [He|He|He]; try discriminate.
    + (* same exponent as 1.0: the mantissa would be below 2^52 *)
      exfalso. assert (Hd' : d - 1 = 52) by lia.
      rewrite Hd' in Hdlo. clear Hd' Hc Hd Hm Hdhi.
      destruct (Pos.compare_cont Eq m 4503599627370496) eqn:Hcmp;
        try discriminate.
      apply compare_cont_Eq_Lt, Pos2Z.pos_lt_pos in Hcmp.
      assert (H52 : 2 ^ 52 = 4503599627370496) by reflexivity.
      rewrite H52 in Hdlo. apply (Z.lt_irrefl (Zpos m)).
      eapply Z.lt_le_trans; eassumption.
    + repeat split; lia.
Qed.

Lemma mantissa_trunc_nonneg (m : positive) (e : Z) : 0 <= mantissa_trunc m e.
Proof.
  unfold mantissa_trunc. destruct e as [|p|p].
  - lia.
  - pose proof (pow2_pos (a := Zpos p) ltac:(lia)). nia.
  - apply Z.div_pos; [lia|]. apply pow2_pos. lia.
Qed.

Lemma float_floor_positive (m : positive) (e : Z) :
  float_floor (S754_finite false m e) = Some (mantissa_trunc m e).
Proof. destruct e; reflexivity. Qed.

(** The heart of the splitter's arithmetic: for a ratio in [0, 1) the
    product [float(n) * ratio], rounded to a double and truncated,
    lies in [0, n]. *)
Lemma split_count_spec (n : Z) (r f : pyfloat) :
  0 <= n ->
  ratio_in_unit r ->
  float_of_int n = ok f ->
  exists k,
    int_of_float (float_mul f r) = ok k /\
    float_floor (float_mul f r) = Some k /\
    0 <= k <= n /\
    ((exists s, r = S754_zero s) -> k = 0).
Proof.
  intros Hn Hr Hf.
  destruct (Z.eq_dec n 0) as [->|Hn0].
  { (* float(0) is zero, and so is every product *)
    unfold float_of_int in Hf. cbn in Hf. injection Hf as <-.
    exists 0. destruct (ratio_in_unit_cases Hr) as [[s ->]|(mr & er & -> & _)];
      cbn; repeat split; lia || reflexivity. }
  destruct (float_of_int_spec (n := n) ltac:(lia) Hf)
    as (mN & eN & mB & eB & -> & HmB & HeB & HeN & HN & HB).
  destruct (ratio_in_unit_cases Hr) as [[s ->]|(mr & er & -> & Her & Hmr)].
  { exists 0. cbn. repeat split; lia || reflexivity. }
  unfold float_mul. cbn [SFmul xorb].
  destruct (binary_round_aux_spec false (M := Zpos (mN * mr)) (eN + er)
              ltac:(lia)) as (m2 & Hm2 & ->).
  cbn zeta.
  set (M := Zpos (mN * mr)) in *. set (E := eN + er) in *.
  set (c := - (eB + er)).
  assert (HM : M = Zpos mN * Zpos mr) by (subst M; lia).
  assert (Hmid : 2 * M * 2 ^ (E + c) < (2 * mB + 1) * 2 ^ (eB + c)).
  { replace (E + c) with (eN - eB) by (subst E c; lia).
    replace (eB + c) with (- er) by (subst c; lia).
    assert (H53 : 2 ^ 53 <= 2 ^ (- er)) by (apply Z.pow_le_mono_r; lia).
    set (X := Zpos mN * 2 ^ (eN - eB)) in *.
    assert (HX : 0 < X).
    { subst X. pose proof (pow2_pos (a := eN - eB) ltac:(lia)). nia. }
    replace (2 * M * 2 ^ (eN - eB)) with (2 * X * Zpos mr)
      by (subst X; rewrite HM; ring).
    assert (2 * X * Zpos mr <= 2 * (mB + 1) * (2 ^ 53 - 1)).
    { apply Z.mul_le_mono_nonneg; lia. }
    assert ((2 * mB + 1) * 2 ^ 53 <= (2 * mB + 1) * 2 ^ (- er)).
    { apply Z.mul_le_mono_nonneg_l; lia. }
    lia. }
  destruct (round_below (M := M) (mB := mB) (eB := eB) (m2 := m2) E c
              ltac:(lia) HmB ltac:(lia)
              ltac:(subst E c; lia) ltac:(subst c; lia) Hmid Hm2)
    as [Hval He1].
  specialize (He1 ltac:(subst E; lia)).
  set (k1 := shift_of M E) in *. set (e1 := E + k1) in *.
  assert (Hk1 : 0 <= k1) by (subst k1; unfold shift_of; lia).
  assert (Hm2pos : 0 <= m2).
  { assert (0 <= M / 2 ^ k1) by (apply Z.div_pos; [lia|apply pow2_pos; lia]).
    destruct Hm2 as [->|[-> _]]; lia. }
  set (k2 := shift_of m2 e1) in *.
  assert (Hk2 : 0 <= k2) by (subst k2; unfold shift_of; lia).
  assert (Hpk2 : 0 < 2 ^ k2) by (apply pow2_pos; lia).
  pose proof (Z.div_mod m2 (2 ^ k2) ltac:(lia)) as Hdm2.
  pose proof (Z.mod_pos_bound m2 (2 ^ k2) Hpk2) as Hrem2.
  destruct (m2 / 2 ^ k2) as [|m3|m3] eqn:Hm3.
  - exists 0. cbn. repeat split; lia.
  - (* a positive product: its exponent stays below that of the bound *)
    assert (Hec : 0 <= e1 + c) by (subst e1 E c; lia).
    assert (Hbc : 53 <= eB + c) by (subst c; lia).
    pose proof (pow2_pos Hec) as Hpec.
    pose proof (pow2_pos (a := eB + c) ltac:(lia)) as Hpbc.
    assert (Hm2lt : m2 * 2 ^ (e1 + c) < 2 ^ 53 * 2 ^ (eB + c)).
    { eapply Z.le_lt_trans; [exact Hval|].
      apply Z.mul_lt_mono_pos_r; lia. }
    assert (Hm2gt : 0 < m2) by lia.
    destruct (Zdigits2_bounds Hm2gt) as (Hd2 & Hd2lo & _).
    assert (He2 : e1 + k2 <= eB).
    { assert (Hlt : 2 ^ (Zdigits2 m2 - 1 + (e1 + c)) < 2 ^ (53 + (eB + c))).
      { rewrite (Z.pow_add_r 2 (Zdigits2 m2 - 1) (e1 + c)) by lia.
        rewrite (Z.pow_add_r 2 53 (eB + c)) by lia.
        eapply Z.le_lt_trans; [|exact Hm2lt].
        apply Z.mul_le_mono_nonneg_r; lia. }
      apply pow2_lt_inv in Hlt; [|lia].
      subst k2. unfold shift_of. rewrite fexp_eq. lia. }
    replace (e1 + k2 <=? emax - prec) with true
      by (symmetry; apply Z.leb_le; unfold emax, prec; lia).
    exists (mantissa_trunc m3 (e1 + k2)).
    cbn [int_of_float cond_Zopp]. rewrite float_floor_positive.
    split; [reflexivity|]. split; [reflexivity|].
    split; [|intros [s Hs]; discriminate].
    split; [apply mantissa_trunc_nonneg|].
    (* the value of the product is at most [mB * 2^eB], hence at most [n] *)
    set (e3 := e1 + k2) in *.
    assert (He3c : 0 <= e3 + c) by (subst e3; lia).
    assert (Hv3 : Zpos m3 <= mB * 2 ^ (eB - e3)).
    { apply (Z.mul_le_mono_pos_r _ _ (2 ^ (e3 + c))); [apply pow2_pos; lia|].
      rewrite <- Z.mul_assoc, <- Z.pow_add_r by lia.
      replace (eB - e3 + (e3 + c)) with (eB + c) by lia.
      eapply Z.le_trans; [|exact Hval].
      replace (e3 + c) with (k2 + (e1 + c)) by (subst e3; lia).
      rewrite Z.pow_add_r by lia.
      rewrite Z.mul_assoc.
      apply Z.mul_le_mono_nonneg_r; lia. }
    clearbody e3.
    unfold mantissa_trunc. destruct e3 as [|p3|p3].
    + specialize (HB 0 ltac:(lia) ltac:(lia)).
      rewrite Z.sub_0_r in Hv3. rewrite Z.add_0_r in HB.
      change (2 ^ 0) with 1 in *. lia.
    + specialize (HB 0 ltac:(lia) ltac:(lia)).
      rewrite Z.add_0_r in HB. change (2 ^ 0) with 1 in HB.
      rewrite (pow2_split (u := Zpos p3) (v := eB)) in HB by lia.
      pose proof (pow2_pos (a := Zpos p3) ltac:(lia)).
      assert (Zpos m3 * 2 ^ Zpos p3 <= mB * 2 ^ (eB - Zpos p3) * 2 ^ Zpos p3)
        by (apply Z.mul_le_mono_nonneg_r; lia).
      lia.
    + specialize (HB (Zpos p3) ltac:(lia) ltac:(lia)).
      replace (eB - Zneg p3) with (eB + Zpos p3) in Hv3 by lia.
      apply Z.div_le_upper_bound; [apply pow2_pos|]; lia.
  - exfalso. pose proof (Z.div_pos m2 (2 ^ k2) Hm2pos Hpk2). lia.
Qed.

(** ** Slices *)

Lemma slice_bound_le (len : nat) (k : Z) : (slice_bound len k <= len)%nat.
Proof. unfold slice_bound. destruct (k <? 0) eqn:Hk; lia. Qed.

Lemma slice_bound_nonneg (len : nat) (k : Z) :
  0 <= k <= Z.of_nat len -> slice_bound len k = Z.to_nat k.
Proof.
  intros [H0 H1]. unfold slice_bound.
  destruct (k <? 0) eqn:Hk; [apply Z.ltb_lt in Hk; lia|lia].
Qed.

(** [l[k:] + l[:k]] rearranges [l], whatever the bound. *)
Lemma slices_perm {A} (l : list A) (k : Z) :
  Permutation (slice_from l k ++ slice_to l k) l.
Proof.
  unfold slice_from, slice_to.
  rewrite Permutation_app_comm. now rewrite firstn_skipn.
Qed.

Lemma slice_to_length {A} (l : list A) (k : Z) :
  0 <= k <= Z.of_nat (length l) -> Z.of_nat (length (slice_to l k)) = k.
Proof.
  intro Hk. unfold slice_to. rewrite slice_bound_nonneg by assumption.
  rewrite length_firstn. lia.
Qed.

(** ** The splitter, run *)

Section SplitterFacts.
Context {ext : External}.

(** The generator state [torch.randperm] draws from: the seeded state
    when the seed is truthy, the current one otherwise. *)
Definition seeded_rng (random_seed : option Z) (w : world) : rng_state :=
  match seed_truthy random_seed with
  | Some s => manual_seed s
  | None => w_rng w
  end.

(** The world after the draw. *)
Definition after_draw (n : nat) (random_seed : option Z) (w : world)
  : world :=
  {| w_rng := snd (randperm (seeded_rng random_seed w) n);
     w_reads := w_reads w |}.

Lemma get_data_split_run (n : nat) (r : pyfloat) (seed : option Z)
  (w : world) :
  get_data_split n r seed w =
  (match int_mul_float (Z.of_nat n) r with
   | inl e => inl e
   | inr p =>
       match int_of_float p with
       | inl e => inl e
       | inr k =>
           let idx := fst (randperm (seeded_rng seed w) n) in
           inr (slice_from idx k, slice_to idx k)
       end
   end, after_draw n seed w).
Proof.
  unfold get_data_split, after_draw, seeded_rng, bind, torch_randperm, lift,
    ret.
  destruct (seed_truthy seed) as [s|]; cbn;
    destruct (randperm _ n) as [idx g]; cbn;
    destruct (int_mul_float (Z.of_nat n) r) as [e|p]; try reflexivity;
    destruct (int_of_float p) as [e|k]; reflexivity.
Qed.

Lemma randperm_length (g : rng_state) (n : nat) :
  length (fst (randperm g n)) = n.
Proof.
  rewrite (Permutation_length (randperm_perm g n)). apply length_seq.
Qed.

Lemma randperm_NoDup (g : rng_state) (n : nat) :
  NoDup (fst (randperm g n)).
Proof.
  apply (Permutation_NoDup (Permutation_sym (randperm_perm g n))).
  apply seq_NoDup.
Qed.

(** Whenever the splitter returns, its two parts together are a
    permutation of [0, n). *)
Lemma get_data_split_perm (n : nat) (r : pyfloat) (seed : option Z)
  (w w' : world) (train valid : list nat) :
  get_data_split n r seed w = (inr (train, valid), w') ->
  Permutation (train ++ valid) (seq 0 n).
Proof.
  rewrite get_data_split_run.
  destruct (int_mul_float (Z.of_nat n) r) as [e|p]; [discriminate|].
  destruct (int_of_float p) as [e|k]; [discriminate|].
  cbn zeta. intro H. injection H as <- <- _.
  rewrite slices_perm. apply randperm_perm.
Qed.

End SplitterFacts.

Lemma NoDup_app_disjoint {A} (l1 l2 : list A) :
  NoDup (l1 ++ l2) -> forall x, In x l1 -> ~ In x l2.
Proof.
  induction l1 as [|a l1 IH]; cbn; intros Hnd x Hin; [contradiction|].
  inversion Hnd as [|? ? Hn Hnd']; subst.
  destruct Hin as [->|Hin].
  - intro H2. apply Hn. apply in_or_app. now right.
  - now apply IH.
Qed.

Lemma ratio_0_2_in_unit : ratio_in_unit float_0_2.
Proof. repeat split. Qed.

(** ** The claims about the splitter *)

(** C1. For every [n] and every ratio in [0, 1), the splitter returns
    [(train, valid)] with [len(train) + len(valid) = n],
    [len(valid) = floor(n * ratio)] (the product being the one Python
    computes, [float(n) * ratio] in binary64), the two parts disjoint and
    their union exactly [0, n). A zero ratio gives an empty [valid] and the
    whole permutation as [train]; [n = 0] gives two empty parts. The one
    proviso is that [float(n)] exists, which holds below [2^1023]. *)
Theorem C1_split_partition {ext : External} (n : nat)
  (split_ratio f : pyfloat) (random_seed : option Z) (w : world) :
  ratio_in_unit split_ratio ->
  float_of_int (Z.of_nat n) = ok f ->
  exists train valid,
    get_data_split n split_ratio random_seed w =
      (ok (train, valid), after_draw n random_seed w) /\
    (length train + length valid = n)%nat /\
    float_floor (float_mul f split_ratio) = Some (Z.of_nat (length valid)) /\
    (forall i, In i train -> ~ In i valid) /\
    (forall i, In i train \/ In i valid <-> (i < n)%nat) /\
    ((exists s, split_ratio = S754_zero s) ->
     valid = [] /\ train = fst (randperm (seeded_rng random_seed w) n)) /\
    (n = 0%nat -> train = [] /\ valid = []).
Proof.
  intros Hr Hf.
  destruct (split_count_spec (n := Z.of_nat n) ltac:(lia) Hr Hf)
    as (k & Hint & Hfloor & Hk & Hzero).
  rewrite get_data_split_run. unfold int_mul_float, rbind, ok in *.
  rewrite Hf. cbv beta iota. rewrite Hint. cbv beta iota zeta.
  set (idx := fst (randperm (seeded_rng random_seed w) n)).
  assert (Hlen : length idx = n) by apply randperm_length.
  assert (Hnd : NoDup idx) by apply randperm_NoDup.
  assert (Hperm : Permutation idx (seq 0 n)) by apply randperm_perm.
  exists (slice_from idx k), (slice_to idx k).
  assert (Hb : slice_bound (length idx) k = Z.to_nat k)
    by (apply slice_bound_nonneg; lia).
  split; [reflexivity|]. split; [|split; [|split; [|split; [|split]]]].
  - unfold slice_from, slice_to. rewrite length_skipn, length_firstn. lia.
  - rewrite Hfloor. f_equal. symmetry. apply slice_to_length. lia.
  - intros i Htr Hva. unfold slice_from, slice_to in *.
    rewrite <- (firstn_skipn (slice_bound (length idx) k) idx) in Hnd.
    exact (NoDup_app_disjoint _ _ Hnd i Hva Htr).
  - intro i. rewrite <- in_app_iff.
    assert (Hp : Permutation (slice_from idx k ++ slice_to idx k) (seq 0 n))
      by (rewrite slices_perm; exact Hperm).
    split; intro H.
    + apply (Permutation_in _ Hp), in_seq in H. lia.
    + apply (Permutation_in _ (Permutation_sym Hp)), in_seq. lia.
  - intro Hz. specialize (Hzero Hz). subst k.
    unfold slice_from, slice_to. rewrite Hb. now cbn.
  - intros ->. destruct idx; [|discriminate].
    unfold slice_from, slice_to. now rewrite firstn_nil, skipn_nil.
Qed.

(** C3. With a non-zero seed, the split does not depend on the state the
    generator was in: two calls with the same [(n, ratio, seed)] return
    the same result, whatever happened before either call. *)
Theorem C3_split_reproducible {ext : External} (n : nat)
  (split_ratio : pyfloat) (seed : Z) (w1 w2 : world) :
  seed <> 0 ->
  fst (get_data_split n split_ratio (Some seed) w1) =
  fst (get_data_split n split_ratio (Some seed) w2).
Proof.
  intro Hs. rewrite !get_data_split_run. cbn [fst].
  unfold seeded_rng, seed_truthy.
  destruct (seed =? 0) eqn:E; [apply Z.eqb_eq in E; contradiction|].
  reflexivity.
Qed.

(** ** Comprehensions, [enumerate] and [np.delete] *)

Lemma rmap_Forall2 {A B} (f : A -> result B) (l : list A) (bs : list B) :
  rmap f l = inr bs -> Forall2 (fun a b => f a = inr b) l bs.
Proof.
  revert bs. induction l as [|a l IH]; cbn; intros bs H.
  - injection H as <-. constructor.
  - destruct (f a) as [e|b] eqn:Hfa; [discriminate|].
    destruct (rmap f l) as [e|bs'] eqn:Hl; [discriminate|].
    injection H as <-. constructor; auto.
Qed.

Lemma Forall2_rmap {A B} (f : A -> result B) (l : list A) (bs : list B) :
  Forall2 (fun a b => f a = inr b) l bs -> rmap f l = inr bs.
Proof.
  induction 1 as [|a b l bs Hab _ IH]; cbn; [reflexivity|].
  now rewrite Hab, IH.
Qed.

Lemma rmap_length {A B} (f : A -> result B) (l : list A) (bs : list B) :
  rmap f l = inr bs -> length bs = length l.
Proof.
  intro H. symmetry. exact (Forall2_length (rmap_Forall2 _ _ H)).
Qed.

Lemma enumerate_from_fst_ge {A} (i : nat) (l : list A) (ia : nat * A) :
  In ia (enumerate_from i l) -> (i <= fst ia)%nat.
Proof.
  revert i. induction l as [|a l IH]; cbn; intros i H; [contradiction|].
  destruct H as [<-|H]; [cbn; lia|]. apply IH in H. lia.
Qed.

(** Deleting the positions at which a test on the rows holds keeps the
    rows on which it fails, in order. *)
Lemma np_delete_enumerate_from {A B} (g : A -> B) (bad : B -> bool)
  (l : list A) (i : nat) :
  map snd
    (filter
       (fun ia =>
          negb (existsb (Nat.eqb (fst ia))
                  (map fst (filter (fun ix => bad (snd ix))
                              (enumerate_from i (map g l))))))
       (enumerate_from i l)) =
  filter (fun a => negb (bad (g a))) l.
Proof.
  revert i. induction l as [|a l IH]; intro i; [reflexivity|].
  cbn [map enumerate_from filter snd fst].
  assert (Hfresh : forall L,
             (forall j, In j L -> (S i <= j)%nat) ->
             existsb (Nat.eqb i) L = false).
  { intros L HL. apply not_true_is_false. intro Hex.
    apply existsb_exists in Hex. destruct Hex as (j & Hj & Heq).
    apply Nat.eqb_eq in Heq. subst j. apply HL in Hj. lia. }
  assert (Htail : forall j,
             In j (map fst (filter (fun ix => bad (snd ix))
                              (enumerate_from (S i) (map g l)))) ->
             (S i <= j)%nat).
  { intros j Hj. apply in_map_iff in Hj. destruct Hj as (ix & <- & Hix).
    apply filter_In in Hix. destruct Hix as [Hix _].
    now apply enumerate_from_fst_ge in Hix. }
  destruct (bad (g a)) eqn:Hbad; cbn [map fst existsb negb].
  - rewrite Nat.eqb_refl. cbn [orb negb]. rewrite <- (IH (S i)).
    f_equal. apply filter_ext_in. intros [j b] Hjb. cbn [fst].
    apply enumerate_from_fst_ge in Hjb. cbn [fst] in Hjb.
    replace (j =? i)%nat with false by (symmetry; apply Nat.eqb_neq; lia).
    reflexivity.
  - rewrite (Hfresh _ Htail). cbn [negb map snd]. f_equal. apply IH.
Qed.

Lemma np_delete_where {A B} (g : A -> B) (bad : B -> bool) (l : list A) :
  np_delete l
    (map fst (filter (fun ix => bad (snd ix)) (enumerate (map g l)))) =
  filter (fun a => negb (bad (g a))) l.
Proof. apply np_delete_enumerate_from. Qed.

Lemma filter_map_swap {A B} (f : A -> B) (p : B -> bool) (l : list A) :
  filter p (map f l) = map f (filter (fun a => p (f a)) l).
Proof.
  induction l as [|a l IH]; cbn; [reflexivity|].
  destruct (p (f a)); cbn; now rewrite IH.
Qed.

Lemma map_combine_self {A B C} (h : A -> B) (k : A -> B -> C) (l : list A) :
  map (fun rv => k (fst rv) (snd rv)) (combine l (map h l)) =
  map (fun a => k a (h a)) l.
Proof. induction l as [|a l IH]; cbn; [reflexivity|]. now rewrite IH. Qed.

(** ** Fields of a row *)

Lemma nth_set_field_same (j : nat) (v : pyval) (row : list pyval) :
  nth j (set_field j v row) PNaN = v.
Proof.
  unfold set_field.
  destruct (Nat.le_gt_cases (length row) j) as [Hle|Hgt].
  - rewrite firstn_all2 by assumption.
    rewrite app_nth2 by lia. rewrite app_nth2 by (rewrite repeat_length; lia).
    rewrite repeat_length.
    replace (j - length row - (j - length row))%nat with 0%nat by lia.
    reflexivity.
  - replace (j - length row)%nat with 0%nat by lia. cbn [repeat app].
    rewrite app_nth2 by (rewrite length_firstn; lia).
    rewrite length_firstn.
    replace (j - Nat.min j (length row))%nat with 0%nat by lia.
    reflexivity.
Qed.

Lemma nth_set_field_below (i j : nat) (v : pyval) (row : list pyval) :
  (i < j)%nat -> nth i (set_field j v row) PNaN = nth i row PNaN.
Proof.
  intro Hij. unfold set_field.
  destruct (Nat.le_gt_cases (length row) i) as [Hle|Hgt].
  - rewrite (nth_overflow row) by assumption.
    rewrite firstn_all2 by lia. rewrite app_nth2 by assumption.
    rewrite app_nth1 by (rewrite repeat_length; lia).
    apply nth_repeat.
  - rewrite app_nth1 by (rewrite length_firstn; lia).
    rewrite <- (firstn_skipn j row) at 2.
    rewrite app_nth1 by (rewrite length_firstn; lia). reflexivity.
Qed.

(** ** [index] and [in] *)

Lemma py_index_spec (l : list pyval) (x : pyval) (k : nat) :
  py_index l x = inr k ->
  (k < length l)%nat /\
  exists v, nth_error l k = Some v /\ py_eq v x = true.
Proof.
  revert k. induction l as [|v l IH]; cbn; intros k H; [discriminate|].
  destruct (py_eq v x) eqn:Hv.
  - injection H as <-. split; [lia|]. exists v. now split.
  - destruct (py_index l x) as [e|k'] eqn:Hl; [discriminate|].
    injection H as <-. destruct (IH k' eq_refl) as (Hlt & v' & Hn & He).
    split; [lia|]. exists v'. now split.
Qed.

Lemma py_index_in (l : list pyval) (x : pyval) :
  py_in x l = true -> exists k, py_index l x = inr k.
Proof.
  unfold py_in. induction l as [|v l IH]; cbn; [discriminate|].
  destruct (py_eq v x) eqn:Hv; cbn.
  - intros _. now exists 0%nat.
  - intro H. destruct (IH H) as [k ->]. now exists (S k).
Qed.

Lemma py_index_not_in (l : list pyval) (x : pyval) :
  py_in x l = false -> py_index l x = inl ValueError.
Proof.
  unfold py_in. induction l as [|v l IH]; cbn; [reflexivity|].
  destruct (py_eq v x) eqn:Hv; cbn; [discriminate|].
  intro H. now rewrite (IH H).
Qed.

Lemma py_eq_str (v : pyval) (s : string) :
  py_eq v (PStr s) = true -> v = PStr s.
Proof.
  destruct v as [t|b|z|]; cbn; try discriminate.
  intro H. apply String.eqb_eq in H. now subst.
Qed.

(** ** Indexing by an index tensor *)

Lemma take_rows_ok {A} (l : list A) (idx : list nat) :
  (forall j, In j idx -> (j < length l)%nat) ->
  exists xs, take_rows l idx = ok xs /\
             Forall2 (fun j x => nth_error l j = Some x) idx xs.
Proof.
  unfold take_rows. induction idx as [|j idx IH]; intro H.
  - exists []. split; [reflexivity|constructor].
  - destruct IH as (xs & Hxs & HF); [intros; apply H; now right|].
    assert (Hj : (j < length l)%nat) by (apply H; now left).
    destruct (nth_error l j) as [x|] eqn:Hn;
      [|apply nth_error_None in Hn; lia].
    exists (x :: xs). cbn. unfold row_at at 1. rewrite Hn. cbn.
    unfold ok in Hxs. rewrite Hxs. split; [reflexivity|].
    constructor; assumption.
Qed.

(** ** What a constructor computes *)

(** The name of the partition: [GermEval19] calls its test file "gold". *)
Definition split_name (k : klass) (test : bool) : string :=
  if test then match k with GermEval19 => "gold" | _ => "test" end
  else "train".

(** A validation split is made for a training partition under early
    stopping, and only then. *)
Definition split_active (early_stopping test : bool) : bool :=
  early_stopping && negb test.

(** The file an adapter reads and the separator it passes. *)
Definition data_path (k : klass) (df : string) (task : pyval) (test : bool)
  : string :=
  match k with
  | GermEval17 => df ++ "/germeval17/" ++ split_name k test ++ ".tsv"
  | GermEval18 => df ++ "/germeval18/" ++ split_name k test ++ ".txt"
  | GermEval19 =>
      df ++ "/germeval19/" ++ split_name k test ++
      (if py_eq task (PStr "A") then "12"
       else if py_eq task (PStr "B") then "12" else "3") ++ ".txt"
  | GermEval21 => df ++ "/germeval21/" ++ split_name k test ++ ".csv"
  | GermEval21vmwe => df ++ "/germeval21vmwe/" ++ split_name k test ++ ".tsv"
  end.

Definition sep_of (k : klass) : string :=
  match k with
  | GermEval21 => ","
  | _ => tab
  end.

(** The column holding the texts. *)
Definition text_col (k : klass) : nat :=
  match k with
  | GermEval17 | GermEval21 => 1
  | GermEval18 | GermEval19 => 0
  | GermEval21vmwe => 3
  end.

(** The allowed task selectors. *)
Definition tasks_of (k : klass) : list pyval :=
  match k with
  | GermEval17 => GermEval17_tasks
  | GermEval18 | GermEval19 => OL_tasks
  | GermEval21 => GermEval21_tasks
  | GermEval21vmwe => []
  end.

(** The rows of the source file an adapter keeps. *)
Definition retained (k : klass) (row : list pyval) : bool :=
  match k with
  | GermEval17 => isinstance_str (nth 1 row PNaN)
  | GermEval21vmwe => py_in (nth 2 row PNaN) vmwe_labels
  | _ => true
  end.

(** The label value an adapter encodes for a source row: the field of the
    label column, which [GermEval17] first cuts at the colon in column 4. *)
Definition label_of (k : klass) (col : nat) (row : list pyval) : pyval :=
  match k with
  | GermEval17 =>
      if (col =? 4)%nat then PStr (before_colon (py_str (nth 4 row PNaN)))
      else nth col row PNaN
  | _ => nth col row PNaN
  end.

(** The label column: fixed for [GermEval21vmwe], elsewhere the position
    of the task among the allowed ones plus an offset. *)
Definition label_col (k : klass) (task : pyval) : result nat :=
  match k with
  | GermEval21vmwe => ok 2%nat
  | GermEval17 | GermEval21 =>
      (let? i := py_index (tasks_of k) task in ok (i + 2)%nat)%result
  | GermEval18 | GermEval19 =>
      (let? i := py_index (tasks_of k) task in ok (i + 1)%nat)%result
  end.

(** How the label tensor's entry [lab] stands to its source row. *)
Definition encodes (k : klass) (col : nat) (labs : option (list pyval))
  (row : list pyval) (lab : pyval) : Prop :=
  match k with
  | GermEval21 => lab = nth col row PNaN /\ isinstance_str lab = false
  | _ => exists vocab j,
           labs = Some vocab /\
           py_index vocab (label_of k col row) = inr j /\
           lab = PInt (Z.of_nat j)
  end.

Section DatasetFacts.
Context {ext : External}.
Variable feature_row : Type.
Implicit Types (pre : list pyval -> list feature_row).
Implicit Types (d : dataset feature_row) (w : world).

(** The world after one more file was read. *)
Definition with_read (path : string) (w : world) : world :=
  {| w_rng := w_rng w; w_reads := path :: w_reads w |}.

Lemma bind_inr {A B} (m : M A) (k : A -> M B) w (b : B) w' :
  bind m k w = (inr b, w') ->
  exists a w1, m w = (inr a, w1) /\ k a w1 = (inr b, w').
Proof.
  unfold bind. destruct (m w) as [[e|a] w1]; [discriminate|].
  intro H. now exists a, w1.
Qed.

Lemma bind_inl {A B} (m : M A) (k : A -> M B) w (e : pyerr) w1 :
  m w = (inl e, w1) -> bind m k w = (inl e, w1).
Proof. unfold bind. now intros ->. Qed.

Lemma bind_step {A B} (m : M A) (k : A -> M B) w (a : A) w1 :
  m w = (inr a, w1) -> bind m k w = k a w1.
Proof. unfold bind. now intros ->. Qed.

Lemma lift_inr {A} (r : result A) w (a : A) w' :
  lift r w = (inr a, w') -> r = inr a /\ w' = w.
Proof. unfold lift. intro H. injection H as -> ->. now split. Qed.

Lemma ret_inr {A} (a b : A) w w' :
  ret a w = (inr b, w') -> a = b /\ w' = w.
Proof. unfold ret, ok. intro H. injection H as -> ->. now split. Qed.

Lemma py_assert_inr (c : bool) w (u : unit) w' :
  py_assert c w = (inr u, w') -> c = true /\ w' = w.
Proof.
  unfold py_assert. destruct c; [|discriminate].
  intro H. apply ret_inr in H. now destruct H.
Qed.

Lemma read_inr (path sep : string) w (data : ndarray) w' :
  pd_read_csv_values path sep w = (inr data, w') ->
  read_csv path sep = inr data /\ w' = with_read path w.
Proof.
  unfold pd_read_csv_values, with_read. intro H. injection H as -> <-.
  now split.
Qed.

Lemma column_inr (data : ndarray) (j : nat) (c : list pyval) :
  column data j = inr c ->
  (j < ncols data)%nat /\ c = map (fun row => nth j row PNaN) (rows data).
Proof.
  unfold column. destruct (j <? ncols data)%nat eqn:Hj; [|discriminate].
  apply Nat.ltb_lt in Hj. intro H. injection H as <-. now split.
Qed.

Lemma encode_labels_inr (labs : option (list pyval)) (nc col : nat)
  (rws : list (list pyval)) (ys : list pyval) :
  encode_labels labs nc col rws = inr ys ->
  Forall2 (fun row lab =>
             exists vocab j,
               labs = Some vocab /\
               py_index vocab (nth col row PNaN) = inr j /\
               lab = PInt (Z.of_nat j)) rws ys.
Proof.
  unfold encode_labels. intro H. apply rmap_Forall2 in H.
  eapply Forall2_impl; [|exact H]. cbn beta. intros row lab Hrow.
  unfold rbind, getattr, cell, ok, throw in Hrow.
  destruct labs as [vocab|]; [|discriminate].
  destruct (col <? nc)%nat; [|discriminate].
  destruct (py_index vocab (nth col row PNaN)) as [e|j] eqn:Hj;
    [discriminate|].
  injection Hrow as <-. now exists vocab, j.
Qed.

Lemma Forall2_map_left {A B C} (f : A -> B) (R : B -> C -> Prop)
  (l : list A) (ys : list C) :
  Forall2 R (map f l) ys -> Forall2 (fun a c => R (f a) c) l ys.
Proof.
  revert ys. induction l as [|a l IH]; cbn; intros ys H.
  - inversion H. constructor.
  - inversion H; subst. constructor; auto.
Qed.

Lemma split_name_train (k : klass) (test : bool) :
  (split_name k test =? "train")%string = negb test.
Proof. destruct k, test; reflexivity. Qed.

(** The block [# prepare data split], inverted. *)
Lemma prepare_data_split_inr (n : nat) (es : bool) (k : klass) (test : bool)
  (seed : option Z) w (ind : list nat) (iv : option (list nat)) w' :
  prepare_data_split n es (split_name k test) seed w = (inr (ind, iv), w') ->
  (split_active es test = true /\
   exists valid,
     get_data_split n default_split_ratio seed w = (inr (ind, valid), w') /\
     iv = Some valid) \/
  (split_active es test = false /\ ind = seq 0 n /\ iv = None /\ w' = w).
Proof.
  unfold prepare_data_split, split_active. rewrite split_name_train.
  destruct (es && negb test).
  - intro H. left. split; [reflexivity|].
    apply bind_inr in H. destruct H as ([tr va] & w1 & Hs & H).
    apply ret_inr in H. destruct H as [H ->]. cbn in H.
    injection H as <- <-. now exists va.
  - intro H. right. apply ret_inr in H. destruct H as [H ->].
    injection H as <- <-. auto.
Qed.

(** What holds of an instance [d] that construction returned. *)
Definition constructed (k : klass) pre (df : string) (task : pyval)
  (test es : bool) (seed : option Z) w d w' : Prop :=
  exists data col,
    read_csv (data_path k df task test) (sep_of k) = inr data /\
    w_reads w' = data_path k df task test :: w_reads w /\
    cls d = k /\
    (k <> GermEval21vmwe -> py_in task (tasks_of k) = true) /\
    label_col k task = inr col /\
    (k = GermEval21 -> labels d = None) /\
    X d = pre (map (fun row => nth (text_col k) row PNaN)
                 (filter (retained k) (rows data))) /\
    Forall2 (encodes k col (labels d))
      (filter (retained k) (rows data)) (y d) /\
    prepare_data_split (length (X d)) es (split_name k test) seed
      (with_read (data_path k df task test) w) =
      (inr (indices d, idx_valid d), w').

Tactic Notation "peel" hyp(H) "as" ident(a) ident(Ha) :=
  let w1 := fresh "w" in
  apply bind_inr in H; destruct H as (a & w1 & Ha & H).

Tactic Notation "peel_lift" hyp(H) "as" ident(a) ident(Ha) :=
  let w1 := fresh "w" in
  apply bind_inr in H; destruct H as (a & w1 & Ha & H);
  apply lift_inr in Ha; destruct Ha as [Ha ->].

Tactic Notation "peel_assert" hyp(H) "as" ident(Ha) :=
  let w1 := fresh "w" in
  let u := fresh "u" in
  apply bind_inr in H; destruct H as (u & w1 & Ha & H);
  apply py_assert_inr in Ha; destruct Ha as [Ha ->].

Tactic Notation "peel_read" hyp(H) "as" ident(a) ident(Ha) :=
  let w1 := fresh "w" in
  apply bind_inr in H; destruct H as (a & w1 & Ha & H);
  apply read_inr in Ha; destruct Ha as [Ha ->].

Lemma prepare_reads (n : nat) (es : bool) (split : string)
  (seed : option Z) w (r : list nat * option (list nat)) w' :
  prepare_data_split n es split seed w = (inr r, w') ->
  w_reads w' = w_reads w.
Proof.
  unfold prepare_data_split.
  destruct (es && (split =? "train")%string).
  - intro H. peel H as tv Ha. apply ret_inr in H. destruct H as [_ ->].
    rewrite get_data_split_run in Ha. injection Ha as _ <-. reflexivity.
  - intro H. apply ret_inr in H. now destruct H as [_ ->].
Qed.

Lemma filter_retained_all (k : klass) (rws : list (list pyval)) :
  (forall row, retained k row = true) ->
  filter (retained k) rws = rws.
Proof.
  intro H. apply forallb_filter_id. apply forallb_forall. intros; apply H.
Qed.

Lemma GermEval18_constructed pre df task test es ratio seed w d w' :
  GermEval18_init pre df task test es ratio seed w = (inr d, w') ->
  constructed GermEval18 pre df task test es seed w d w'.
Proof.
  unfold GermEval18_init. intro H.
  peel_assert H as Hin. peel_lift H as i Hi. peel_read H as data Hread.
  peel_lift H as texts Htexts. apply column_inr in Htexts.
  destruct Htexts as [_ ->].
  peel_lift H as ys Hys. apply encode_labels_inr in Hys.
  peel H as iv Hiv. apply ret_inr in H. destruct H as [<- ->].
  cbn [X y labels cls indices idx_valid]. destruct iv as [ind iv].
  exists data, (i + 1)%nat.
  split; [exact Hread|]. split.
  { apply prepare_reads in Hiv. rewrite Hiv. reflexivity. }
  split; [reflexivity|]. split; [intros _; exact Hin|].
  split; [cbn [label_col tasks_of]; rewrite Hi; reflexivity|].
  split; [try discriminate; reflexivity|].
  rewrite filter_retained_all by reflexivity.
  split; [reflexivity|]. split; [exact Hys|]. exact Hiv.
Qed.

Lemma GermEval19_constructed pre df task test es ratio seed w d w' :
  GermEval19_init pre df task test es ratio seed w = (inr d, w') ->
  constructed GermEval19 pre df task test es seed w d w'.
Proof.
  unfold GermEval19_init. intro H.
  peel_assert H as Hin. peel_lift H as i Hi. peel_lift H as fsuf Hfsuf.
  assert (Hsuf : fsuf = if py_eq task (PStr "A") then "12"
                        else if py_eq task (PStr "B") then "12" else "3").
  { destruct (py_eq task (PStr "A")); [now injection Hfsuf|].
    destruct (py_eq task (PStr "B")); [now injection Hfsuf|].
    destruct (py_eq task (PStr "C")); [now injection Hfsuf|discriminate]. }
  subst fsuf.
  peel_read H as data Hread.
  peel_lift H as texts Htexts. apply column_inr in Htexts.
  destruct Htexts as [_ ->].
  peel_lift H as ys Hys. apply encode_labels_inr in Hys.
  peel H as iv Hiv. apply ret_inr in H. destruct H as [<- ->].
  cbn [X y labels cls indices idx_valid]. destruct iv as [ind iv].
  exists data, (i + 1)%nat.
  split; [exact Hread|]. split.
  { apply prepare_reads in Hiv. rewrite Hiv. reflexivity. }
  split; [reflexivity|]. split; [intros _; exact Hin|].
  split; [cbn [label_col tasks_of]; rewrite Hi; reflexivity|].
  split; [try discriminate; reflexivity|].
  rewrite filter_retained_all by reflexivity.
  split; [reflexivity|]. split; [exact Hys|]. exact Hiv.
Qed.

Lemma torch_tensor_inr (vs ys : list pyval) :
  torch_tensor vs = inr ys ->
  ys = vs /\ Forall (fun v => isinstance_str v = false) vs.
Proof.
  unfold torch_tensor. revert ys.
  induction vs as [|v vs IH]; cbn; intros ys H.
  - injection H as <-. split; [reflexivity|constructor].
  - destruct (isinstance_str v) eqn:Hv; [discriminate|]. cbn in H.
    destruct (rmap _ vs) as [e|ys'] eqn:Hr; [discriminate|].
    injection H as <-. destruct (IH ys' eq_refl) as [-> HF].
    split; [reflexivity|]. constructor; assumption.
Qed.

Lemma GermEval21_constructed pre df task test es ratio seed w d w' :
  GermEval21_init pre df task test es ratio seed w = (inr d, w') ->
  constructed GermEval21 pre df task test es seed w d w'.
Proof.
  unfold GermEval21_init. intro H.
  peel_assert H as Hin. peel_lift H as i Hi. peel_read H as data Hread.
  peel_lift H as texts Htexts. apply column_inr in Htexts.
  destruct Htexts as [_ ->].
  peel_lift H as ys Hys.
  peel H as iv Hiv. apply ret_inr in H. destruct H as [<- ->].
  cbn [X y labels cls indices idx_valid]. destruct iv as [ind iv].
  exists data, (i + 2)%nat.
  split; [exact Hread|]. split.
  { apply prepare_reads in Hiv. rewrite Hiv. reflexivity. }
  split; [reflexivity|]. split; [intros _; exact Hin|].
  split; [cbn [label_col tasks_of]; rewrite Hi; reflexivity|].
  split; [try discriminate; reflexivity|].
  rewrite filter_retained_all by reflexivity.
  split; [reflexivity|]. split; [|exact Hiv].
  unfold rbind in Hys.
  destruct (rmap _ (rows data)) as [e|vs] eqn:Hvs; [discriminate|].
  apply torch_tensor_inr in Hys. destruct Hys as [-> Hns].
  apply rmap_Forall2 in Hvs. clear - Hvs Hns.
  induction Hvs as [|row v rws vs Hrv _ IH]; [constructor|].
  inversion Hns; subst. constructor; [|now apply IH].
  cbn. unfold cell in Hrv. destruct (_ <? _)%nat; [|discriminate].
  injection Hrv as <-. now split.
Qed.

Lemma GermEval21vmwe_constructed pre df task test es ratio seed w d w' :
  GermEval21vmwe_init pre df test es ratio seed w = (inr d, w') ->
  constructed GermEval21vmwe pre df task test es seed w d w'.
Proof.
  unfold GermEval21vmwe_init. intro H.
  peel_read H as data Hread.
  peel_lift H as c2 Hc2. apply column_inr in Hc2. destruct Hc2 as [_ ->].
  peel_lift H as idxbad Hbad. cbn in Hbad. injection Hbad as <-.
  peel_lift H as texts Htexts. apply column_inr in Htexts.
  destruct Htexts as [_ ->]. cbn [rows ncols] in *.
  peel_lift H as ys Hys. apply encode_labels_inr in Hys.
  peel H as iv Hiv. apply ret_inr in H. destruct H as [<- ->].
  cbn [X y labels cls indices idx_valid]. destruct iv as [ind iv].
  rewrite (np_delete_where (fun row => nth 2 row PNaN)
             (fun v => negb (py_in v vmwe_labels))) in *.
  assert (Hf : filter (fun a => negb (negb (py_in (nth 2 a PNaN) vmwe_labels)))
                 (rows data) =
               filter (retained GermEval21vmwe) (rows data)).
  { apply filter_ext. intro row. apply negb_involutive. }
  rewrite Hf in *.
  exists data, 2%nat.
  split; [exact Hread|]. split.
  { apply prepare_reads in Hiv. rewrite Hiv. reflexivity. }
  split; [reflexivity|]. split; [intros Hk; now contradiction Hk|].
  split; [reflexivity|]. split; [discriminate|].
  split; [reflexivity|]. split; [exact Hys|]. exact Hiv.
Qed.

Lemma set_column_inr (data data' : ndarray) (j : nat) (vs : list pyval) :
  set_column data j vs = inr data' ->
  ncols data' = ncols data /\
  rows data' = map (fun rv => set_field j (snd rv) (fst rv))
                 (combine (rows data) vs).
Proof.
  unfold set_column. destruct (j <? ncols data)%nat; [|discriminate].
  intro H. injection H as <-. now split.
Qed.

Lemma py_index_bound (l : list pyval) (x : pyval) (i : nat) :
  py_index l x = inr i -> (i < length l)%nat.
Proof. intro H. now destruct (py_index_spec _ _ H). Qed.

Lemma GermEval17_constructed pre df task test es ratio seed w d w' :
  GermEval17_init pre df task test es ratio seed w = (inr d, w') ->
  constructed GermEval17 pre df task test es seed w d w'.
Proof.
  unfold GermEval17_init. intro H.
  peel_assert H as Hin. peel_lift H as i Hi. peel_read H as data Hread.
  peel_lift H as c4 Hc4. apply column_inr in Hc4. destruct Hc4 as [_ ->].
  peel_lift H as data2 Hd2. apply set_column_inr in Hd2.
  destruct Hd2 as [Hnc Hrows].
  rewrite map_map in Hrows.
  rewrite (map_combine_self
             (fun row => PStr (before_colon (py_str (nth 4 row PNaN))))
             (fun row v => set_field 4 v row)) in Hrows.
  peel_lift H as c1 Hc1. apply column_inr in Hc1. destruct Hc1 as [_ ->].
  peel_lift H as texts Htexts. apply column_inr in Htexts.
  destruct Htexts as [_ ->]. cbn [rows ncols] in *.
  peel_lift H as ys Hys. apply encode_labels_inr in Hys.
  peel H as iv Hiv. apply ret_inr in H. destruct H as [<- ->].
  cbn [X y labels cls indices idx_valid]. destruct iv as [ind iv].
  rewrite (np_delete_where (fun row => nth 1 row PNaN)
             (fun v => negb (isinstance_str v))) in *.
  set (cut := fun row : list pyval =>
                set_field 4 (PStr (before_colon (py_str (nth 4 row PNaN))))
                  row) in *.
  assert (Hkept :
            filter (fun a => negb (negb (isinstance_str (nth 1 a PNaN))))
              (rows data2) =
            map cut (filter (retained GermEval17) (rows data))).
  { rewrite Hrows, filter_map_swap. f_equal. apply filter_ext.
    intro row. rewrite negb_involutive. unfold cut.
    now rewrite nth_set_field_below by lia. }
  rewrite Hkept in *.
  assert (Htexts :
            map (fun row => nth 1 row PNaN)
              (map cut (filter (retained GermEval17) (rows data))) =
            map (fun row => nth 1 row PNaN)
              (filter (retained GermEval17) (rows data))).
  { rewrite map_map. apply map_ext. intro row. unfold cut.
    now rewrite nth_set_field_below by lia. }
  rewrite Htexts in *.
  exists data, (i + 2)%nat.
  split; [exact Hread|]. split.
  { apply prepare_reads in Hiv. rewrite Hiv. reflexivity. }
  split; [reflexivity|]. split; [intros _; exact Hin|].
  split; [cbn [label_col tasks_of]; rewrite Hi; reflexivity|].
  split; [try discriminate; reflexivity|].
  split; [reflexivity|].
  split; [|exact Hiv]. cbn [y labels].
  apply Forall2_map_left in Hys.
  eapply Forall2_impl; [|exact Hys]. cbn beta.
  intros row lab (vocab & j & Hl & Hj & ->).
  exists vocab, j. split; [exact Hl|]. split; [|reflexivity].
  rewrite <- Hj. f_equal. cbn [label_of].
  apply py_index_bound in Hi. cbn in Hi.
  destruct (i + 2 =? 4)%nat eqn:E.
  - apply Nat.eqb_eq in E. rewrite E. unfold cut.
    now rewrite nth_set_field_same.
  - apply Nat.eqb_neq in E. unfold cut.
    now rewrite nth_set_field_below by lia.
Qed.

(** Every instance comes with these facts. *)
Lemma construct_constructed (k : klass) pre df task test es ratio seed
  w d w' :
  construct k pre df task test es ratio seed w = (inr d, w') ->
  constructed k pre df task test es seed w d w'.
Proof.
  destruct k; cbn [construct]; intro H.
  - eapply GermEval17_constructed; eassumption.
  - eapply GermEval18_constructed; eassumption.
  - eapply GermEval19_constructed; eassumption.
  - eapply GermEval21_constructed; eassumption.
  - eapply GermEval21vmwe_constructed; eassumption.
Qed.

End DatasetFacts.

(** ** The shape of an instance *)

(** The contract the adapters assume of the preprocesser: one feature row
    per text. *)
Definition row_per_text {feature_row : Type}
  (pre : list pyval -> list feature_row) : Prop :=
  forall texts, length (pre texts) = length texts.

Section InstanceFacts.
Context {ext : External}.
Variable feature_row : Type.
Implicit Types (pre : list pyval -> list feature_row).
Implicit Types (d : dataset feature_row) (w : world).

Lemma constructed_aligned k pre df task test es seed w d w' :
  row_per_text pre ->
  constructed k pre df task test es seed w d w' ->
  length (y d) = length (X d).
Proof.
  intros Hpre (data & col & _ & _ & _ & _ & _ & _ & HX & Hy & _).
  rewrite HX, Hpre, length_map. symmetry. exact (Forall2_length Hy).
Qed.

(** The active indices and the validation indices point into the
    feature matrix. *)
Lemma constructed_in_range k pre df task test es seed w d w' :
  constructed k pre df task test es seed w d w' ->
  (forall j, In j (indices d) -> (j < length (X d))%nat) /\
  (forall valid, idx_valid d = Some valid ->
                 forall j, In j valid -> (j < length (X d))%nat).
Proof.
  intros (data & col & _ & _ & _ & _ & _ & _ & _ & _ & Hp).
  apply prepare_data_split_inr in Hp.
  destruct Hp as [(_ & valid & Hs & Hv)|(_ & Hi & Hv & _)].
  - apply get_data_split_perm in Hs. split.
    + intros j Hj. apply (in_seq (length (X d)) 0 j).
      apply (Permutation_in _ Hs). apply in_or_app. now left.
    + intros v Hv' j Hj. rewrite Hv in Hv'. injection Hv' as <-.
      apply (in_seq (length (X d)) 0 j).
      apply (Permutation_in _ Hs). apply in_or_app. now right.
  - split.
    + intros j Hj. rewrite Hi in Hj. apply in_seq in Hj. lia.
    + intros v Hv'. rewrite Hv in Hv'. discriminate.
Qed.

End InstanceFacts.

(** ** The claims about the accessors *)

(** C4. [length()] of an instance is the number of rows of the feature
    matrix when no validation split was made (no early stopping, or a
    test partition), and the number of training indices the splitter
    returned when one was made. *)
Theorem C4_length_of_instance {ext : External} (feature_row : Type)
  (k : klass) (pre : list pyval -> list feature_row) (df : string)
  (task : pyval) (test es : bool) (ratio : pyfloat) (seed : option Z)
  (w w' : world) (d : dataset feature_row) :
  construct k pre df task test es ratio seed w = (inr d, w') ->
  (split_active es test = false -> __len__ d = length (X d)) /\
  (split_active es test = true ->
   exists w1 train valid,
     get_data_split (length (X d)) default_split_ratio seed w1 =
       (inr (train, valid), w') /\
     idx_valid d = Some valid /\
     __len__ d = length train).
Proof.
  intro H. apply construct_constructed in H.
  destruct H as (data & col & _ & _ & _ & _ & _ & _ & _ & _ & Hp).
  apply prepare_data_split_inr in Hp. unfold __len__.
  destruct Hp as [(Ha & valid & Hs & Hv)|(Ha & Hi & Hv & _)];
    rewrite Ha; split; try discriminate; intros _.
  - exists (with_read (data_path k df task test) w), (indices d), valid. auto.
  - rewrite Hi. apply length_seq.
Qed.

(** C5. Without a validation split (no early stopping, or a test
    partition) [get_validation_set()] returns [(None, None)] and raises
    nothing. With a split it returns the rows of the feature matrix and
    of the label tensor at the validation indices. *)
Theorem C5_validation_set {ext : External} (feature_row : Type)
  (k : klass) (pre : list pyval -> list feature_row) (df : string)
  (task : pyval) (test es : bool) (ratio : pyfloat) (seed : option Z)
  (w w' : world) (d : dataset feature_row) :
  row_per_text pre ->
  construct k pre df task test es ratio seed w = (inr d, w') ->
  (split_active es test = false ->
   get_validation_set d = ok (None, None)) /\
  (split_active es test = true ->
   exists valid xs ys,
     idx_valid d = Some valid /\
     get_validation_set d = ok (Some xs, Some ys) /\
     Forall2 (fun j x => nth_error (X d) j = Some x) valid xs /\
     Forall2 (fun j l => nth_error (y d) j = Some l) valid ys).
Proof.
  intros Hpre H. apply construct_constructed in H.
  pose proof (constructed_aligned Hpre H) as Hal.
  destruct (constructed_in_range H) as [_ Hrange].
  destruct H as (data & col & _ & _ & _ & _ & _ & _ & _ & _ & Hp).
  apply prepare_data_split_inr in Hp. unfold get_validation_set.
  destruct Hp as [(Ha & valid & Hs & Hv)|(Ha & Hi & Hv & _)];
    rewrite Ha; split; try discriminate; intros _.
  - specialize (Hrange valid Hv).
    destruct (take_rows_ok (X d) valid Hrange) as (xs & Hxs & HFx).
    destruct (take_rows_ok (y d) valid) as (ys & Hys & HFy).
    { intros j Hj. rewrite Hal. now apply Hrange. }
    exists valid, xs, ys. rewrite Hv, Hxs, Hys. cbn. auto.
  - now rewrite Hv.
Qed.

(** C6, as the code has it. For an index [i] with [0 <= i < length()],
    [get(i)] returns the feature row and the label at the [i]-th active
    index. A negative [i] down to [-length()] counts from the end, as
    Python indexing does: [get(i)] is [get(i + length())]. Every other
    [i] fails with an [IndexError]. *)
Theorem C6_getitem {ext : External} (feature_row : Type)
  (k : klass) (pre : list pyval -> list feature_row) (df : string)
  (task : pyval) (test es : bool) (ratio : pyfloat) (seed : option Z)
  (w w' : world) (d : dataset feature_row) (i : Z) :
  row_per_text pre ->
  construct k pre df task test es ratio seed w = (inr d, w') ->
  (0 <= i < Z.of_nat (__len__ d) ->
   exists j x l,
     nth_error (indices d) (Z.to_nat i) = Some j /\
     nth_error (X d) j = Some x /\
     nth_error (y d) j = Some l /\
     __getitem__ d i = ok (x, l)) /\
  (- Z.of_nat (__len__ d) <= i < 0 ->
   __getitem__ d i = __getitem__ d (i + Z.of_nat (__len__ d))) /\
  (i < - Z.of_nat (__len__ d) \/ Z.of_nat (__len__ d) <= i ->
   __getitem__ d i = throw IndexError).
Proof.
  intros Hpre H. apply construct_constructed in H.
  pose proof (constructed_aligned Hpre H) as Hal.
  destruct (constructed_in_range H) as [Hrange _]. clear H.
  unfold __len__, __getitem__, py_getitem.
  split; [|split].
  - intros [H0 H1].
    destruct (i <? 0) eqn:Hi; [apply Z.ltb_lt in Hi; lia|]. rewrite Hi.
    destruct (nth_error (indices d) (Z.to_nat i)) as [j|] eqn:Hj;
      [|apply nth_error_None in Hj; lia].
    assert (Hjr : (j < length (X d))%nat)
      by (apply Hrange; eapply nth_error_In; eassumption).
    destruct (nth_error (X d) j) as [x|] eqn:Hx;
      [|apply nth_error_None in Hx; lia].
    destruct (nth_error (y d) j) as [l|] eqn:Hl;
      [|apply nth_error_None in Hl; lia].
    exists j, x, l. cbn. unfold row_at. rewrite Hx, Hl. cbn. auto.
  - intros [H0 H1].
    destruct (i <? 0) eqn:Hi; [|apply Z.ltb_ge in Hi; lia].
    destruct (i + Z.of_nat (length (indices d)) <? 0) eqn:Hs;
      [apply Z.ltb_lt in Hs; lia|].
    rewrite Hs. reflexivity.
  - intros [Hlo|Hhi].
    + destruct (i <? 0) eqn:Hi; [|apply Z.ltb_ge in Hi; lia].
      destruct (i + Z.of_nat (length (indices d)) <? 0) eqn:Hs;
        [reflexivity|apply Z.ltb_ge in Hs; lia].
    + destruct (i <? 0) eqn:Hi; [apply Z.ltb_lt in Hi; lia|]. rewrite Hi.
      destruct (nth_error (indices d) (Z.to_nat i)) as [j|] eqn:Hj;
        [|reflexivity].
      assert (Z.to_nat i < length (indices d))%nat
        by (apply nth_error_Some; congruence).
      lia.
Qed.

(** ** Running a constructor forward *)

Section RunFacts.
Context {ext : External}.
Variable feature_row : Type.
Implicit Types (pre : list pyval -> list feature_row).
Implicit Types (d : dataset feature_row) (w : world).

Lemma bind_assert_true {B} (k : unit -> M B) w :
  bind (py_assert true) k w = k tt w.
Proof. reflexivity. Qed.

Lemma bind_assert_false {B} (k : unit -> M B) w :
  bind (py_assert false) k w = (inl (AssertionError None), w).
Proof. reflexivity. Qed.

Lemma bind_lift_ok {A B} (a : A) (k : A -> M B) w :
  bind (lift (inr a)) k w = k a w.
Proof. reflexivity. Qed.

Lemma bind_lift_err {A B} (e : pyerr) (k : A -> M B) w :
  bind (lift (inl e)) k w = (inl e, w).
Proof. reflexivity. Qed.

Lemma bind_read_ok {B} (path sep : string) (data : ndarray)
  (k : ndarray -> M B) w :
  read_csv path sep = inr data ->
  bind (pd_read_csv_values path sep) k w = k data (with_read path w).
Proof.
  intro H. unfold bind, pd_read_csv_values, with_read. now rewrite H.
Qed.

Lemma column_ok (data : ndarray) (j : nat) :
  (j < ncols data)%nat ->
  column data j = inr (map (fun row => nth j row PNaN) (rows data)).
Proof.
  intro H. unfold column. apply Nat.ltb_lt in H. now rewrite H.
Qed.

Lemma rmap_all_ok {A B} (f : A -> result B) (l : list A) :
  Forall (fun a => exists b, f a = inr b) l ->
  exists bs, rmap f l = inr bs.
Proof.
  induction 1 as [|a l [b Hb] _ [bs IH]]; [now exists []|].
  exists (b :: bs). cbn. now rewrite Hb, IH.
Qed.

Lemma rmap_some_err {A B} (f : A -> result B) (l : list A) (e : pyerr) :
  (forall a, In a l -> f a = inl e \/ exists b, f a = inr b) ->
  Exists (fun a => f a = inl e) l ->
  rmap f l = inl e.
Proof.
  induction l as [|a l IH]; intros Hall HE; [inversion HE|].
  cbn. destruct (Hall a (or_introl eq_refl)) as [Ha|[b Ha]]; rewrite Ha;
    [reflexivity|].
  rewrite IH; [reflexivity| |].
  - intros a' Ha'. apply Hall. now right.
  - inversion HE; subst; [congruence|assumption].
Qed.

(** The body of the label comprehension, for one row. *)
Lemma encode_row (vocab : list pyval) (nc col : nat) (row : list pyval) :
  (col < nc)%nat ->
  (let? labs := getattr (Some vocab) in
   let? v := cell nc row col in
   let? k := py_index labs v in ok (PInt (Z.of_nat k)))%result =
  if py_in (nth col row PNaN) vocab
  then (let? k := py_index vocab (nth col row PNaN) in
        ok (PInt (Z.of_nat k)))%result
  else inl ValueError.
Proof.
  intro Hc. apply Nat.ltb_lt in Hc. unfold getattr, cell, rbind, ok.
  rewrite Hc. destruct (py_in (nth col row PNaN) vocab) eqn:Hin;
    [reflexivity|]. now rewrite (py_index_not_in _ _ Hin).
Qed.

Lemma encode_labels_ok (vocab : list pyval) (nc col : nat)
  (rws : list (list pyval)) :
  (col < nc)%nat ->
  Forall (fun row => py_in (nth col row PNaN) vocab = true) rws ->
  exists ys, encode_labels (Some vocab) nc col rws = inr ys.
Proof.
  intros Hc HF. unfold encode_labels. apply rmap_all_ok.
  eapply Forall_impl; [|exact HF]. cbv beta. intros row Hrow.
  rewrite (encode_row vocab row Hc), Hrow.
  destruct (py_index_in _ _ Hrow) as [j ->]. now eexists.
Qed.

(** A row with a label outside the vocabulary stops the encoding. *)
Lemma encode_labels_unknown (vocab : list pyval) (nc col : nat)
  (rws : list (list pyval)) :
  (col < nc)%nat ->
  Exists (fun row => py_in (nth col row PNaN) vocab = false) rws ->
  encode_labels (Some vocab) nc col rws = inl ValueError.
Proof.
  intros Hc HE. unfold encode_labels. apply rmap_some_err.
  - intros row _. rewrite (encode_row vocab row Hc).
    destruct (py_in (nth col row PNaN) vocab) eqn:Hin; [right|now left].
    destruct (py_index_in _ _ Hin) as [j ->]. now eexists.
  - eapply Exists_impl; [|exact HE]. cbv beta. intros row Hrow.
    now rewrite (encode_row vocab row Hc), Hrow.
Qed.

Lemma get_data_split_ok (n : nat) (r : pyfloat) (seed : option Z) w :
  ratio_in_unit r ->
  Z.of_nat n < 2 ^ 1023 ->
  exists tv, get_data_split n r seed w = (inr tv, after_draw n seed w).
Proof.
  intros Hr Hn.
  destruct (float_of_int_in_range (n := Z.of_nat n) ltac:(lia)) as [f Hf].
  destruct (split_count_spec (n := Z.of_nat n) ltac:(lia) Hr Hf)
    as (k & Hint & _).
  rewrite get_data_split_run. unfold int_mul_float, rbind, ok in *.
  rewrite Hf. cbv beta iota. rewrite Hint. eexists. reflexivity.
Qed.

Lemma prepare_data_split_ok (n : nat) (es : bool) (split : string)
  (seed : option Z) w :
  Z.of_nat n < 2 ^ 1023 ->
  exists r w', prepare_data_split n es split seed w = (inr r, w').
Proof.
  intro Hn. unfold prepare_data_split.
  destruct (es && (split =? "train")%string).
  - destruct (get_data_split_ok n seed w ratio_0_2_in_unit Hn) as [tv Htv].
    unfold default_split_ratio.
    erewrite bind_step; [|exact Htv]. eexists _, _. reflexivity.
  - eexists _, _. reflexivity.
Qed.

(** [GermEval21vmwe] constructs whenever its file is read and has the
    four columns the adapter looks at. *)
Lemma GermEval21vmwe_runs pre df test es ratio seed w data :
  row_per_text pre ->
  read_csv (data_path GermEval21vmwe df (PInt 1) test) tab = inr data ->
  (3 < ncols data)%nat ->
  Z.of_nat (length (rows data)) < 2 ^ 1023 ->
  exists d w', GermEval21vmwe_init pre df test es ratio seed w = (inr d, w').
Proof.
  intros Hpre Hread Hnc Hsize. unfold GermEval21vmwe_init.
  cbn [data_path split_name] in Hread.
  erewrite bind_read_ok; [|exact Hread]. cbv beta zeta.
  rewrite (column_ok data (j := 2)) by lia. rewrite bind_lift_ok.
  cbv beta. unfold getattr, rbind, ok. rewrite bind_lift_ok. cbv beta.
  rewrite (np_delete_where (fun row => nth 2 row PNaN)
             (fun v => negb (py_in v vmwe_labels))).
  set (kept := filter _ (rows data)).
  unfold column at 1. cbn [ncols rows].
  replace (3 <? ncols data)%nat with true
    by (symmetry; apply Nat.ltb_lt; lia).
  rewrite bind_lift_ok. cbv beta.
  destruct (encode_labels_ok vmwe_labels (nc := ncols data) (col := 2)
              (rws := kept) ltac:(lia)) as [ys Hys].
  { apply Forall_forall. intros row Hrow. subst kept.
    apply filter_In in Hrow. destruct Hrow as [_ Hrow].
    now apply negb_true_iff, negb_false_iff in Hrow. }
  rewrite Hys, bind_lift_ok. cbv beta.
  match goal with
  | |- context [bind (prepare_data_split ?n ?e ?s ?sd) _ ?w1] =>
      destruct (@prepare_data_split_ok n e s sd w1) as (r & w' & Hr)
  end.
  { rewrite Hpre, length_map. subst kept.
    pose proof (filter_length_le
                  (fun a => negb (negb (py_in (nth 2 a PNaN) vmwe_labels)))
                  (rows data)). lia. }
  erewrite bind_step; [|exact Hr]. eexists _, _. reflexivity.
Qed.

End RunFacts.

(** ** The claims about the constructors *)

(** [sub] occurs in [s]. *)
Fixpoint contains (sub s : string) : bool :=
  if String.prefix sub s then true
  else match s with
       | EmptyString => false
       | String _ s' => contains sub s'
       end.

(** An error names the allowed set when it carries a message in which
    every allowed selector occurs. Of the exceptions modelled only an
    [AssertionError] can carry one, the message of its [assert]. *)
Definition names_allowed_set (e : pyerr) (allowed : list pyval) : Prop :=
  exists msg,
    e = AssertionError (Some msg) /\
    forall t, In t allowed -> contains (py_str t) msg = true.

(** Run a constructor on a concrete input. *)
Ltac run_concrete :=
  match goal with
  | |- exists d w', ?t = _ /\ _ =>
      let v := eval vm_compute in t in
      change t with v
  end;
  eexists _, _; split; [reflexivity|].

(** Close [t = v] for a concrete run [t] by computing [t] alone. *)
Ltac run_eq :=
  match goal with
  | |- ?t = _ => let v := eval vm_compute in t in change t with v
  end;
  reflexivity.

(** C2. Run on the failing input: [GermEval17] built for training with
    early stopping and [split_ratio = 0.5] over ten retained samples keeps
    two validation indices, [int(10 * 0.2)], where the claim asks for
    [floor(10 * 0.5) = 5]. The argument never reaches [get_data_split]. *)
Theorem C2_split_ratio_not_forwarded :
  exists d w',
    GermEval17_init Demo.preprocesser "datasets" (PStr "Relevance")
      false true float_0_5 (Some 42) Demo.w0 = (inr d, w') /\
    length (X d) = 10%nat /\
    option_map (@List.length nat) (idx_valid d) = Some 2%nat /\
    exists p, int_mul_float 10 float_0_5 = ok p /\ float_floor p = Some 5.
Proof.
  run_concrete. split; [reflexivity|]. split; [reflexivity|].
  eexists. split; reflexivity.
Qed.

(** C7, as the code has it. [GermEval21vmwe] drops the rows whose label is
    outside its vocabulary: a file with exactly one such row gives an
    instance that retains the other rows, one fewer than the file has.
    (The other adapters have no such filter.) *)
Theorem C7_vmwe_drops_unknown_label {ext : External} (feature_row : Type)
  (pre : list pyval -> list feature_row) (df : string) (test es : bool)
  (ratio : pyfloat) (seed : option Z) (w : world) (data : ndarray) :
  row_per_text pre ->
  read_csv (df ++ "/germeval21vmwe/" ++ (if test then "test" else "train")
            ++ ".tsv") tab = inr data ->
  (3 < ncols data)%nat ->
  Z.of_nat (length (rows data)) < 2 ^ 1023 ->
  length (filter (fun row => negb (py_in (nth 2 row PNaN) vmwe_labels))
            (rows data)) = 1%nat ->
  exists d w',
    GermEval21vmwe_init pre df test es ratio seed w = (inr d, w') /\
    length (X d) = (length (rows data) - 1)%nat /\
    length (y d) = (length (rows data) - 1)%nat.
Proof.
  intros Hpre Hread Hnc Hsize Hone.
  destruct (GermEval21vmwe_runs (pre := pre) df test es ratio seed w
              Hpre Hread Hnc Hsize) as (d & w' & Hrun).
  exists d, w'. split; [exact Hrun|].
  pose proof (@GermEval21vmwe_constructed _ _ pre df (PInt 1) test es ratio
                seed w d w' Hrun) as Hc.
  pose proof (constructed_aligned Hpre Hc) as Hal.
  destruct Hc as (data' & col & Hread' & _ & _ & _ & _ & _ & HX & _ & _).
  change (read_csv (df ++ "/germeval21vmwe/" ++
                    (if test then "test" else "train") ++ ".tsv") tab =
          inr data') in Hread'.
  rewrite Hread in Hread'. injection Hread' as <-.
  assert (HlenX : length (X d) = (length (rows data) - 1)%nat).
  { rewrite HX, Hpre, length_map.
    pose proof (filter_length
                  (fun row => py_in (nth 2 row PNaN) vmwe_labels)
                  (rows data)) as Hfl.
    cbv beta in Hfl. rewrite Hone in Hfl.
    change (retained GermEval21vmwe)
      with (fun row => py_in (nth 2 row PNaN) vmwe_labels).
    lia. }
  split; [exact HlenX|]. now rewrite Hal.
Qed.

(** C8, as the code has it. Constructing an adapter that takes a task
    selector with a selector outside its allowed set fails on the
    [assert], before any file is read and with the generator untouched.
    The error is a bare [AssertionError]: it carries no message. *)
Theorem C8_invalid_task {ext : External} (feature_row : Type)
  (k : klass) (pre : list pyval -> list feature_row) (df : string)
  (task : pyval) (test es : bool) (ratio : pyfloat) (seed : option Z)
  (w : world) :
  k <> GermEval21vmwe ->
  py_in task (tasks_of k) = false ->
  construct k pre df task test es ratio seed w =
  (inl (AssertionError None), w).
Proof.
  intros Hk Hin. destruct k; try contradiction; cbn [tasks_of] in Hin;
    cbn [construct];
    unfold GermEval17_init, GermEval18_init, GermEval19_init,
      GermEval21_init;
    rewrite Hin; apply bind_assert_false.
Qed.

(** C9, as the code has it. In an instance with a label vocabulary every
    entry of the label tensor is an index into the vocabulary, and the
    vocabulary entry there equals (Python [==]) the label value the
    adapter encoded for that row: the field of the label column, which
    [GermEval17] has first cut at the colon in column 4. When that value
    is a string, the entry is that very string. *)
Theorem C9_label_round_trip {ext : External} (feature_row : Type)
  (k : klass) (pre : list pyval -> list feature_row) (df : string)
  (task : pyval) (test es : bool) (ratio : pyfloat) (seed : option Z)
  (w w' : world) (d : dataset feature_row) (data : ndarray)
  (vocab : list pyval) :
  construct k pre df task test es ratio seed w = (inr d, w') ->
  read_csv (data_path k df task test) (sep_of k) = inr data ->
  labels d = Some vocab ->
  exists col,
    label_col k task = inr col /\
    Forall2
      (fun row lab =>
         exists j v,
           lab = PInt (Z.of_nat j) /\
           (j < length vocab)%nat /\
           nth_error vocab j = Some v /\
           py_eq v (label_of k col row) = true /\
           (forall s, label_of k col row = PStr s -> v = PStr s))
      (filter (retained k) (rows data)) (y d).
Proof.
  intros H Hread Hvocab. apply construct_constructed in H.
  destruct H as (data' & col & Hread' & _ & _ & _ & Hcol & H21 & _ & Hy & _).
  rewrite Hread in Hread'. injection Hread' as <-.
  exists col. split; [exact Hcol|].
  eapply Forall2_impl; [|exact Hy]. cbv beta. intros row lab Henc.
  destruct k; cbn [encodes] in Henc;
    try (rewrite H21 in Hvocab by reflexivity; discriminate);
    destruct Henc as (vocab' & j & Hl & Hj & ->);
    rewrite Hvocab in Hl; injection Hl as <-;
    destruct (py_index_spec _ _ Hj) as (Hlt & v & Hn & Heq);
    exists j, v; repeat split; try assumption;
    intros s Hs; rewrite Hs in Heq; now apply py_eq_str.
Qed.

(** C10, as the code has it. [GermEval18] accepts the task ["C"] and
    defines no vocabulary for it. Once the file is read and holds at
    least one row, construction fails in the label comprehension with an
    [AttributeError]; the file has been read by then and nothing else has
    happened. *)
Theorem C10_task_C_undefined_vocabulary {ext : External}
  (feature_row : Type) (pre : list pyval -> list feature_row) (df : string)
  (test es : bool) (ratio : pyfloat) (seed : option Z) (w : world)
  (data : ndarray) :
  read_csv (df ++ "/germeval18/" ++ (if test then "test" else "train")
            ++ ".txt") tab = inr data ->
  (0 < ncols data)%nat ->
  rows data <> [] ->
  py_in (PStr "C") OL_tasks = true /\
  GermEval18_init pre df (PStr "C") test es ratio seed w =
  (inl AttributeError,
   with_read (df ++ "/germeval18/" ++ (if test then "test" else "train")
              ++ ".txt") w).
Proof.
  intros Hread Hnc Hrows. split; [reflexivity|].
  unfold GermEval18_init.
  change (py_in (PStr "C") OL_tasks) with true.
  rewrite bind_assert_true.
  change (py_index OL_tasks (PStr "C")) with (@inr pyerr nat 2%nat).
  rewrite bind_lift_ok. cbv beta zeta.
  erewrite bind_read_ok; [|exact Hread]. cbv beta.
  rewrite (column_ok data (j := 0)) by exact Hnc.
  rewrite bind_lift_ok. cbv beta.
  change (py_eq (PStr "C") (PStr "A")) with false.
  change (py_eq (PStr "C") (PStr "B")) with false. cbv iota.
  destruct (rows data) as [|row rws]; [contradiction|].
  reflexivity.
Qed.

(** ** Where the claims fail as stated *)

(** C6 as stated fails: on an instance of three samples [get(-1)] is
    outside [0, length()) and still returns the last sample. *)
Lemma C6_counterexample :
  exists d w',
    GermEval21vmwe_init Demo.preprocesser "datasets" false false
      float_0_2 (Some 42) Demo.w0 = (inr d, w') /\
    __len__ d = 3%nat /\
    ~ (0 <= -1 < Z.of_nat (__len__ d)) /\
    __getitem__ d (-1) = ok ([19], PInt 0).
Proof.
  run_concrete. split; [reflexivity|]. split; [|reflexivity].
  cbn. lia.
Qed.

(** C7 as stated fails for [GermEval18]: of the three rows of the file one
    has a label outside the vocabulary, and construction raises a
    [ValueError] instead of returning an instance of two samples. *)
Lemma C7_counterexample :
  @read_csv Demo.ext "broken/germeval18/train.txt" tab =
    ok Demo.germeval18_unknown_label /\
  length (rows Demo.germeval18_unknown_label) = 3%nat /\
  length (filter (fun row => negb (py_in (nth 1 row PNaN) OL_coarse))
            (rows Demo.germeval18_unknown_label)) = 1%nat /\
  fst (GermEval18_init Demo.preprocesser "broken" (PStr "A") false false
         float_0_2 (Some 42) Demo.w0) = inl ValueError.
Proof. repeat split; vm_compute; reflexivity. Qed.

(** C8 as stated fails: the error raised for the selector ["D"] carries no
    message, so it does not name the allowed set. *)
Lemma C8_counterexample :
  exists e,
    GermEval18_init Demo.preprocesser "datasets" (PStr "D") false false
      float_0_2 (Some 42) Demo.w0 = (inl e, Demo.w0) /\
    ~ names_allowed_set e OL_tasks.
Proof.
  exists (AssertionError None). split; [reflexivity|].
  intros (msg & Hmsg & _). discriminate.
Qed.

(** C9 as stated fails for the Category task of [GermEval17]: the source
    label of the first row is ["Zugfahrt:negative"], its encoded label is
    12, and the vocabulary holds ["Zugfahrt"] there. *)
Lemma C9_counterexample :
  exists d w',
    GermEval17_init Demo.preprocesser "datasets" (PStr "Category")
      false false float_0_2 (Some 42) Demo.w0 = (inr d, w') /\
    nth 4 (nth 0 (rows Demo.germeval17_train) []) PNaN =
      PStr "Zugfahrt:negative" /\
    nth_error (y d) 0 = Some (PInt 12) /\
    nth_error GermEval17_Category 12 = Some (PStr "Zugfahrt") /\
    py_eq (PStr "Zugfahrt") (PStr "Zugfahrt:negative") = false.
Proof. run_concrete. repeat split. Qed.

(** C10 as stated fails: on a file with a header and no rows the label
    comprehension has nothing to encode, and construction with task ["C"]
    returns an (empty) instance. *)
Lemma C10_counterexample :
  exists d w',
    GermEval18_init Demo.preprocesser "empty" (PStr "C") false false
      float_0_2 (Some 42) Demo.w0 = (inr d, w') /\
    labels d = None /\
    __len__ d = 0%nat.
Proof. run_concrete. repeat split. Qed.

(** ** The theorems at concrete inputs *)

Lemma Demo_row_per_text : row_per_text Demo.preprocesser.
Proof. intro texts. apply length_map. Qed.

Lemma C1_witness :
  exists train valid,
    fst (get_data_split 10 float_0_2 (Some 42) Demo.w0) =
      ok (train, valid) /\
    (length train + length valid = 10)%nat /\
    Z.of_nat (length valid) = 2.
Proof.
  destruct (@C1_split_partition Demo.ext 10%nat float_0_2
              (S754_finite false 5629499534213120 (-49)) (Some 42) Demo.w0
              ratio_0_2_in_unit eq_refl)
    as (train & valid & Hrun & Hlen & Hfloor & _).
  exists train, valid. rewrite Hrun. split; [reflexivity|].
  split; [exact Hlen|]. vm_compute in Hfloor. now injection Hfloor.
Defined.

Lemma C3_witness :
  fst (get_data_split 10 float_0_2 (Some 42) Demo.w0) =
  fst (get_data_split 10 float_0_2 (Some 42)
         (@Build_world Demo.ext 7 ["x"])).
Proof.
  apply (@C3_split_reproducible Demo.ext 10%nat float_0_2 42 Demo.w0
           (@Build_world Demo.ext 7 ["x"])).
  discriminate.
Defined.

Lemma C4_witness :
  exists d w',
    construct GermEval17 Demo.preprocesser "datasets" (PStr "Relevance")
      false true float_0_5 (Some 42) Demo.w0 = (inr d, w') /\
    (split_active true false = false -> __len__ d = length (X d)) /\
    (split_active true false = true ->
     exists w1 train valid,
       get_data_split (length (X d)) default_split_ratio (Some 42) w1 =
         (inr (train, valid), w') /\
       idx_valid d = Some valid /\
       __len__ d = length train).
Proof.
  run_concrete.
  eapply (@C4_length_of_instance Demo.ext _ GermEval17 Demo.preprocesser
           "datasets" (PStr "Relevance") false true float_0_5 (Some 42)
           Demo.w0).
  run_eq.
Defined.

Lemma C5_witness :
  exists d w',
    construct GermEval17 Demo.preprocesser "datasets" (PStr "Relevance")
      false true float_0_5 (Some 42) Demo.w0 = (inr d, w') /\
    (split_active true false = false ->
     get_validation_set d = ok (None, None)) /\
    (split_active true false = true ->
     exists valid xs ys,
       idx_valid d = Some valid /\
       get_validation_set d = ok (Some xs, Some ys) /\
       Forall2 (fun j x => nth_error (X d) j = Some x) valid xs /\
       Forall2 (fun j l => nth_error (y d) j = Some l) valid ys).
Proof.
  run_concrete.
  eapply (@C5_validation_set Demo.ext _ GermEval17 Demo.preprocesser
           "datasets" (PStr "Relevance") false true float_0_5 (Some 42)
           Demo.w0).
  - exact Demo_row_per_text.
  - run_eq.
Defined.

Lemma C6_witness :
  exists d w',
    construct GermEval21vmwe Demo.preprocesser "datasets" (PInt 1)
      false false float_0_2 (Some 42) Demo.w0 = (inr d, w') /\
    (0 <= 1 < Z.of_nat (__len__ d) ->
     exists j x l,
       nth_error (indices d) (Z.to_nat 1) = Some j /\
       nth_error (X d) j = Some x /\
       nth_error (y d) j = Some l /\
       __getitem__ d 1 = ok (x, l)) /\
    (- Z.of_nat (__len__ d) <= 1 < 0 ->
     __getitem__ d 1 = __getitem__ d (1 + Z.of_nat (__len__ d))) /\
    (1 < - Z.of_nat (__len__ d) \/ Z.of_nat (__len__ d) <= 1 ->
     __getitem__ d 1 = throw IndexError).
Proof.
  run_concrete.
  eapply (@C6_getitem Demo.ext _ GermEval21vmwe Demo.preprocesser
           "datasets" (PInt 1) false false float_0_2 (Some 42) Demo.w0).
  - exact Demo_row_per_text.
  - run_eq.
Defined.

Lemma C7_witness :
  exists d w',
    GermEval21vmwe_init Demo.preprocesser "datasets" false false float_0_2
      (Some 42) Demo.w0 = (inr d, w') /\
    length (X d) = (length (rows Demo.germeval21vmwe_train) - 1)%nat /\
    length (y d) = (length (rows Demo.germeval21vmwe_train) - 1)%nat.
Proof.
  eapply (@C7_vmwe_drops_unknown_label Demo.ext _ Demo.preprocesser
           "datasets" false false float_0_2 (Some 42) Demo.w0
           Demo.germeval21vmwe_train).
  - exact Demo_row_per_text.
  - reflexivity.
  - cbn. lia.
  - reflexivity.
  - reflexivity.
Defined.

Lemma C8_witness :
  construct GermEval18 Demo.preprocesser "datasets" (PStr "D") false false
    float_0_2 (Some 42) Demo.w0 = (inl (AssertionError None), Demo.w0).
Proof.
  eapply (@C8_invalid_task Demo.ext _ GermEval18 Demo.preprocesser
           "datasets" (PStr "D") false false float_0_2 (Some 42) Demo.w0).
  - discriminate.
  - reflexivity.
Defined.

Lemma C9_witness :
  exists d w',
    construct GermEval17 Demo.preprocesser "datasets" (PStr "Category")
      false false float_0_2 (Some 42) Demo.w0 = (inr d, w') /\
    exists col,
      label_col GermEval17 (PStr "Category") = inr col /\
      Forall2
        (fun row lab =>
           exists j v,
             lab = PInt (Z.of_nat j) /\
             (j < length GermEval17_Category)%nat /\
             nth_error GermEval17_Category j = Some v /\
             py_eq v (label_of GermEval17 col row) = true /\
             (forall s, label_of GermEval17 col row = PStr s -> v = PStr s))
        (filter (retained GermEval17) (rows Demo.germeval17_train)) (y d).
Proof.
  run_concrete.
  eapply (@C9_label_round_trip Demo.ext _ GermEval17 Demo.preprocesser
           "datasets" (PStr "Category") false false float_0_2 (Some 42)
           Demo.w0).
  - run_eq.
  - reflexivity.
  - reflexivity.
Defined.

Lemma C10_witness :
  py_in (PStr "C") OL_tasks = true /\
  GermEval18_init Demo.preprocesser "datasets" (PStr "C") false false
    float_0_2 (Some 42) Demo.w0 =
  (inl AttributeError,
   with_read ("datasets" ++ "/germeval18/" ++ "train" ++ ".txt") Demo.w0).
Proof.
  eapply (@C10_task_C_undefined_vocabulary Demo.ext _ Demo.preprocesser
           "datasets" false false float_0_2 (Some 42) Demo.w0
           Demo.germeval18_train).
  - reflexivity.
  - cbn. lia.
  - discriminate.
Defined.

(** ** The default ratio: one fifth, exactly *)

(** Rounding a positive mantissa leaves a positive one. *)
Lemma shift_keeps_positive (m e : Z) :
  0 < m -> -1074 <= e -> 0 < m / 2 ^ shift_of m e.
Proof.
  intros Hm He. destruct (Zdigits2_bounds Hm) as (Hd1 & Hdlo & _).
  unfold shift_of. rewrite fexp_eq.
  set (d := Zdigits2 m) in *.
  set (k := Z.max 0 (Z.max (d + e - 53) (-1074) - e)).
  assert (Hk : 0 <= k <= d - 1) by lia.
  apply Z.div_str_pos. split; [apply pow2_pos; lia|].
  eapply Z.le_trans; [|exact Hdlo]. apply Z.pow_le_mono_r; lia.
Qed.

(** A positive integer below [2^53], shifted left until it has 53 bits. *)
Lemma normalise_53 (x : Z) :
  0 < x < 2 ^ 53 ->
  exists s, 0 <= s <= 52 /\ 2 ^ 52 <= x * 2 ^ s < 2 ^ 53.
Proof.
  intros [Hx Hlt]. destruct (Zdigits2_bounds Hx) as (Hd1 & Hdlo & Hdhi).
  set (d := Zdigits2 x) in *.
  assert (Hd : d <= 53).
  { assert (d - 1 < 53) by (apply pow2_lt_inv; lia). lia. }
  exists (53 - d). split; [lia|].
  pose proof (pow2_pos (a := 53 - d) ltac:(lia)) as Hp.
  assert (H52 : 2 ^ 52 = 2 ^ (d - 1) * 2 ^ (53 - d)).
  { rewrite <- Z.pow_add_r by lia. f_equal. lia. }
  assert (H53 : 2 ^ 53 = 2 ^ d * 2 ^ (53 - d)).
  { rewrite <- Z.pow_add_r by lia. f_equal. lia. }
  rewrite H52, H53. split.
  - apply Z.mul_le_mono_nonneg_r; lia.
  - apply Z.mul_lt_mono_pos_r; lia.
Qed.

(** [float(n)] is exact below [2^53]: a 53-bit mantissa holding [n]
    shifted left. *)
Lemma float_of_int_exact (n : Z) :
  0 < n < 2 ^ 53 ->
  exists mN a,
    float_of_int n = ok (S754_finite false mN (- a)) /\
    0 <= a <= 52 /\
    Zpos mN = n * 2 ^ a.
Proof.
  intros [Hn Hlt]. destruct n as [|p|p]; try lia.
  unfold float_of_int, ok, throw. cbn [binary_normalize].
  unfold binary_round, shl_align. rewrite fexp_eq.
  destruct (digits2_pos_bounds p) as [Hdlo Hdhi].
  set (d := Zpos (digits2_pos p)) in *.
  assert (Hd1 : 1 <= d) by (subst d; lia).
  assert (Hd53 : d <= 53).
  { assert (d - 1 < 53) by (apply pow2_lt_inv; lia). lia. }
  destruct (Z.max (d + 0 - 53) (-1074) - 0) as [|q|q] eqn:Hsh.
  - assert (Hd : d = 53) by lia.
    destruct (binary_round_aux_spec false (M := Zpos p) 0 ltac:(lia))
      as (m2 & Hm2 & ->).
    assert (Hs1 : shift_of (Zpos p) 0 = 0).
    { unfold shift_of. rewrite fexp_eq. cbn [Zdigits2]. fold d. lia. }
    rewrite Hs1 in *. cbn zeta. change (2 ^ 0) with 1 in Hm2.
    rewrite Z.div_1_r, Z.mod_1_r in Hm2.
    assert (m2 = Zpos p) by (destruct Hm2 as [?|[_ ?]]; lia). subst m2.
    assert (Hs2 : shift_of (Zpos p) (0 + 0) = 0).
    { unfold shift_of. rewrite fexp_eq. cbn [Zdigits2]. fold d. lia. }
    rewrite Hs2. change (2 ^ 0) with 1. rewrite Z.div_1_r.
    exists p, 0. split; [reflexivity|]. split; [lia|].
    change (2 ^ 0) with 1. lia.
  - exfalso. lia.
  - assert (Hq : Zpos q = 53 - d) by lia.
    replace (Z.max (d + 0 - 53) (-1074)) with (d - 53) by lia.
    set (M := Zpos (Pos.iter xO p q)).
    assert (HM : M = Zpos p * 2 ^ Zpos q) by apply iter_xO_pow.
    assert (Hpq : 0 < 2 ^ Zpos q) by (apply pow2_pos; lia).
    assert (HMb : 2 ^ 52 <= M < 2 ^ 53).
    { assert (H1 : 2 ^ 52 = 2 ^ (d - 1) * 2 ^ Zpos q).
      { rewrite <- Z.pow_add_r by lia. f_equal. lia. }
      assert (H2 : 2 ^ 53 = 2 ^ d * 2 ^ Zpos q).
      { rewrite <- Z.pow_add_r by lia. f_equal. lia. }
      rewrite H1, H2, HM. split.
      - apply Z.mul_le_mono_nonneg_r; lia.
      - apply Z.mul_lt_mono_pos_r; lia. }
    assert (HdM : Zdigits2 M = 53)
      by (apply Zdigits2_unique; [lia|exact HMb]).
    destruct (binary_round_aux_spec false (M := M) (d - 53) ltac:(lia))
      as (m2 & Hm2 & ->).
    assert (Hs1 : shift_of M (d - 53) = 0).
    { unfold shift_of. rewrite fexp_eq, HdM. lia. }
    rewrite Hs1 in *. cbn zeta. change (2 ^ 0) with 1 in Hm2.
    rewrite Z.div_1_r, Z.mod_1_r in Hm2.
    assert (m2 = M) by (destruct Hm2 as [?|[_ ?]]; lia). subst m2.
    rewrite Z.add_0_r, Hs1. change (2 ^ 0) with 1. rewrite Z.div_1_r.
    rewrite Z.add_0_r. subst M.
    replace (d - 53 <=? emax - prec) with true
      by (symmetry; apply Z.leb_le; unfold emax, prec; lia).
    exists (Pos.iter xO p q), (Zpos q).
    split; [do 2 f_equal; lia|]. split; [lia|]. exact HM.
Qed.

(** [int(n * 0.2)] is [n // 5] for every [n] below [2^52]: the product
    is rounded to a double, and that double still lies in
    [[n // 5, n // 5 + 1)]. *)
Lemma fifth_count (n : Z) :
  0 <= n < 2 ^ 52 ->
  exists f,
    float_of_int n = ok f /\
    int_of_float (float_mul f float_0_2) = ok (n / 5).
Proof.
  intros [Hn Hlt]. destruct (Z.eq_dec n 0) as [->|Hn0].
  { exists (S754_zero false). split; reflexivity. }
  destruct (float_of_int_exact (n := n)) as (mN & a & Hf & Ha & HmN).
  { split; [lia|]. eapply Z.lt_trans; [exact Hlt|]. reflexivity. }
  eexists. split; [exact Hf|].
  unfold float_mul, float_0_2. cbn [SFmul xorb].
  destruct (binary_round_aux_spec false
              (M := Zpos (mN * 7205759403792794)) (- a + -55) ltac:(lia))
    as (m2 & Hm2 & ->).
  cbn zeta.
  set (M := Zpos (mN * 7205759403792794)) in *.
  set (E := - a + -55) in *.
  pose proof (pow2_pos (a := a) ltac:(lia)) as Hpa.
  set (pa := 2 ^ a) in *.
  assert (HM : M = n * 7205759403792794 * pa) by (subst M; lia).
  (* n = 5 q + t *)
  pose proof (Z.div_mod n 5 ltac:(lia)) as Hdm.
  pose proof (Z.mod_pos_bound n 5 ltac:(lia)) as Ht.
  set (q := n / 5) in *. set (t := n mod 5) in *.
  assert (Hq : 0 <= q) by lia.
  assert (H52 : 2 ^ 52 = 4503599627370496) by reflexivity.
  assert (H53 : 2 ^ 53 = 9007199254740992) by reflexivity.
  assert (H55 : 2 ^ 55 = 36028797018963968) by reflexivity.
  (* the double [q + 7/8], normalised *)
  destruct (normalise_53 (x := 8 * q + 7) ltac:(lia)) as (s & Hs & HmB).
  set (mB := (8 * q + 7) * 2 ^ s) in *.
  pose proof (pow2_pos (a := s) ltac:(lia)) as Hps.
  assert (Hs50 : s <= 50).
  { assert (2 ^ s < 2 ^ 51).
    { apply (Z.mul_lt_mono_pos_l 4); [lia|].
      change (4 * 2 ^ 51) with (2 ^ 53). nia. }
    apply pow2_lt_inv in H; lia. }
  set (eB := -3 - s). set (c := a + 55).
  assert (HBc : mB * 2 ^ (eB + c) = (8 * q + 7) * 2 ^ 52 * pa).
  { subst mB eB c pa. replace (-3 - s + (a + 55)) with (52 - s + a) by lia.
    rewrite Z.pow_add_r by lia.
    rewrite (pow2_split (u := s) (v := 52)) by lia. ring. }
  assert (HVB : M <= (8 * q + 7) * 2 ^ 52 * pa).
  { rewrite HM. apply Z.mul_le_mono_nonneg_r; [lia|]. lia. }
  assert (Hmid : 2 * M * 2 ^ (E + c) < (2 * mB + 1) * 2 ^ (eB + c)).
  { replace (E + c) with 0 by (subst E c; lia). change (2 ^ 0) with 1.
    pose proof (pow2_pos (a := eB + c) ltac:(subst eB c; lia)).
    lia. }
  destruct (round_below (M := M) (mB := mB) (eB := eB) (m2 := m2) E c
              ltac:(lia) HmB ltac:(subst eB; lia)
              ltac:(subst E c; lia) ltac:(subst eB c; lia) Hmid Hm2)
    as [Hval He1].
  specialize (He1 ltac:(subst E eB; lia)).
  set (k1 := shift_of M E) in *. set (e1 := E + k1) in *.
  assert (Hk1 : 0 <= k1) by (subst k1; unfold shift_of; lia).
  pose proof (pow2_pos Hk1) as Hpk1.
  assert (Hm1pos : 0 < M / 2 ^ k1)
    by (apply shift_keeps_positive; subst E; lia).
  assert (Hm2pos : 0 < m2) by (destruct Hm2 as [->|[-> _]]; lia).
  assert (Hm2ge : M / 2 ^ k1 <= m2) by (destruct Hm2 as [->|[-> _]]; lia).
  set (k2 := shift_of m2 e1) in *.
  assert (Hk2 : 0 <= k2) by (subst k2; unfold shift_of; lia).
  pose proof (pow2_pos Hk2) as Hpk2.
  assert (Hm3pos : 0 < m2 / 2 ^ k2)
    by (apply shift_keeps_positive; subst e1 E; lia).
  pose proof (Z.div_mod m2 (2 ^ k2) ltac:(lia)) as Hdm2.
  pose proof (Z.mod_pos_bound m2 (2 ^ k2) Hpk2) as Hrem2.
  destruct (m2 / 2 ^ k2) as [|m3|m3] eqn:Hm3; try lia.
  (* the exponent of the result is that of the bound at most *)
  replace (e1 + c) with k1 in Hval by (subst e1 E c; lia).
  rewrite HBc in Hval.
  assert (He2 : e1 + k2 <= eB).
  { destruct (Zdigits2_bounds Hm2pos) as (Hd2 & Hd2lo & _).
    assert (Hlt2 : 2 ^ (Zdigits2 m2 - 1 + k1) < 2 ^ (53 + (eB + c))).
    { rewrite (Z.pow_add_r 2 (Zdigits2 m2 - 1) k1) by lia.
      rewrite (Z.pow_add_r 2 53 (eB + c)) by (subst eB c; lia).
      eapply Z.le_lt_trans;
        [apply Z.mul_le_mono_nonneg_r; [lia|exact Hd2lo]|].
      eapply Z.le_lt_trans; [exact Hval|]. rewrite <- HBc.
      apply Z.mul_lt_mono_pos_r; [apply pow2_pos; subst eB c; lia|lia]. }
    apply pow2_lt_inv in Hlt2; [|subst eB c; lia].
    subst k2. unfold shift_of. rewrite fexp_eq. subst e1 E eB c. lia. }
  replace (e1 + k2 <=? emax - prec) with true
    by (symmetry; apply Z.leb_le; unfold emax, prec; subst eB; lia).
  cbn [int_of_float cond_Zopp]. unfold ok. f_equal.
  set (e3 := e1 + k2) in *.
  assert (He3 : e3 <= -3) by (subst eB; lia).
  (* 2^(a+55) = 2^(-e3) * 2^k2 * 2^k1 *)
  assert (Hsplit : 2 ^ 55 * pa = 2 ^ (- e3) * 2 ^ k2 * 2 ^ k1).
  { subst pa. rewrite <- !Z.pow_add_r by lia. f_equal.
    subst e3 e1 E. lia. }
  pose proof (pow2_pos (a := - e3) ltac:(lia)) as Hpe3.
  set (p3 := 2 ^ (- e3)) in *. set (pk1 := 2 ^ k1) in *.
  set (pk2 := 2 ^ k2) in *.
  assert (Hlow1 : q * p3 * pk2 <= M / pk1).
  { apply Z.div_le_lower_bound; [lia|].
    replace (pk1 * (q * p3 * pk2)) with (q * (p3 * pk2 * pk1)) by ring.
    rewrite <- Hsplit, HM.
    replace (q * (2 ^ 55 * pa)) with (q * 2 ^ 55 * pa) by ring.
    apply Z.mul_le_mono_nonneg_r; lia. }
  assert (Hlow : q * p3 <= Zpos m3).
  { rewrite <- Hm3. apply Z.div_le_lower_bound; [lia|].
    replace (pk2 * (q * p3)) with (q * p3 * pk2) by ring. lia. }
  assert (Hupp : Zpos m3 < (q + 1) * p3).
  { apply (Z.mul_lt_mono_pos_r (pk2 * pk1));
      [apply Z.mul_pos_pos; assumption|].
    replace ((q + 1) * p3 * (pk2 * pk1)) with ((q + 1) * 2 ^ 55 * pa)
      by (rewrite <- (Z.mul_assoc (q + 1)), Hsplit; ring).
    apply Z.le_lt_trans with (m2 * pk1).
    - rewrite Z.mul_assoc. apply Z.mul_le_mono_nonneg_r; [lia|].
      clear - Hdm2 Hrem2. lia.
    - eapply Z.le_lt_trans; [exact Hval|].
      apply Z.mul_lt_mono_pos_r; [assumption|].
      rewrite H52, H55. clear - Hq. lia. }
  unfold mantissa_trunc. clearbody e3. destruct e3 as [|pe|pe]; try lia.
  change (- Zneg pe) with (Zpos pe) in *. fold p3.
  symmetry. apply Z.div_unique with (r := Zpos m3 - q * p3); lia.
Qed.

(** ** More about the splitter *)

Section SplitterMore.
Context {ext : External}.

(** The splitter with the default ratio, run: the cut falls at [n // 5]. *)
Lemma default_split_run (n : nat) (seed : option Z) (w : world) :
  Z.of_nat n < 2 ^ 52 ->
  get_data_split n default_split_ratio seed w =
  (inr (slice_from (fst (randperm (seeded_rng seed w) n)) (Z.of_nat n / 5),
        slice_to (fst (randperm (seeded_rng seed w) n)) (Z.of_nat n / 5)),
   after_draw n seed w).
Proof.
  intro Hn.
  destruct (fifth_count (n := Z.of_nat n) ltac:(lia)) as (f & Hf & Hk).
  rewrite get_data_split_run. unfold default_split_ratio, int_mul_float.
  rewrite Hf. unfold rbind, ok in *. now rewrite Hk.
Qed.

Lemma fifth_of_nat (n : nat) : Z.of_nat n / 5 = Z.of_nat (n / 5).
Proof. now rewrite Nat2Z.inj_div. Qed.

Lemma cut_lengths (idx : list nat) (n : nat) :
  length idx = n ->
  length (slice_to idx (Z.of_nat n / 5)) = (n / 5)%nat /\
  length (slice_from idx (Z.of_nat n / 5)) = (n - n / 5)%nat.
Proof.
  intro Hlen. rewrite fifth_of_nat. unfold slice_to, slice_from.
  pose proof (Nat.Div0.div_le_upper_bound n 5 n ltac:(lia)) as Hle.
  rewrite slice_bound_nonneg by (rewrite Hlen; lia).
  rewrite Nat2Z.id, length_firstn, length_skipn. lia.
Qed.

End SplitterMore.

(** X1. Whatever the ratio is (negative, one or more, anything [int()]
    accepts), a split that returns has lost and repeated nothing: both
    parts are cut from the one permutation drawn, at the same bound, so
    together they are a permutation of [0, n). The generator has been
    advanced by exactly that one draw. *)
Theorem X1_split_partitions_for_any_ratio {ext : External} (n : nat)
  (split_ratio : pyfloat) (random_seed : option Z) (w w' : world)
  (train valid : list nat) :
  get_data_split n split_ratio random_seed w = (ok (train, valid), w') ->
  (exists k,
     train = slice_from (fst (randperm (seeded_rng random_seed w) n)) k /\
     valid = slice_to (fst (randperm (seeded_rng random_seed w) n)) k) /\
  Permutation (train ++ valid) (seq 0 n) /\
  NoDup (train ++ valid) /\
  (length train + length valid = n)%nat /\
  w' = after_draw n random_seed w.
Proof.
  intro H.
  pose proof (get_data_split_perm _ _ _ _ H) as Hperm.
  rewrite get_data_split_run in H.
  destruct (int_mul_float (Z.of_nat n) split_ratio) as [e|p]; [discriminate|].
  destruct (int_of_float p) as [e|k]; [discriminate|].
  cbn zeta in H. injection H as <- <- <-.
  split; [now exists k|]. split; [exact Hperm|]. split; [|split].
  - apply (Permutation_NoDup (Permutation_sym Hperm)), seq_NoDup.
  - rewrite <- length_app, (Permutation_length Hperm). apply length_seq.
  - reflexivity.
Qed.

(** X2. A NaN ratio makes the splitter fail with the [ValueError] of
    [int(nan)]. The permutation has been drawn by then: the failed call
    has advanced the generator (and reseeded it, for a truthy seed). *)
Theorem X2_split_nan_ratio {ext : External} (n : nat)
  (random_seed : option Z) (w : world) :
  Z.of_nat n < 2 ^ 1023 ->
  get_data_split n S754_nan random_seed w =
  (throw ValueError, after_draw n random_seed w).
Proof.
  intro Hn.
  destruct (float_of_int_in_range (n := Z.of_nat n) ltac:(lia)) as [f Hf].
  rewrite get_data_split_run. unfold int_mul_float. rewrite Hf.
  unfold rbind, ok, float_mul. now destruct f.
Qed.

(** X3. An infinite ratio fails with the [OverflowError] of [int(inf)]
    when there is at least one sample; for [n = 0] the product [0 * inf]
    is NaN and the error is a [ValueError]. Here too the generator has
    been advanced. *)
Theorem X3_split_infinite_ratio {ext : External} (n : nat) (s : bool)
  (random_seed : option Z) (w : world) :
  Z.of_nat n < 2 ^ 1023 ->
  get_data_split n (S754_infinity s) random_seed w =
  (throw (if (n =? 0)%nat then ValueError else OverflowError),
   after_draw n random_seed w).
Proof.
  intro Hn. rewrite get_data_split_run. unfold int_mul_float.
  destruct n as [|n].
  - reflexivity.
  - destruct (float_of_int_cases (n := Z.of_nat (S n)) ltac:(lia))
      as [[_ Hge]|(mN & eN & mB & eB & Hf & _)]; [lia|].
    rewrite Hf. reflexivity.
Qed.

(** X4. With the default ratio [0.2] the validation part has exactly
    [n // 5] indices and the training part the other [n - n // 5], for
    every [n] below [2^52]: the rounding of [n * 0.2] to a double never
    crosses an integer there. *)
Theorem X4_default_split_is_a_fifth {ext : External} (n : nat)
  (random_seed : option Z) (w : world) :
  Z.of_nat n < 2 ^ 52 ->
  exists train valid,
    get_data_split n default_split_ratio random_seed w =
      (ok (train, valid), after_draw n random_seed w) /\
    length valid = (n / 5)%nat /\
    length train = (n - n / 5)%nat.
Proof.
  intro Hn. rewrite (@default_split_run _ n random_seed w Hn).
  eexists _, _. split; [reflexivity|].
  apply cut_lengths, randperm_length.
Qed.

(** ** More about the instances *)

Section InstanceMore.
Context {ext : External}.
Variable feature_row : Type.
Implicit Types (pre : list pyval -> list feature_row).
Implicit Types (d : dataset feature_row) (w : world).

(** The split block of a constructor, inverted down to the draw. *)
Lemma constructed_split k pre df task test es seed w d w' :
  constructed k pre df task test es seed w d w' ->
  (split_active es test = true /\
   exists valid,
     idx_valid d = Some valid /\
     get_data_split (length (X d)) default_split_ratio seed
       (with_read (data_path k df task test) w) =
       (inr (indices d, valid), w')) \/
  (split_active es test = false /\
   indices d = seq 0 (length (X d)) /\ idx_valid d = None /\
   w' = with_read (data_path k df task test) w).
Proof.
  intros (data & col & _ & _ & _ & _ & _ & _ & _ & _ & Hp).
  apply prepare_data_split_inr in Hp.
  destruct Hp as [(Ha & valid & Hs & Hv)|(Ha & Hi & Hv & Hw)].
  - left. split; [exact Ha|]. now exists valid.
  - right. auto.
Qed.

End InstanceMore.

(** X5. An instance built with a validation split holds out exactly
    [len(X) // 5] samples and trains on the rest, whatever [split_ratio]
    the caller passed: [length()] is [len(X) - len(X) // 5]. *)
Theorem X5_validation_share_is_a_fifth {ext : External} (feature_row : Type)
  (k : klass) (pre : list pyval -> list feature_row) (df : string)
  (task : pyval) (test es : bool) (split_ratio : pyfloat) (seed : option Z)
  (w w' : world) (d : dataset feature_row) :
  construct k pre df task test es split_ratio seed w = (inr d, w') ->
  split_active es test = true ->
  Z.of_nat (length (X d)) < 2 ^ 52 ->
  exists valid,
    idx_valid d = Some valid /\
    length valid = (length (X d) / 5)%nat /\
    __len__ d = (length (X d) - length (X d) / 5)%nat.
Proof.
  intros H Ha Hn. apply construct_constructed, constructed_split in H.
  destruct H as [(_ & valid & Hv & Hs)|(Hf & _)]; [|congruence].
  rewrite (@default_split_run _ _ seed _ Hn) in Hs.
  injection Hs as Hi Hval _. exists valid. split; [exact Hv|].
  unfold __len__. rewrite <- Hi, <- Hval.
  apply cut_lengths, randperm_length.
Qed.

(** X6. The training indices and the validation indices of an instance
    built with a split are together a permutation of the rows of the
    feature matrix: every sample is in exactly one of the two. Without a
    split the indices are [0, 1, ..., len(X) - 1], the order of the file. *)
Theorem X6_indices_partition_the_rows {ext : External} (feature_row : Type)
  (k : klass) (pre : list pyval -> list feature_row) (df : string)
  (task : pyval) (test es : bool) (split_ratio : pyfloat) (seed : option Z)
  (w w' : world) (d : dataset feature_row) :
  construct k pre df task test es split_ratio seed w = (inr d, w') ->
  (split_active es test = true ->
   exists valid,
     idx_valid d = Some valid /\
     Permutation (indices d ++ valid) (seq 0 (length (X d))) /\
     NoDup (indices d ++ valid)) /\
  (split_active es test = false ->
   indices d = seq 0 (length (X d)) /\ idx_valid d = None).
Proof.
  intro H. apply construct_constructed, constructed_split in H.
  destruct H as [(Ha & valid & Hv & Hs)|(Ha & Hi & Hv & _)];
    rewrite Ha; split; try discriminate; intros _.
  - apply get_data_split_perm in Hs. exists valid.
    split; [exact Hv|]. split; [exact Hs|].
    apply (Permutation_NoDup (Permutation_sym Hs)), seq_NoDup.
  - now split.
Qed.

(** X7. What a successful construction does to the world: it reads one
    file, the one of its class, partition and task, and nothing else;
    it leaves torch's generator alone unless it makes a validation
    split, and then it advances it by the one draw of [randperm]
    (after reseeding, for a truthy seed). *)
Theorem X7_construction_effects {ext : External} (feature_row : Type)
  (k : klass) (pre : list pyval -> list feature_row) (df : string)
  (task : pyval) (test es : bool) (split_ratio : pyfloat) (seed : option Z)
  (w w' : world) (d : dataset feature_row) :
  construct k pre df task test es split_ratio seed w = (inr d, w') ->
  w' = (if split_active es test
        then after_draw (length (X d)) seed
               (with_read (data_path k df task test) w)
        else with_read (data_path k df task test) w).
Proof.
  intro H. apply construct_constructed, constructed_split in H.
  destruct H as [(Ha & valid & Hv & Hs)|(Ha & Hi & Hv & Hw)]; rewrite Ha.
  - rewrite get_data_split_run in Hs. now injection Hs.
  - exact Hw.
Qed.

(** ** A constructor, run forward *)

(** The vocabulary a class assigns to [self.labels] for a task: the
    [if]/[elif] chains of the constructors. [GermEval21] assigns none. *)
Definition vocab_of (k : klass) (task : pyval) : option (list pyval) :=
  match k with
  | GermEval17 =>
      if py_eq task (PStr "Relevance") then Some GermEval17_Relevance
      else if py_eq task (PStr "Sentiment") then Some GermEval17_Sentiment
      else if py_eq task (PStr "Category") then Some GermEval17_Category
      else None
  | GermEval18 =>
      if py_eq task (PStr "A") then Some OL_coarse
      else if py_eq task (PStr "B") then Some OL_fine
      else None
  | GermEval19 =>
      if py_eq task (PStr "A") then Some OL_coarse
      else if py_eq task (PStr "B") then Some OL_fine
      else if py_eq task (PStr "C") then Some OL_explicit
      else None
  | GermEval21 => None
  | GermEval21vmwe => Some vmwe_labels
  end.

(** The texts handed to the preprocesser. *)
Definition texts_of (k : klass) (data : ndarray) : list pyval :=
  map (fun row => nth (text_col k) row PNaN) (filter (retained k) (rows data)).

(** [GermEval17] overwrites column 4 with the text before the colon. *)
Definition cut_category (row : list pyval) : list pyval :=
  set_field 4 (PStr (before_colon (py_str (nth 4 row PNaN)))) row.

(** The rows the label comprehension runs over. *)
Definition kept_rows (k : klass) (data : ndarray) : list (list pyval) :=
  match k with
  | GermEval17 => map cut_category (filter (retained k) (rows data))
  | _ => filter (retained k) (rows data)
  end.

(** The right-hand side of [self.y = ...]. *)
Definition label_tensor (k : klass) (task : pyval) (nc col : nat)
  (rws : list (list pyval)) : result (list pyval) :=
  match k with
  | GermEval21 =>
      (let? vs := rmap (fun row => cell nc row col) rws in
       torch_tensor vs)%result
  | _ => encode_labels (vocab_of k task) nc col rws
  end.

(** [self.colidx], which [GermEval21vmwe] does not have. *)
Definition colidx_of (k : klass) (col : nat) : option nat :=
  match k with
  | GermEval21vmwe => None
  | _ => Some col
  end.

Lemma py_eq_sym (a b : pyval) : py_eq a b = py_eq b a.
Proof.
  destruct a as [s|x|x|], b as [t|y|y|]; cbn; try reflexivity;
    try apply String.eqb_sym; try apply Z.eqb_sym.
Qed.

Section Forward.
Context {ext : External}.
Variable feature_row : Type.
Implicit Types (pre : list pyval -> list feature_row).
Implicit Types (d : dataset feature_row) (w : world).

(** What is left of a constructor once the labels are encoded. *)
Definition finish (k : klass) pre (task : pyval) (test es : bool)
  (seed : option Z) (data : ndarray) (col : nat) (ys : list pyval)
  : M (dataset feature_row) :=
  bind (prepare_data_split (length (pre (texts_of k data))) es
          (split_name k test) seed)
    (fun iv =>
       ret {| cls := k; colidx := colidx_of k col; labels := vocab_of k task;
              X := pre (texts_of k data); y := ys;
              indices := fst iv; idx_valid := snd iv |}).

Lemma label_col_inr (k : klass) (task : pyval) (col : nat) :
  k <> GermEval21vmwe ->
  label_col k task = inr col ->
  exists i, py_index (tasks_of k) task = inr i /\
            col = (i + match k with
                       | GermEval17 | GermEval21 => 2
                       | _ => 1
                       end)%nat.
Proof.
  intros Hk H. destruct k; try contradiction; cbn [label_col] in H;
    unfold rbind, ok in H;
    destruct (py_index _ task) as [e|i]; try discriminate;
    injection H as <-; now exists i.
Qed.

Lemma OL_task_cases (task : pyval) :
  py_in task OL_tasks = true ->
  py_eq task (PStr "A") = true \/
  (py_eq task (PStr "A") = false /\ py_eq task (PStr "B") = true) \/
  (py_eq task (PStr "A") = false /\ py_eq task (PStr "B") = false /\
   py_eq task (PStr "C") = true).
Proof.
  unfold py_in, OL_tasks. cbn [existsb].
  rewrite !(py_eq_sym _ task).
  destruct (py_eq task (PStr "A")), (py_eq task (PStr "B")),
    (py_eq task (PStr "C")); cbn; intro H; try discriminate; auto.
Qed.

Lemma filter_negb_negb {A} (p : A -> bool) (l : list A) :
  filter (fun a => negb (negb (p a))) l = filter p l.
Proof. apply filter_ext. intro a. apply negb_involutive. Qed.

Ltac col_of Hcol :=
  match type of Hcol with
  | label_col ?k _ = _ =>
      let Hk := fresh in
      assert (Hk : k <> GermEval21vmwe) by discriminate;
      destruct (@label_col_inr k _ _ Hk Hcol) as (i & Hi & ->); clear Hk
  end.

(** A constructor whose task is allowed and whose file was read and has
    the columns looked at: it encodes the labels of the kept rows, makes
    the split and returns. *)
Lemma construct_prefix (k : klass) pre (df : string) (task : pyval)
  (test es : bool) (ratio : pyfloat) (seed : option Z) w
  (data : ndarray) (col : nat) :
  (k <> GermEval21vmwe -> py_in task (tasks_of k) = true) ->
  read_csv (data_path k df task test) (sep_of k) = inr data ->
  label_col k task = inr col ->
  (text_col k < ncols data)%nat ->
  (k = GermEval17 -> (4 < ncols data)%nat) ->
  construct k pre df task test es ratio seed w =
  bind (lift (label_tensor k task (ncols data) col (kept_rows k data)))
    (finish k pre task test es seed data col)
    (with_read (data_path k df task test) w).
Proof.
  intros Hin Hread Hcol Htc H17.
  destruct k; cbn [construct].
  - (* GermEval17 *)
    col_of Hcol.
    specialize (Hin ltac:(discriminate)). specialize (H17 eq_refl).
    cbn [tasks_of text_col] in *.
    unfold GermEval17_init. rewrite Hin, bind_assert_true, Hi, bind_lift_ok.
    cbv beta zeta.
    cbn [data_path split_name sep_of] in Hread.
    erewrite bind_read_ok; [|exact Hread]. cbv beta.
    rewrite (column_ok data (j := 4)) by exact H17.
    rewrite bind_lift_ok. cbv beta.
    unfold set_column.
    replace (4 <? ncols data)%nat with true
      by (symmetry; apply Nat.ltb_lt; exact H17).
    rewrite bind_lift_ok. cbv beta.
    unfold column at 1. cbn [ncols rows].
    replace (1 <? ncols data)%nat with true
      by (symmetry; apply Nat.ltb_lt; exact Htc).
    rewrite bind_lift_ok. cbv beta.
    rewrite map_map.
    rewrite (map_combine_self
               (fun row => PStr (before_colon (py_str (nth 4 row PNaN))))
               (fun row v => set_field 4 v row)).
    fold cut_category.
    change (map (fun a => set_field 4
                   (PStr (before_colon (py_str (nth 4 a PNaN)))) a)
              (rows data))
      with (map cut_category (rows data)).
    rewrite (np_delete_where (fun row => nth 1 row PNaN)
               (fun v => negb (isinstance_str v))).
    rewrite filter_negb_negb.
    assert (Hkept :
              filter (fun row => isinstance_str (nth 1 row PNaN))
                (map cut_category (rows data)) =
              map cut_category (filter (retained GermEval17) (rows data))).
    { rewrite filter_map_swap. f_equal. apply filter_ext. intro row.
      unfold cut_category. now rewrite nth_set_field_below by lia. }
    rewrite Hkept.
    unfold column. cbn [ncols rows].
    replace (1 <? ncols data)%nat with true
      by (symmetry; apply Nat.ltb_lt; exact Htc).
    rewrite bind_lift_ok. cbv beta.
    assert (Htexts :
              map (fun row => nth 1 row PNaN)
                (map cut_category (filter (retained GermEval17) (rows data))) =
              texts_of GermEval17 data).
    { unfold texts_of. rewrite map_map. apply map_ext. intro row.
      unfold cut_category. cbn [text_col].
      now rewrite nth_set_field_below by lia. }
    rewrite Htexts. reflexivity.
  - (* GermEval18 *)
    col_of Hcol.
    specialize (Hin ltac:(discriminate)).
    cbn [tasks_of text_col] in *.
    unfold GermEval18_init. rewrite Hin, bind_assert_true, Hi, bind_lift_ok.
    cbv beta zeta.
    cbn [data_path split_name sep_of] in Hread.
    erewrite bind_read_ok; [|exact Hread]. cbv beta.
    rewrite (column_ok data (j := 0)) by exact Htc.
    rewrite bind_lift_ok. cbv beta.
    unfold finish, label_tensor, kept_rows, texts_of.
    rewrite filter_retained_all by reflexivity.
    reflexivity.
  - (* GermEval19 *)
    col_of Hcol.
    specialize (Hin ltac:(discriminate)).
    cbn [tasks_of text_col] in *.
    unfold GermEval19_init. rewrite Hin, bind_assert_true, Hi, bind_lift_ok.
    cbv beta zeta.
    cbn [data_path split_name sep_of] in Hread.
    unfold finish, label_tensor, kept_rows, texts_of.
    rewrite filter_retained_all by reflexivity.
    cbn [vocab_of data_path split_name].
    destruct (@OL_task_cases task Hin) as [HA|[[HA HB]|(HA & HB & HC)]];
      rewrite ?HA, ?HB, ?HC in *; cbn [fst snd getlocal];
      rewrite bind_lift_ok; cbv beta;
      (erewrite bind_read_ok; [|exact Hread]); cbv beta;
      rewrite (column_ok data (j := 0)) by exact Htc;
      rewrite bind_lift_ok; reflexivity.
  - (* GermEval21 *)
    col_of Hcol.
    specialize (Hin ltac:(discriminate)).
    cbn [tasks_of text_col] in *.
    unfold GermEval21_init. rewrite Hin, bind_assert_true, Hi, bind_lift_ok.
    cbv beta zeta.
    cbn [data_path split_name sep_of] in Hread.
    erewrite bind_read_ok; [|exact Hread]. cbv beta.
    rewrite (column_ok data (j := 1)) by exact Htc.
    rewrite bind_lift_ok. cbv beta.
    unfold finish, label_tensor, kept_rows, texts_of.
    rewrite filter_retained_all by reflexivity.
    reflexivity.
  - (* GermEval21vmwe *)
    cbn [label_col] in Hcol. injection Hcol as <-.
    cbn [text_col] in Htc.
    unfold GermEval21vmwe_init.
    cbn [data_path split_name sep_of] in Hread.
    erewrite bind_read_ok; [|exact Hread]. cbv beta zeta.
    rewrite (column_ok data (j := 2)) by lia. rewrite bind_lift_ok.
    cbv beta. unfold getattr, rbind, ok. rewrite bind_lift_ok. cbv beta.
    rewrite (np_delete_where (fun row => nth 2 row PNaN)
               (fun v => negb (py_in v vmwe_labels))).
    rewrite filter_negb_negb.
    unfold column. cbn [ncols rows].
    replace (3 <? ncols data)%nat with true
      by (symmetry; apply Nat.ltb_lt; lia).
    rewrite bind_lift_ok. reflexivity.
Qed.

End Forward.

(** ** Labels of the kept rows *)

(** A kept row as the label comprehension sees it. *)
Definition kept_of (k : klass) (row : list pyval) : list pyval :=
  match k with
  | GermEval17 => cut_category row
  | _ => row
  end.

(** The columns an adapter looks at are there. *)
Definition columns_present (k : klass) (col : nat) (data : ndarray) : Prop :=
  (col < ncols data)%nat /\
  (text_col k < ncols data)%nat /\
  (k = GermEval17 -> (4 < ncols data)%nat).

(** Every kept row has a label the adapter can encode: one of the
    vocabulary where the class has one (no row at all where the task has
    none), anything but a string for [GermEval21]. *)
Definition labels_encodable (k : klass) (task : pyval) (col : nat)
  (data : ndarray) : Prop :=
  match k with
  | GermEval21 =>
      Forall (fun row => isinstance_str (nth col row PNaN) = false)
        (rows data)
  | _ =>
      match vocab_of k task with
      | Some vocab =>
          Forall (fun row => py_in (label_of k col row) vocab = true)
            (filter (retained k) (rows data))
      | None => filter (retained k) (rows data) = []
      end
  end.

Lemma kept_rows_map (k : klass) (data : ndarray) :
  kept_rows k data = map (kept_of k) (filter (retained k) (rows data)).
Proof.
  destruct k; cbn [kept_rows]; try reflexivity; symmetry;
    exact (map_id _).
Qed.

Lemma label_col_17_bound (task : pyval) (col : nat) :
  label_col GermEval17 task = inr col -> (col <= 4)%nat.
Proof.
  intro H. assert (Hk : GermEval17 <> GermEval21vmwe) by discriminate.
  destruct (@label_col_inr GermEval17 _ _ Hk H) as (i & Hi & ->).
  apply py_index_bound in Hi. cbn in Hi. lia.
Qed.

Lemma nth_kept (k : klass) (task : pyval) (col : nat) (row : list pyval) :
  label_col k task = inr col ->
  nth col (kept_of k row) PNaN = label_of k col row.
Proof.
  intro H. destruct k; try reflexivity. cbn [kept_of label_of].
  apply label_col_17_bound in H. unfold cut_category.
  destruct (col =? 4)%nat eqn:E.
  - apply Nat.eqb_eq in E. subst col. apply nth_set_field_same.
  - apply Nat.eqb_neq in E. apply nth_set_field_below. lia.
Qed.

Lemma Exists_filter_and {A} (p : A -> bool) (Q : A -> Prop) (l : list A) :
  Exists (fun a => p a = true /\ Q a) l -> Exists Q (filter p l).
Proof.
  intro H. apply Exists_exists in H. destruct H as (a & Hin & Hp & HQ).
  apply Exists_exists. exists a. split; [|exact HQ].
  apply filter_In. now split.
Qed.

Lemma Forall2_Forall_r {A B} (R : A -> B -> Prop) (Q : B -> Prop)
  (l : list A) (l' : list B) :
  (forall a b, R a b -> Q b) -> Forall2 R l l' -> Forall Q l'.
Proof. intros HRQ H. induction H; constructor; eauto. Qed.

Lemma rmap_cell_ok (nc col : nat) (rws : list (list pyval)) :
  (col < nc)%nat ->
  rmap (fun row => cell nc row col) rws =
  inr (map (fun row => nth col row PNaN) rws).
Proof.
  intro Hc. apply Nat.ltb_lt in Hc.
  induction rws as [|row rws IH]; [reflexivity|].
  cbn [rmap map]. unfold cell at 1. rewrite Hc, IH. reflexivity.
Qed.

Lemma torch_tensor_ok (vs : list pyval) :
  Forall (fun v => isinstance_str v = false) vs -> torch_tensor vs = inr vs.
Proof.
  unfold torch_tensor. induction 1 as [|v vs Hv _ IH]; [reflexivity|].
  cbn [rmap]. now rewrite Hv, IH.
Qed.

Lemma label_tensor_length (k : klass) (task : pyval) (nc col : nat)
  (rws : list (list pyval)) (ys : list pyval) :
  label_tensor k task nc col rws = inr ys -> length ys = length rws.
Proof.
  destruct k; cbn [label_tensor]; unfold encode_labels;
    try apply rmap_length.
  unfold rbind. destruct (rmap _ rws) as [e|vs] eqn:Hvs; [discriminate|].
  intro H. apply torch_tensor_inr in H. destruct H as [-> _].
  now apply rmap_length in Hvs.
Qed.

(** The labels of the kept rows are encoded when each is encodable. *)
Lemma label_tensor_ok (k : klass) (task : pyval) (col : nat)
  (data : ndarray) :
  label_col k task = inr col ->
  (col < ncols data)%nat ->
  labels_encodable k task col data ->
  exists ys, label_tensor k task (ncols data) col (kept_rows k data) = inr ys.
Proof.
  intros Hcol Hc Henc.
  assert (Hvoc : k <> GermEval21 ->
                 match vocab_of k task with
                 | Some vocab =>
                     Forall (fun row => py_in (label_of k col row) vocab = true)
                       (filter (retained k) (rows data))
                 | None => filter (retained k) (rows data) = []
                 end ->
                 exists ys,
                   encode_labels (vocab_of k task) (ncols data) col
                     (kept_rows k data) = inr ys).
  { intros _ H. rewrite kept_rows_map.
    destruct (vocab_of k task) as [vocab|].
    - apply encode_labels_ok; [exact Hc|].
      apply Forall_map. eapply Forall_impl; [|exact H]. cbv beta.
      intros row Hrow. now rewrite (@nth_kept k task col row Hcol).
    - rewrite H. now exists []. }
  destruct k; cbn [label_tensor labels_encodable] in *;
    try (apply Hvoc; [discriminate|exact Henc]).
  unfold kept_rows. rewrite filter_retained_all by reflexivity.
  rewrite (@rmap_cell_ok _ _ (rows data) Hc). unfold rbind.
  rewrite torch_tensor_ok; [now eexists|].
  apply Forall_map. exact Henc.
Qed.

(** ** Results that do not depend on the world *)

Section Respect.
Context {ext : External}.

(** Two worlds agree, as far as a computation can tell, when their
    generators are in the same state; the condition [c] says whether the
    generator matters at all. *)
Definition agree (c : Prop) (w1 w2 : world) : Prop :=
  c -> w_rng w1 = w_rng w2.

(** [m] returns the same in worlds that agree, and leaves them agreeing. *)
Definition respects {A} (c : Prop) (m : M A) : Prop :=
  forall w1 w2, agree c w1 w2 ->
    fst (m w1) = fst (m w2) /\ agree c (snd (m w1)) (snd (m w2)).

Lemma respects_bind {A B} (c : Prop) (m : M A) (k : A -> M B) :
  respects c m -> (forall a, respects c (k a)) -> respects c (bind m k).
Proof.
  intros Hm Hk w1 w2 Hw. unfold bind.
  destruct (Hm w1 w2 Hw) as [Hr Hw'].
  destruct (m w1) as [[e1|a1] w1'], (m w2) as [[e2|a2] w2'];
    cbn [fst snd] in *; try discriminate.
  - injection Hr as ->. now split.
  - injection Hr as ->. now apply Hk.
Qed.

Lemma respects_lift {A} (c : Prop) (r : result A) : respects c (lift r).
Proof. intros w1 w2 Hw. now split. Qed.

Lemma respects_ret {A} (c : Prop) (a : A) : respects c (ret a).
Proof. intros w1 w2 Hw. now split. Qed.

Lemma respects_assert (c : Prop) (b : bool) : respects c (py_assert b).
Proof. destruct b; intros w1 w2 Hw; now split. Qed.

Lemma respects_read (c : Prop) (path sep : string) :
  respects c (pd_read_csv_values path sep).
Proof. intros w1 w2 Hw. now split. Qed.

Lemma respects_prepare (n : nat) (es : bool) (k : klass) (test : bool)
  (seed : option Z) :
  respects (split_active es test = true /\ seed_truthy seed = None)
    (prepare_data_split n es (split_name k test) seed).
Proof.
  unfold prepare_data_split. rewrite split_name_train.
  fold (split_active es test).
  destruct (split_active es test); [|apply respects_ret].
  apply respects_bind; [|intro; apply respects_ret].
  intros w1 w2 Hw. rewrite !get_data_split_run. cbn [fst snd].
  assert (Hs : seeded_rng seed w1 = seeded_rng seed w2).
  { unfold seeded_rng. destruct (seed_truthy seed); [reflexivity|].
    apply Hw. now split. }
  unfold after_draw, agree. cbn [w_rng]. rewrite Hs. now split.
Qed.

End Respect.

Section ForwardMore.
Context {ext : External}.
Variable feature_row : Type.
Implicit Types (pre : list pyval -> list feature_row).
Implicit Types (d : dataset feature_row) (w : world).

Lemma bind_read_err {B} (path sep : string) (e : pyerr)
  (k : ndarray -> M B) w :
  read_csv path sep = inl e ->
  bind (pd_read_csv_values path sep) k w = (inl e, with_read path w).
Proof.
  intro H. unfold bind, pd_read_csv_values, with_read. now rewrite H.
Qed.

(** The vocabulary an instance holds is the one of its class and task. *)
Lemma construct_labels k pre df task test es ratio seed w d w' :
  construct k pre df task test es ratio seed w = (inr d, w') ->
  labels d = vocab_of k task.
Proof.
  destruct k; cbn [construct];
    unfold GermEval17_init, GermEval18_init, GermEval19_init,
      GermEval21_init, GermEval21vmwe_init;
    intro H;
    repeat (apply bind_inr in H; destruct H as (? & ? & _ & H));
    apply ret_inr in H; destruct H as [<- _]; cbn [labels vocab_of];
    try reflexivity.
  destruct (py_eq task (PStr "A")); [reflexivity|].
  destruct (py_eq task (PStr "B")); [reflexivity|].
  destruct (py_eq task (PStr "C")); reflexivity.
Qed.

Lemma construct_respects k pre df task test es ratio seed :
  respects (split_active es test = true /\ seed_truthy seed = None)
    (construct k pre df task test es ratio seed).
Proof.
  destruct k; cbn [construct];
    unfold GermEval17_init, GermEval18_init, GermEval19_init,
      GermEval21_init, GermEval21vmwe_init;
    repeat (cbv beta zeta;
            first [ apply respects_bind; [|intro]
                  | apply respects_assert
                  | apply respects_lift
                  | apply respects_read
                  | apply respects_ret ]).
  - apply (respects_prepare _ es GermEval17 test seed).
  - apply (respects_prepare _ es GermEval18 test seed).
  - apply (respects_prepare _ es GermEval19 test seed).
  - apply (respects_prepare _ es GermEval21 test seed).
  - apply (respects_prepare _ es GermEval21vmwe test seed).
Qed.

End ForwardMore.

(** ** More about the constructors *)

(** X8. [GermEval17], [GermEval18] and [GermEval19] do not skip a row
    whose label they do not know: when the file holds a row they keep
    whose label is outside the vocabulary of the task, construction fails
    with the [ValueError] of [list.index]. The file has been read by
    then, and the generator has not been touched. *)
Theorem X8_unknown_label_raises {ext : External} (feature_row : Type)
  (k : klass) (pre : list pyval -> list feature_row) (df : string)
  (task : pyval) (test es : bool) (split_ratio : pyfloat) (seed : option Z)
  (w : world) (data : ndarray) (col : nat) (vocab : list pyval) :
  k = GermEval17 \/ k = GermEval18 \/ k = GermEval19 ->
  py_in task (tasks_of k) = true ->
  read_csv (data_path k df task test) (sep_of k) = inr data ->
  label_col k task = inr col ->
  columns_present k col data ->
  vocab_of k task = Some vocab ->
  Exists (fun row => retained k row = true /\
                     py_in (label_of k col row) vocab = false) (rows data) ->
  construct k pre df task test es split_ratio seed w =
  (inl ValueError, with_read (data_path k df task test) w).
Proof.
  intros Hk Hin Hread Hcol (Hc & Htc & H17) Hvocab HEx.
  rewrite (@construct_prefix _ _ k pre df task test es split_ratio seed w
             data col (fun _ => Hin) Hread Hcol Htc H17).
  assert (Hlt : label_tensor k task (ncols data) col (kept_rows k data) =
                inl ValueError).
  { replace (label_tensor k task (ncols data) col (kept_rows k data))
      with (encode_labels (vocab_of k task) (ncols data) col
              (kept_rows k data))
      by (destruct Hk as [->|[->| ->]]; reflexivity).
    rewrite Hvocab, kept_rows_map.
    apply encode_labels_unknown; [exact Hc|].
    apply Exists_map. apply Exists_filter_and.
    eapply Exists_impl; [|exact HEx]. cbv beta.
    intros row [Hret Hlab]. split; [exact Hret|].
    now rewrite (@nth_kept k task col row Hcol). }
  rewrite Hlt. apply bind_lift_err.
Qed.

(** X9. Construction succeeds whenever the task is allowed, the file is
    read and has the columns the adapter looks at, every kept row has a
    label the adapter can encode, and the preprocesser returns one row
    per text. The instance holds the vocabulary of its class and task,
    one feature row and one label per kept row. *)
Theorem X9_construction_succeeds {ext : External} (feature_row : Type)
  (k : klass) (pre : list pyval -> list feature_row) (df : string)
  (task : pyval) (test es : bool) (split_ratio : pyfloat) (seed : option Z)
  (w : world) (data : ndarray) (col : nat) :
  row_per_text pre ->
  (k <> GermEval21vmwe -> py_in task (tasks_of k) = true) ->
  read_csv (data_path k df task test) (sep_of k) = inr data ->
  label_col k task = inr col ->
  columns_present k col data ->
  labels_encodable k task col data ->
  Z.of_nat (length (rows data)) < 2 ^ 1023 ->
  exists d w',
    construct k pre df task test es split_ratio seed w = (inr d, w') /\
    cls d = k /\
    labels d = vocab_of k task /\
    X d = pre (texts_of k data) /\
    length (X d) = length (filter (retained k) (rows data)) /\
    length (y d) = length (X d).
Proof.
  intros Hpre Hin Hread Hcol (Hc & Htc & H17) Henc Hsize.
  rewrite (@construct_prefix _ _ k pre df task test es split_ratio seed w
             data col Hin Hread Hcol Htc H17).
  destruct (@label_tensor_ok k task col data Hcol Hc Henc) as [ys Hys].
  rewrite Hys, bind_lift_ok. unfold finish.
  assert (HlenX : length (pre (texts_of k data)) =
                  length (filter (retained k) (rows data))).
  { unfold texts_of. now rewrite Hpre, length_map. }
  destruct (@prepare_data_split_ok _ (length (pre (texts_of k data))) es
              (split_name k test) seed
              (with_read (data_path k df task test) w))
    as (r & w' & Hr).
  { rewrite HlenX.
    pose proof (filter_length_le (retained k) (rows data)). lia. }
  erewrite bind_step; [|exact Hr].
  eexists _, _. split; [reflexivity|]. cbn [cls labels X y].
  repeat split; [exact HlenX|].
  rewrite (@label_tensor_length _ _ _ _ _ _ Hys), HlenX, kept_rows_map.
  apply length_map.
Qed.

(** X10. [num_classes()] of an instance is the size of the vocabulary of
    its class and task, the constant 2 for [GermEval21] and
    [GermEval21vmwe], and fails with an [AttributeError] where no
    vocabulary was assigned. In every class with a vocabulary each label
    of the instance is an integer from 0 up to, not including,
    [num_classes()]. *)
Theorem X10_labels_below_num_classes {ext : External} (feature_row : Type)
  (k : klass) (pre : list pyval -> list feature_row) (df : string)
  (task : pyval) (test es : bool) (split_ratio : pyfloat) (seed : option Z)
  (w w' : world) (d : dataset feature_row) :
  construct k pre df task test es split_ratio seed w = (inr d, w') ->
  num_classes d =
    match k with
    | GermEval21 | GermEval21vmwe => ok 2%nat
    | _ => match vocab_of k task with
           | Some vocab => ok (length vocab)
           | None => throw AttributeError
           end
    end /\
  (k <> GermEval21 ->
   Forall (fun lab => exists j n,
                        lab = PInt (Z.of_nat j) /\
                        num_classes d = ok n /\ (j < n)%nat) (y d)).
Proof.
  intro H. pose proof H as Hlab. apply construct_labels in Hlab.
  apply construct_constructed in H.
  destruct H as (data & col & _ & _ & Hcls & _ & _ & _ & _ & Hy & _).
  assert (Hnum : num_classes d =
                 match k with
                 | GermEval21 | GermEval21vmwe => ok 2%nat
                 | _ => match vocab_of k task with
                        | Some vocab => ok (length vocab)
                        | None => throw AttributeError
                        end
                 end).
  { unfold num_classes. rewrite Hcls, Hlab.
    destruct k; try reflexivity; now destruct (vocab_of _ task). }
  split; [exact Hnum|]. intro Hk.
  eapply Forall2_Forall_r; [|exact Hy].
  cbv beta. intros row lab Henc. rewrite Hnum.
  destruct k; try contradiction; cbn [encodes] in Henc;
    destruct Henc as (vocab & j & Hl & Hj & ->);
    rewrite Hlab in Hl; rewrite ?Hl;
    apply py_index_bound in Hj;
    exists j, (length vocab); repeat split; try exact Hj.
  cbn [vocab_of] in Hl. injection Hl as <-. reflexivity.
Qed.

(** X11. What construction returns (the instance, or the error) does not
    depend on the files read before, and depends on the state of torch's
    generator only when a validation split is made with a falsy seed
    ([None] or 0): in two worlds that then have the generator in the same
    state, and in any two worlds otherwise, the result is the same. *)
Theorem X11_construction_reproducible {ext : External} (feature_row : Type)
  (k : klass) (pre : list pyval -> list feature_row) (df : string)
  (task : pyval) (test es : bool) (split_ratio : pyfloat) (seed : option Z)
  (w1 w2 : world) :
  (split_active es test = true -> seed_truthy seed = None ->
   w_rng w1 = w_rng w2) ->
  fst (construct k pre df task test es split_ratio seed w1) =
  fst (construct k pre df task test es split_ratio seed w2).
Proof.
  intro Hw.
  apply (construct_respects k pre df task test es split_ratio seed).
  intros [Ha Hs]. now apply Hw.
Qed.

(** X12. Without a validation split an instance iterates the kept rows in
    the order of the file: [get(i)] is the [i]-th feature row and the
    [i]-th label, for every [i] from 0 to [len(X) - 1], and [length()] is
    [len(X)]. *)
Theorem X12_getitem_in_file_order {ext : External} (feature_row : Type)
  (k : klass) (pre : list pyval -> list feature_row) (df : string)
  (task : pyval) (test es : bool) (split_ratio : pyfloat) (seed : option Z)
  (w w' : world) (d : dataset feature_row) (i : nat) :
  row_per_text pre ->
  construct k pre df task test es split_ratio seed w = (inr d, w') ->
  split_active es test = false ->
  (i < length (X d))%nat ->
  __len__ d = length (X d) /\
  exists x l,
    nth_error (X d) i = Some x /\
    nth_error (y d) i = Some l /\
    __getitem__ d (Z.of_nat i) = ok (x, l).
Proof.
  intros Hpre H Ha Hi. apply construct_constructed in H.
  pose proof (constructed_aligned Hpre H) as Hal.
  apply constructed_split in H.
  destruct H as [(Ht & _)|(_ & Hind & _)]; [congruence|].
  unfold __len__, __getitem__, py_getitem. rewrite Hind, length_seq.
  split; [reflexivity|].
  destruct (nth_error (X d) i) as [x|] eqn:Hx;
    [|apply nth_error_None in Hx; lia].
  destruct (nth_error (y d) i) as [l|] eqn:Hl;
    [|apply nth_error_None in Hl; lia].
  exists x, l. split; [reflexivity|]. split; [reflexivity|].
  assert (Hneg : (Z.of_nat i <? 0) = false) by (apply Z.ltb_ge; lia).
  cbv zeta. rewrite !Hneg, Nat2Z.id.
  assert (Hn : nth_error (seq 0 (length (X d))) i = Some i).
  { rewrite (nth_error_nth' _ 0%nat) by (rewrite length_seq; exact Hi).
    now rewrite seq_nth. }
  rewrite Hn. unfold rbind, ok, row_at. now rewrite Hx, Hl.
Qed.

(** X13. [GermEval17] hands the preprocesser strings only: the texts of
    an instance are the second fields of the rows of the file whose
    second field is a string, in file order; the rows with a missing
    text are dropped, and no other. *)
Theorem X13_GermEval17_texts_are_strings {ext : External}
  (feature_row : Type) (pre : list pyval -> list feature_row) (df : string)
  (task : pyval) (test es : bool) (split_ratio : pyfloat) (seed : option Z)
  (w w' : world) (d : dataset feature_row) :
  construct GermEval17 pre df task test es split_ratio seed w = (inr d, w') ->
  exists data,
    read_csv (data_path GermEval17 df task test) tab = inr data /\
    X d = pre (texts_of GermEval17 data) /\
    texts_of GermEval17 data =
      filter isinstance_str (map (fun row => nth 1 row PNaN) (rows data)) /\
    Forall (fun t => exists s, t = PStr s) (texts_of GermEval17 data).
Proof.
  intro H. apply construct_constructed in H.
  destruct H as (data & col & Hread & _ & _ & _ & _ & _ & HX & _ & _).
  exists data. split; [exact Hread|]. split; [exact HX|].
  assert (Heq : texts_of GermEval17 data =
                filter isinstance_str
                  (map (fun row => nth 1 row PNaN) (rows data))).
  { unfold texts_of. now rewrite filter_map_swap. }
  split; [exact Heq|]. rewrite Heq.
  apply Forall_forall. intros t Ht. apply filter_In in Ht.
  destruct Ht as [_ Ht]. destruct t; try discriminate. now eexists.
Qed.

(** X14. [GermEval18], [GermEval19] and [GermEval21] drop no row: an
    instance has one feature row and one label for every row of the
    file, a row with a missing text included. *)
Theorem X14_no_row_dropped {ext : External} (feature_row : Type)
  (k : klass) (pre : list pyval -> list feature_row) (df : string)
  (task : pyval) (test es : bool) (split_ratio : pyfloat) (seed : option Z)
  (w w' : world) (d : dataset feature_row) :
  k = GermEval18 \/ k = GermEval19 \/ k = GermEval21 ->
  row_per_text pre ->
  construct k pre df task test es split_ratio seed w = (inr d, w') ->
  exists data,
    read_csv (data_path k df task test) (sep_of k) = inr data /\
    X d = pre (map (fun row => nth (text_col k) row PNaN) (rows data)) /\
    length (X d) = length (rows data) /\
    length (y d) = length (rows data).
Proof.
  intros Hk Hpre H. apply construct_constructed in H.
  pose proof (constructed_aligned Hpre H) as Hal.
  destruct H as (data & col & Hread & _ & _ & _ & _ & _ & HX & _ & _).
  rewrite filter_retained_all in HX
    by (destruct Hk as [->|[->| ->]]; reflexivity).
  exists data. split; [exact Hread|]. split; [exact HX|].
  assert (Hlen : length (X d) = length (rows data))
    by (now rewrite HX, Hpre, length_map).
  split; [exact Hlen|]. now rewrite Hal.
Qed.

(** X15. When the file cannot be read, the error of the reader is the
    error of the constructor, unchanged. Nothing else has happened: the
    task had been checked, the generator is untouched. *)
Theorem X15_read_error_is_passed_on {ext : External} (feature_row : Type)
  (k : klass) (pre : list pyval -> list feature_row) (df : string)
  (task : pyval) (test es : bool) (split_ratio : pyfloat) (seed : option Z)
  (w : world) (e : pyerr) :
  (k <> GermEval21vmwe -> py_in task (tasks_of k) = true) ->
  read_csv (data_path k df task test) (sep_of k) = inl e ->
  construct k pre df task test es split_ratio seed w =
  (inl e, with_read (data_path k df task test) w).
Proof.
  intros Hin Hread.
  destruct k; cbn [construct];
    unfold GermEval17_init, GermEval18_init, GermEval19_init,
      GermEval21_init, GermEval21vmwe_init;
    try (specialize (Hin ltac:(discriminate)); cbn [tasks_of] in Hin;
         destruct (py_index_in _ _ Hin) as [i Hi];
         rewrite Hin, bind_assert_true, Hi, bind_lift_ok);
    cbv beta zeta.
  - now apply bind_read_err.
  - now apply bind_read_err.
  - cbn [data_path] in Hread |- *.
    destruct (@OL_task_cases task Hin) as [HA|[[HA HB]|(HA & HB & HC)]];
      rewrite ?HA, ?HB, ?HC in *; cbn [fst snd getlocal];
      rewrite bind_lift_ok; now apply bind_read_err.
  - now apply bind_read_err.
  - now apply bind_read_err.
Qed.

Lemma Forall2_map_eq {A B} (f : A -> B) (Q : B -> Prop) (l : list A)
  (l' : list B) :
  Forall2 (fun a b => b = f a /\ Q b) l l' -> l' = map f l /\ Forall Q l'.
Proof.
  induction 1 as [|a b l l' [-> Hq] _ [-> IH]]; cbn.
  - split; [reflexivity|constructor].
  - split; [reflexivity|]. now constructor.
Qed.

(** X16. [GermEval21] has no vocabulary: the labels of an instance are
    the fields of the task's column as they stand in the file, one per
    row, none of them a string. Nothing ties them to [num_classes()],
    which is the constant 2. *)
Theorem X16_GermEval21_labels_are_raw {ext : External} (feature_row : Type)
  (pre : list pyval -> list feature_row) (df : string)
  (task : pyval) (test es : bool) (split_ratio : pyfloat) (seed : option Z)
  (w w' : world) (d : dataset feature_row) :
  construct GermEval21 pre df task test es split_ratio seed w = (inr d, w') ->
  exists data col,
    read_csv (data_path GermEval21 df task test) "," = inr data /\
    label_col GermEval21 task = inr col /\
    y d = map (fun row => nth col row PNaN) (rows data) /\
    Forall (fun lab => isinstance_str lab = false) (y d) /\
    labels d = None /\
    num_classes d = ok 2%nat.
Proof.
  intro H. apply construct_constructed in H.
  destruct H as (data & col & Hread & _ & Hcls & _ & Hcol & Hlab & _ & Hy & _).
  exists data, col. split; [exact Hread|]. split; [exact Hcol|].
  rewrite filter_retained_all in Hy by reflexivity.
  cbn [encodes] in Hy. apply Forall2_map_eq in Hy. destruct Hy as [Hy HQ].
  split; [exact Hy|]. split; [exact HQ|]. split; [now apply Hlab|].
  unfold num_classes. now rewrite Hcls.
Qed.

(** The first column a constructor takes from the array. *)
Definition first_column (k : klass) : nat :=
  match k with
  | GermEval17 => 4
  | GermEval21vmwe => 2
  | _ => text_col k
  end.

Lemma column_missing (data : ndarray) (j : nat) :
  (ncols data <= j)%nat -> column data j = inl IndexError.
Proof.
  intro H. unfold column. apply Nat.ltb_ge in H. now rewrite H.
Qed.

(** X17. A file that lacks the first column the adapter takes from it
    (column 4 for [GermEval17], column 2 for [GermEval21vmwe], the text
    column for the others) makes construction fail with an [IndexError],
    after the read and before anything else. *)
Theorem X17_missing_column_raises {ext : External} (feature_row : Type)
  (k : klass) (pre : list pyval -> list feature_row) (df : string)
  (task : pyval) (test es : bool) (split_ratio : pyfloat) (seed : option Z)
  (w : world) (data : ndarray) :
  (k <> GermEval21vmwe -> py_in task (tasks_of k) = true) ->
  read_csv (data_path k df task test) (sep_of k) = inr data ->
  (ncols data <= first_column k)%nat ->
  construct k pre df task test es split_ratio seed w =
  (inl IndexError, with_read (data_path k df task test) w).
Proof.
  intros Hin Hread Hnc.
  destruct k; cbn [construct first_column text_col] in *;
    unfold GermEval17_init, GermEval18_init, GermEval19_init,
      GermEval21_init, GermEval21vmwe_init;
    try (specialize (Hin ltac:(discriminate)); cbn [tasks_of] in Hin;
         destruct (py_index_in _ _ Hin) as [i Hi];
         rewrite Hin, bind_assert_true, Hi, bind_lift_ok);
    cbv beta zeta.
  - erewrite bind_read_ok; [|exact Hread]. cbv beta.
    rewrite (column_missing data Hnc). apply bind_lift_err.
  - erewrite bind_read_ok; [|exact Hread]. cbv beta.
    rewrite (column_missing data Hnc). apply bind_lift_err.
  - cbn [data_path] in Hread |- *.
    destruct (@OL_task_cases task Hin) as [HA|[[HA HB]|(HA & HB & HC)]];
      rewrite ?HA, ?HB, ?HC in *; cbn [fst snd getlocal];
      rewrite bind_lift_ok; cbv beta;
      (erewrite bind_read_ok; [|exact Hread]); cbv beta;
      rewrite (column_missing data Hnc); apply bind_lift_err.
  - erewrite bind_read_ok; [|exact Hread]. cbv beta.
    rewrite (column_missing data Hnc). apply bind_lift_err.
  - erewrite bind_read_ok; [|exact Hread]. cbv beta.
    rewrite (column_missing data Hnc). apply bind_lift_err.
Qed.

(** ** A second environment

    The files of [Demo] and two more: a [GermEval21] corpus, and a
    [GermEval17] file that lacks the category column. *)

Module DemoMore.

(** [datasets/germeval21/train.csv]: the text of the third comment is
    missing. *)
Definition germeval21_train : ndarray :=
  {| ncols := 5;
     rows :=
       [ [PInt 1; PStr "Danke fuer den Beitrag"; PInt 0; PInt 1; PInt 0];
         [PInt 2; PStr "So ein Unsinn"; PInt 1; PInt 0; PInt 1];
         [PInt 3; PNaN; PInt 0; PInt 0; PInt 1] ] |}.

(** [narrow/germeval17/train.tsv]: four columns, none for the category. *)
Definition germeval17_four_columns : ndarray :=
  {| ncols := 4;
     rows :=
       [ [PStr "u0"; PStr "Der Zug war voll"; PBool true; PStr "negative"];
         [PStr "u1"; PStr "Danke"; PBool false; PStr "neutral"] ] |}.

Definition files : list (string * ndarray) :=
  Demo.files ++
  [ ("datasets/germeval21/train.csv", germeval21_train);
    ("narrow/germeval17/train.tsv", germeval17_four_columns) ].

Definition ext : External := {|
  rng_state := Z;
  manual_seed := Demo.lcg_manual_seed;
  randperm := Demo.lcg_randperm;
  randperm_perm := Demo.lcg_randperm_perm;
  read_csv := fun path _ => Demo.lookup_file path files
|}.

Definition w0 : @world ext := @Build_world ext 0 [].

End DemoMore.

(** ** The further theorems at concrete inputs *)

(** A ratio of [-0.5]: [int(10 * -0.5)] is [-5], and [idx[:-5]] holds
    the first five indices. *)
Lemma X1_witness :
  exists train valid w',
    get_data_split 10 (S754_finite true 4503599627370496 (-53)) (Some 42)
      Demo.w0 = (ok (train, valid), w') /\
    ((exists k,
        train = slice_from
                  (fst (randperm (seeded_rng (Some 42) Demo.w0) 10)) k /\
        valid = slice_to
                  (fst (randperm (seeded_rng (Some 42) Demo.w0) 10)) k) /\
     Permutation (train ++ valid) (seq 0 10) /\
     NoDup (train ++ valid) /\
     (length train + length valid = 10)%nat /\
     w' = after_draw 10 (Some 42) Demo.w0) /\
    length valid = 5%nat.
Proof.
  eexists _, _, _. split; [run_eq|]. split; [|reflexivity].
  eapply (@X1_split_partitions_for_any_ratio Demo.ext 10%nat
            (S754_finite true 4503599627370496 (-53)) (Some 42) Demo.w0).
  run_eq.
Defined.

Lemma X2_witness :
  get_data_split 10 S754_nan (Some 42) Demo.w0 =
  (throw ValueError, after_draw 10 (Some 42) Demo.w0).
Proof.
  apply (@X2_split_nan_ratio Demo.ext 10%nat (Some 42) Demo.w0).
  vm_compute. reflexivity.
Defined.

Lemma X3_witness :
  get_data_split 10 (S754_infinity false) (Some 42) Demo.w0 =
  (throw (if (10 =? 0)%nat then ValueError else OverflowError),
   after_draw 10 (Some 42) Demo.w0).
Proof.
  apply (@X3_split_infinite_ratio Demo.ext 10%nat false (Some 42) Demo.w0).
  vm_compute. reflexivity.
Defined.

Lemma X4_witness :
  exists train valid,
    get_data_split 10 default_split_ratio (Some 42) Demo.w0 =
      (ok (train, valid), after_draw 10 (Some 42) Demo.w0) /\
    length valid = (10 / 5)%nat /\
    length train = (10 - 10 / 5)%nat.
Proof.
  apply (@X4_default_split_is_a_fifth Demo.ext 10%nat (Some 42) Demo.w0).
  vm_compute. reflexivity.
Defined.

Lemma X5_witness :
  exists d w',
    construct GermEval17 Demo.preprocesser "datasets" (PStr "Relevance")
      false true float_0_5 (Some 42) Demo.w0 = (inr d, w') /\
    exists valid,
      idx_valid d = Some valid /\
      length valid = (length (X d) / 5)%nat /\
      __len__ d = (length (X d) - length (X d) / 5)%nat.
Proof.
  run_concrete.
  eapply (@X5_validation_share_is_a_fifth Demo.ext _ GermEval17
            Demo.preprocesser "datasets" (PStr "Relevance") false true
            float_0_5 (Some 42) Demo.w0).
  - run_eq.
  - reflexivity.
  - vm_compute. reflexivity.
Defined.

Lemma X6_witness :
  exists d w',
    construct GermEval17 Demo.preprocesser "datasets" (PStr "Relevance")
      false true float_0_5 (Some 42) Demo.w0 = (inr d, w') /\
    (split_active true false = true ->
     exists valid,
       idx_valid d = Some valid /\
       Permutation (indices d ++ valid) (seq 0 (length (X d))) /\
       NoDup (indices d ++ valid)) /\
    (split_active true false = false ->
     indices d = seq 0 (length (X d)) /\ idx_valid d = None).
Proof.
  run_concrete.
  eapply (@X6_indices_partition_the_rows Demo.ext _ GermEval17
            Demo.preprocesser "datasets" (PStr "Relevance") false true
            float_0_5 (Some 42) Demo.w0).
  run_eq.
Defined.

Lemma X7_witness :
  exists d w',
    construct GermEval17 Demo.preprocesser "datasets" (PStr "Relevance")
      false true float_0_5 (Some 42) Demo.w0 = (inr d, w') /\
    w' = (if split_active true false
          then after_draw (length (X d)) (Some 42)
                 (with_read
                    (data_path GermEval17 "datasets" (PStr "Relevance") false)
                    Demo.w0)
          else with_read
                 (data_path GermEval17 "datasets" (PStr "Relevance") false)
                 Demo.w0).
Proof.
  run_concrete.
  eapply (@X7_construction_effects Demo.ext _ GermEval17
            Demo.preprocesser "datasets" (PStr "Relevance") false true
            float_0_5 (Some 42) Demo.w0).
  run_eq.
Defined.

Lemma X8_witness :
  construct GermEval18 Demo.preprocesser "broken" (PStr "A") false false
    float_0_2 (Some 42) Demo.w0 =
  (inl ValueError,
   with_read (data_path GermEval18 "broken" (PStr "A") false) Demo.w0).
Proof.
  eapply (@X8_unknown_label_raises Demo.ext _ GermEval18 Demo.preprocesser
            "broken" (PStr "A") false false float_0_2 (Some 42) Demo.w0
            Demo.germeval18_unknown_label 1%nat OL_coarse).
  - right. left. reflexivity.
  - reflexivity.
  - reflexivity.
  - reflexivity.
  - repeat split; cbn; try lia; discriminate.
  - reflexivity.
  - apply Exists_cons_tl, Exists_cons_hd. split; reflexivity.
Defined.

Lemma X9_witness :
  exists d w',
    construct GermEval17 Demo.preprocesser "datasets" (PStr "Category")
      false false float_0_2 (Some 42) Demo.w0 = (inr d, w') /\
    cls d = GermEval17 /\
    labels d = vocab_of GermEval17 (PStr "Category") /\
    X d = Demo.preprocesser (texts_of GermEval17 Demo.germeval17_train) /\
    length (X d) =
      length (filter (retained GermEval17) (rows Demo.germeval17_train)) /\
    length (y d) = length (X d).
Proof.
  eapply (@X9_construction_succeeds Demo.ext _ GermEval17 Demo.preprocesser
            "datasets" (PStr "Category") false false float_0_2 (Some 42)
            Demo.w0 Demo.germeval17_train 4%nat).
  - exact Demo_row_per_text.
  - intros _. reflexivity.
  - reflexivity.
  - reflexivity.
  - repeat split; cbn; lia.
  - vm_compute. repeat constructor.
  - vm_compute. reflexivity.
Defined.

Lemma X10_witness :
  exists d w',
    construct GermEval17 Demo.preprocesser "datasets" (PStr "Category")
      false false float_0_2 (Some 42) Demo.w0 = (inr d, w') /\
    num_classes d =
      match vocab_of GermEval17 (PStr "Category") with
      | Some vocab => ok (length vocab)
      | None => throw AttributeError
      end /\
    (GermEval17 <> GermEval21 ->
     Forall (fun lab => exists j n,
                          lab = PInt (Z.of_nat j) /\
                          num_classes d = ok n /\ (j < n)%nat) (y d)).
Proof.
  run_concrete.
  eapply (@X10_labels_below_num_classes Demo.ext _ GermEval17
            Demo.preprocesser "datasets" (PStr "Category") false false
            float_0_2 (Some 42) Demo.w0).
  run_eq.
Defined.

Lemma X11_witness :
  fst (construct GermEval17 Demo.preprocesser "datasets" (PStr "Relevance")
         false true float_0_2 (Some 42) Demo.w0) =
  fst (construct GermEval17 Demo.preprocesser "datasets" (PStr "Relevance")
         false true float_0_2 (Some 42) (@Build_world Demo.ext 7 ["x"])).
Proof.
  apply (@X11_construction_reproducible Demo.ext _ GermEval17
           Demo.preprocesser "datasets" (PStr "Relevance") false true
           float_0_2 (Some 42) Demo.w0 (@Build_world Demo.ext 7 ["x"])).
  intros _ H. cbn in H. discriminate H.
Defined.

Lemma X12_witness :
  exists d w',
    construct GermEval18 Demo.preprocesser "datasets" (PStr "A")
      false false float_0_2 (Some 42) Demo.w0 = (inr d, w') /\
    __len__ d = length (X d) /\
    exists x l,
      nth_error (X d) 1 = Some x /\
      nth_error (y d) 1 = Some l /\
      __getitem__ d (Z.of_nat 1) = ok (x, l).
Proof.
  run_concrete.
  eapply (@X12_getitem_in_file_order Demo.ext _ GermEval18
            Demo.preprocesser "datasets" (PStr "A") false false
            float_0_2 (Some 42) Demo.w0 _ _ 1%nat).
  - exact Demo_row_per_text.
  - run_eq.
  - reflexivity.
  - cbn. lia.
Defined.

Lemma X13_witness :
  exists d w',
    construct GermEval17 Demo.preprocesser "datasets" (PStr "Relevance")
      false false float_0_2 (Some 42) Demo.w0 = (inr d, w') /\
    exists data,
      @read_csv Demo.ext
        (data_path GermEval17 "datasets" (PStr "Relevance") false) tab =
        inr data /\
      X d = Demo.preprocesser (texts_of GermEval17 data) /\
      texts_of GermEval17 data =
        filter isinstance_str (map (fun row => nth 1 row PNaN) (rows data)) /\
      Forall (fun t => exists s, t = PStr s) (texts_of GermEval17 data).
Proof.
  run_concrete.
  eapply (@X13_GermEval17_texts_are_strings Demo.ext _ Demo.preprocesser
            "datasets" (PStr "Relevance") false false float_0_2 (Some 42)
            Demo.w0).
  run_eq.
Defined.

Lemma X14_witness :
  exists d w',
    construct GermEval18 Demo.preprocesser "datasets" (PStr "A")
      false false float_0_2 (Some 42) Demo.w0 = (inr d, w') /\
    exists data,
      @read_csv Demo.ext
        (data_path GermEval18 "datasets" (PStr "A") false)
        (sep_of GermEval18) = inr data /\
      X d = Demo.preprocesser
              (map (fun row => nth (text_col GermEval18) row PNaN)
                 (rows data)) /\
      length (X d) = length (rows data) /\
      length (y d) = length (rows data).
Proof.
  run_concrete.
  eapply (@X14_no_row_dropped Demo.ext _ GermEval18 Demo.preprocesser
            "datasets" (PStr "A") false false float_0_2 (Some 42) Demo.w0).
  - left. reflexivity.
  - exact Demo_row_per_text.
  - run_eq.
Defined.

Lemma X15_witness :
  construct GermEval18 Demo.preprocesser "nowhere" (PStr "A") false false
    float_0_2 (Some 42) Demo.w0 =
  (inl (OSError "nowhere/germeval18/train.txt"),
   with_read (data_path GermEval18 "nowhere" (PStr "A") false) Demo.w0).
Proof.
  eapply (@X15_read_error_is_passed_on Demo.ext _ GermEval18
            Demo.preprocesser "nowhere" (PStr "A") false false float_0_2
            (Some 42) Demo.w0).
  - intros _. reflexivity.
  - reflexivity.
Defined.

Lemma X16_witness :
  exists d w',
    @construct DemoMore.ext _ GermEval21 Demo.preprocesser "datasets"
      (PStr "TOXIC") false false float_0_2 (Some 42) DemoMore.w0 =
      (inr d, w') /\
    exists data col,
      @read_csv DemoMore.ext
        (data_path GermEval21 "datasets" (PStr "TOXIC") false) "," =
        inr data /\
      label_col GermEval21 (PStr "TOXIC") = inr col /\
      y d = map (fun row => nth col row PNaN) (rows data) /\
      Forall (fun lab => isinstance_str lab = false) (y d) /\
      labels d = None /\
      num_classes d = ok 2%nat.
Proof.
  run_concrete.
  eapply (@X16_GermEval21_labels_are_raw DemoMore.ext _ Demo.preprocesser
            "datasets" (PStr "TOXIC") false false float_0_2 (Some 42)
            DemoMore.w0).
  run_eq.
Defined.

Lemma X17_witness :
  @construct DemoMore.ext _ GermEval17 Demo.preprocesser "narrow"
    (PStr "Sentiment") false false float_0_2 (Some 42) DemoMore.w0 =
  (inl IndexError,
   with_read (data_path GermEval17 "narrow" (PStr "Sentiment") false)
     DemoMore.w0).
Proof.
  eapply (@X17_missing_column_raises DemoMore.ext _ GermEval17
            Demo.preprocesser "narrow" (PStr "Sentiment") false false
            float_0_2 (Some 42) DemoMore.w0 DemoMore.germeval17_four_columns).
  - intros _. reflexivity.
  - reflexivity.
  - cbn. lia.
Defined.
